(** * box: query helpers, command-line driver and interactive session

    A shallow embedding of three source files of the box image builder:
    - [builder/funcs.go]: the read-only queries [getenv], [read], [getuid]
      and [getgid] offered to build plans;
    - [main.go]: the command-line driver ([main], [runMulti], [runRepl],
      [getCache], [detectFile], [parseVars]);
    - the [repl] package: [NewRepl], [handleError], [Loop], [checkQuit],
      [readChannels] and [doLoop].

    Go strings are byte strings and are modelled as [string]; Go maps with
    string keys are [gmap string _]; [int] values that the code only
    compares or copies are [Z]. Code that can leave a function in several
    ways (a returned value, [os.Exit], a run-time panic) returns an
    [Outcome]; what it prints, logs, registers or calls on the way is kept
    as a list of events. Packages of the repository that are not among the
    three files are parameters of the model (the evaluator, the builder,
    the constructors of the session), except the signal handler, which is
    written after its description. *)

From Stdlib Require Import ZArith NArith Ascii String DecimalString.
From stdpp Require Import base option list strings gmap.

Local Open Scope string_scope.
Local Open Scope list_scope.

(** ** Go standard-library functions used by the sources *)

Module GoStrings.

(** The byte [0x22], the double quote. *)
Definition dquote : ascii := ascii_of_nat 34.
(** The byte [0x5c], the backslash. *)
Definition backslash : ascii := ascii_of_nat 92.
(** The byte [0x0a], written ["\n"] in Go. *)
Definition newline : ascii := ascii_of_nat 10.

Definition NL : string := String newline "".

(** [strings.Split(s, sep)] for a one-byte separator, which is what every
    call site in the sources passes. The result is never empty: a string
    without the separator is returned whole, the empty string gives [[""]]. *)
Fixpoint Split (s : string) (sep : ascii) : list string :=
  match s with
  | EmptyString => [EmptyString]
  | String c s' =>
      if Ascii.eqb c sep then EmptyString :: Split s' sep
      else match Split s' sep with
           | p :: ps => String c p :: ps
           | [] => [String c EmptyString]
           end
  end.

(** The pieces of [strings.SplitN] when at most [n] pieces are asked for:
    the last piece is the unsplit remainder. *)
Fixpoint splitUpTo (s : string) (sep : ascii) (n : nat) {struct s} : list string :=
  match n with
  | 0 => []
  | 1 => [s]
  | S n' =>
      match s with
      | EmptyString => [EmptyString]
      | String c s' =>
          if Ascii.eqb c sep then EmptyString :: splitUpTo s' sep n'
          else match splitUpTo s' sep n with
               | p :: ps => String c p :: ps
               | [] => [String c EmptyString]
               end
      end
  end.

(** [strings.SplitN(s, sep, n)]: [n = 0] gives no pieces, a negative [n]
    all of them. *)
Definition SplitN (s : string) (sep : ascii) (n : Z) : list string :=
  if (n <? 0)%Z then Split s sep else splitUpTo s sep (Z.to_nat n).

(** [strings.HasPrefix(s, p)]. *)
Fixpoint HasPrefix (s p : string) : bool :=
  match p, s with
  | EmptyString, _ => true
  | String a p', String b s' => Ascii.eqb a b && HasPrefix s' p'
  | String _ _, EmptyString => false
  end.

(** [strings.Contains(s, substr)]. *)
Fixpoint Contains (s substr : string) : bool :=
  HasPrefix s substr ||
  match s with
  | EmptyString => false
  | String _ s' => Contains s' substr
  end.

(** *** [strings.TrimSpace]

    White space is what [unicode.IsSpace] accepts. On the bytes of a
    string these are the six ASCII characters and the UTF-8 encodings of
    U+0085, U+00A0, U+1680, U+2000..U+200A, U+2028, U+2029, U+202F, U+205F
    and U+3000. *)
Definition asciiSpace (b : N) : bool :=
  ((9 <=? b) && (b <=? 13) || (b =? 32))%N.

(** Width in bytes of the white-space rune at the head of [bs]; [0] when
    the head is not white space. *)
Definition spaceWidth (bs : list N) : nat :=
  match bs with
  | [] => 0
  | b1 :: t1 =>
      if asciiSpace b1 then 1
      else match t1 with
           | [] => 0
           | b2 :: t2 =>
               if ((b1 =? 194) && ((b2 =? 133) || (b2 =? 160)))%N then 2
               else match t2 with
                    | [] => 0
                    | b3 :: _ =>
                        if ((b1 =? 225) && (b2 =? 154) && (b3 =? 128)
                            || (b1 =? 226) && (b2 =? 128) &&
                               ((128 <=? b3) && (b3 <=? 138) || (b3 =? 168)
                                || (b3 =? 169) || (b3 =? 175))
                            || (b1 =? 226) && (b2 =? 129) && (b3 =? 159)
                            || (b1 =? 227) && (b2 =? 128) && (b3 =? 128))%N
                        then 3 else 0
                    end
           end
  end.

(** The same for the rune that ends a string, on the reversed bytes. *)
Definition spaceWidthRev (rs : list N) : nat :=
  match rs with
  | [] => 0
  | b1 :: t1 =>
      if asciiSpace b1 then 1
      else match t1 with
           | [] => 0
           | b2 :: t2 =>
               if Nat.eqb (spaceWidth [b2; b1]) 2 then 2
               else match t2 with
                    | [] => 0
                    | b3 :: _ => if Nat.eqb (spaceWidth [b3; b2; b1]) 3 then 3 else 0
                    end
           end
  end.

Fixpoint trimWith (width : list N -> nat) (fuel : nat) (bs : list N) : list N :=
  match fuel with
  | 0 => bs
  | S fuel' =>
      match width bs with
      | 0 => bs
      | w => trimWith width fuel' (drop w bs)
      end
  end.

Definition bytesOf (s : string) : list N := N_of_ascii <$> list_ascii_of_string s.
Definition ofBytes (bs : list N) : string := string_of_list_ascii (ascii_of_N <$> bs).

Definition TrimSpace (s : string) : string :=
  let bs := bytesOf s in
  let l := trimWith spaceWidth (length bs) bs in
  let r := trimWith spaceWidthRev (length l) (reverse l) in
  ofBytes (reverse r).

(** *** The [%q] and [%d] verbs of [fmt.Sprintf] *)

Definition hexDigit (n : N) : ascii :=
  ascii_of_N (if (n <? 10)%N then 48 + n else 87 + n).

(** One byte as [strconv.Quote] writes it. Printable ASCII is copied, the
    quote and the backslash are escaped, the control characters with a
    short escape use it, and every other byte is written [\xNN]. Bytes from
    [0x80] up are written [\xNN], which is what Go does with bytes that are
    not valid UTF-8; printable runes outside ASCII, which Go copies, are
    not covered. *)
Definition quoteByte (c : ascii) : string :=
  let n := N_of_ascii c in
  let esc (x : string) := String backslash x in
  if Ascii.eqb c dquote then esc (String dquote "")
  else if Ascii.eqb c backslash then esc (String backslash "")
  else if ((32 <=? n) && (n <? 127))%N then String c ""
  else if (n =? 7)%N then esc "a"
  else if (n =? 8)%N then esc "b"
  else if (n =? 12)%N then esc "f"
  else if (n =? 10)%N then esc "n"
  else if (n =? 13)%N then esc "r"
  else if (n =? 9)%N then esc "t"
  else if (n =? 11)%N then esc "v"
  else String backslash
         (String "x"%char (String (hexDigit (n / 16)) (String (hexDigit (n mod 16)) ""))).

Fixpoint quoteBody (s : string) : string :=
  match s with
  | EmptyString => EmptyString
  | String c s' => quoteByte c +:+ quoteBody s'
  end.

Definition Quote (s : string) : string :=
  String dquote (quoteBody s +:+ String dquote "").

(** [%d] of a length. *)
Definition Itoa (n : nat) : string := NilZero.string_of_uint (Nat.to_uint n).

End GoStrings.

(** ** Ways of leaving a function *)

(** [Return] is a value handed back to the caller, [Exit] a call of
    [os.Exit] and [Panic] a Go run-time panic (in these sources always an
    index out of range, or a panic raised inside the evaluator or the
    builder). *)
Inductive Outcome (A : Type) : Type :=
| Return (v : A)
| Exit (code : Z)
| Panic (msg : string).

Arguments Return {A} v.
Arguments Exit {A} code.
Arguments Panic {A} msg.

(** ** builder/funcs.go: queries for build plans *)

Module Funcs.
Import GoStrings.

(** The pair a query hands back to mruby: [(mruby.String(s), nil)] or
    [(nil, createException(m, msg))]. *)
Inductive MrbResult : Type :=
| MrbString (s : string)
| MrbException (msg : string).

(** What a query can do besides computing its result. [ReadContainer] is
    a call of [b.containerContent], the only way these queries reach the
    container engine. *)
Inductive Effect : Type :=
| Stdout (s : string)
| ReadContainer (path : string).

(** The part of [*Builder] the queries use. [containerContent] gives the
    bytes of a file of the image built so far, or the text of an error. *)
Record Builder : Type := mkBuilder {
  ImageID : string;
  containerContent : string -> string + string
}.

(** The part of [*mruby.Mrb] the queries use: the arguments of the call,
    each as [String()] renders it. *)
Record Mrb : Type := mkMrb { GetArgs : list string }.

Definition createException (m : Mrb) (msg : string) : MrbResult := MrbException msg.

Definition funcFunc : Type := Builder -> Mrb -> Outcome MrbResult * list Effect.

Record funcDefinition : Type := mkFuncDefinition {
  fun_ : funcFunc;
  argSpec : nat
}.

(** [mruby.ArgsReq(n)]: [n] required arguments. *)
Definition ArgsReq (n : nat) : nat := n.

Definition indexPanic {A} : Outcome A := Panic "index out of range".

Definition noImage : string :=
  "from has not been called, no image can be used to get the UID".

Definition argCount (n : nat) : string := "Expected 1 arg, got " +:+ Itoa n.

Section Queries.

(** The environment of the process: [os.Getenv] gives the empty string
    for a variable that is not set. *)
Variable environ : gmap string string.

Definition Getenv (key : string) : string := default "" (environ !! key).

Definition getenv (b : Builder) (m : Mrb) : Outcome MrbResult * list Effect :=
  let args := GetArgs m in
  if negb (length args =? 1)%nat then
    (Exit 1, [Stdout ("Invalid arg count in getenv: " +:+ Itoa (length args) +:+ ", must be 1")])
  else
    match args !! 0%nat with
    | Some a0 => (Return (MrbString (Getenv a0)), [])
    | None => (indexPanic, [])
    end.

Definition read (b : Builder) (m : Mrb) : Outcome MrbResult * list Effect :=
  let args := GetArgs m in
  if negb (length args =? 1)%nat then
    (Return (createException m (argCount (length args))), [])
  else if String.eqb (ImageID b) "" then
    (Return (createException m noImage), [])
  else
    match args !! 0%nat with
    | None => (indexPanic, [])
    | Some a0 =>
        match containerContent b a0 with
        | inr err => (Return (createException m err), [ReadContainer a0])
        | inl content => (Return (MrbString content), [ReadContainer a0])
        end
    end.

(** The [for] loop that [getuid] and [getgid] both run over the lines of
    the file. The first line whose first field is [name] ends it: with its
    third field, or with a panic of [parts[2]] when the line has fewer than
    three fields. [NoMatch] is the loop running to its end. *)
Inductive Scan : Type :=
| Found (id : string)
| OutOfRange
| NoMatch.

Fixpoint scanEntries (entries : list string) (name : string) : Scan :=
  match entries with
  | [] => NoMatch
  | ent :: rest =>
      let parts := Split ent ":" in
      match parts !! 0%nat with
      | None => OutOfRange
      | Some p0 =>
          if String.eqb p0 name then
            match parts !! 2%nat with
            | Some p2 => Found p2
            | None => OutOfRange
            end
          else scanEntries rest name
      end
  end.

Definition getuid (b : Builder) (m : Mrb) : Outcome MrbResult * list Effect :=
  let args := GetArgs m in
  if negb (length args =? 1)%nat then
    (Return (createException m (argCount (length args))), [])
  else if String.eqb (ImageID b) "" then
    (Return (createException m noImage), [])
  else
    match containerContent b "/etc/passwd" with
    | inr err => (Return (createException m err), [ReadContainer "/etc/passwd"])
    | inl content =>
        match args !! 0%nat with
        | None => (indexPanic, [ReadContainer "/etc/passwd"])
        | Some user =>
            let entries := Split content newline in
            match scanEntries entries user with
            | Found id => (Return (MrbString id), [ReadContainer "/etc/passwd"])
            | OutOfRange => (indexPanic, [ReadContainer "/etc/passwd"])
            | NoMatch =>
                (Return (createException m ("Could not find user " +:+ Quote user)),
                 [ReadContainer "/etc/passwd"])
            end
        end
    end.

Definition getgid (b : Builder) (m : Mrb) : Outcome MrbResult * list Effect :=
  let args := GetArgs m in
  if negb (length args =? 1)%nat then
    (Return (createException m (argCount (length args))), [])
  else if String.eqb (ImageID b) "" then
    (Return (createException m noImage), [])
  else
    match containerContent b "/etc/group" with
    | inr err => (Return (createException m err), [ReadContainer "/etc/group"])
    | inl content =>
        match args !! 0%nat with
        | None => (indexPanic, [ReadContainer "/etc/group"])
        | Some group =>
            let entries := Split content newline in
            match scanEntries entries group with
            | Found id => (Return (MrbString id), [ReadContainer "/etc/group"])
            | OutOfRange => (indexPanic, [ReadContainer "/etc/group"])
            | NoMatch =>
                (Return (createException m ("Could not find group " +:+ Quote group)),
                 [ReadContainer "/etc/group"])
            end
        end
    end.

Definition funcJumpTable : gmap string funcDefinition :=
  <["getenv" := mkFuncDefinition getenv (ArgsReq 1)]>
  (<["getuid" := mkFuncDefinition getuid (ArgsReq 1)]>
  (<["getgid" := mkFuncDefinition getgid (ArgsReq 1)]>
  (<["read" := mkFuncDefinition read (ArgsReq 1)]> ∅))).

End Queries.

(** The queries that look into the image. *)
Definition guardedQueries : list funcFunc := [read; getuid; getgid].

(** The container-engine calls among the effects of a query. *)
Definition engineCalls (es : list Effect) : list string :=
  omap (fun e => match e with ReadContainer p => Some p | Stdout _ => None end) es.

(** A query needs an image when, called with one argument on a builder
    that has none, it always ends in an exception. *)
Definition requiresImage (f : funcFunc) : Prop :=
  forall b a, ImageID b = "" ->
    exists msg, fst (f b (mkMrb [a])) = Return (MrbException msg).

(** An image whose [/etc/passwd] is the line of the example. *)
Definition passwdLine : string :=
  "alice:x:1000:1000::/home/alice:/bin/bash" +:+ NL.

Definition exampleBuilder : Builder :=
  mkBuilder "sha256:0a1b"
    (fun path => if String.eqb path "/etc/passwd" then inl passwdLine
                 else inr ("no such file: " +:+ path)).

Definition emptyBuilder : Builder :=
  mkBuilder "" (fun path => inr ("no such container: " +:+ path)).

End Funcs.

(** ** What the driver and the session do besides computing *)

Definition Scope : Type := nat.

(** A cancellation scope is the pair that [context.WithCancel] returns; a
    runner is the channel of a build. [Printf] keeps the format and the
    rendered arguments apart. *)
Inductive Event : Type :=
| Printf (format : string) (args : list string)
| PrintHelp
| ShowAppHelp
| LogError (msg : string)
| LogEvalResponse (value : string)
| LogTag (tag : string)
| LogFinish (id : string)
| CloseBuilder
| Cancel (s : Scope)
| WithCancel (s : Scope)
| AddFunc (s : Scope)
| AddRunner
| SetPrompt (p : string)
| Sync
| CallRunCode (code : string) (stackKeep : Z) (ctx : Scope)
| CallNewDocker
| CallNewInterpreter (vars : gmap string string)
| CallNewMRuby.

(** Code that logs events and may stop early: the events so far are kept
    when a step exits or panics. *)
Definition M (A : Type) : Type := Outcome A * list Event.

#[global] Instance M_ret : MRet M := fun A a => (Return a, []).

#[global] Instance M_bind : MBind M := fun A B f m =>
  match m with
  | (Return a, l) => let '(o, l') := f a in (o, l ++ l')
  | (Exit c, l) => (Exit c, l)
  | (Panic p, l) => (Panic p, l)
  end.

Definition emit (e : Event) : M unit := (Return tt, [e]).
Definition osExit {A} (code : Z) : M A := (Exit code, []).
Definition panic {A} (msg : string) : M A := (Panic msg, []).

(** A call of code that is not under these sources and logs nothing
    here: it returns, or it ends the caller by [os.Exit] or by a panic. *)
Definition call {A} (o : Outcome A) : M A := (o, []).

(** [defer]: the deferred call runs when the body returns and when a
    panic unwinds through it; [os.Exit] ends the process without running
    it. *)
Definition defer {A} (deferred : Event) (body : M A) : M A :=
  match body with
  | (Return a, l) => (Return a, l ++ [deferred])
  | (Exit c, l) => (Exit c, l)
  | (Panic p, l) => (Panic p, l ++ [deferred])
  end.

Definition outcome {A} (m : M A) : Outcome A := fst m.
Definition events {A} (m : M A) : list Event := snd m.

(** ** The types package *)

Module Types.

Record Logger : Type := mkLogger { logName : string; notrim : bool }.

Record Global : Type := mkGlobal {
  OmitFuncs : list string;
  TTY : bool;
  Color : bool;
  Cache : bool;
  ShowRun : bool;
  Log : Logger;
  Context : Scope
}.

Record BuildResult : Type := mkBuildResult {
  Value : string;
  Err : option string
}.

Definition setContext (g : Global) (s : Scope) : Global :=
  mkGlobal (OmitFuncs g) (TTY g) (Color g) (Cache g) (ShowRun g) (Log g) s.

End Types.

(** ** The signal package: the cancellation coordinator *)

Module Signal.

(** Modelled from the spec: the [signal] package, whose [Handler] the
    sources configure and register with, is not among them. The handler
    keeps the cancel functions and the runners registered with it;
    [Trigger] calls every registered cancel function once, releases every
    registered runner once and clears both lists; the process ends
    afterwards only in terminate mode ([HExit]). *)
Record Handler : Type := mkHandler {
  HExit : bool;
  IgnoreRunners : bool;
  hfuncs : list Scope;
  hrunners : nat
}.

(** The handler of a process that has just started is in terminate mode. *)
Definition initial : Handler := mkHandler true false [] 0.

Definition setInteractive (h : Handler) : Handler :=
  mkHandler false true (hfuncs h) (hrunners h).

Definition addFunc (h : Handler) (s : Scope) : Handler :=
  mkHandler (HExit h) (IgnoreRunners h) (hfuncs h ++ [s]) (hrunners h).

Definition addRunner (h : Handler) : Handler :=
  mkHandler (HExit h) (IgnoreRunners h) (hfuncs h) (S (hrunners h)).

(** The scopes that exist, and those already cancelled. Cancelling a
    scope twice changes nothing. *)
Record Scopes : Type := mkScopes {
  nextScope : Scope;
  cancelled : gset Scope
}.

Definition withCancel (w : Scopes) : Scope * Scopes :=
  (nextScope w, mkScopes (S (nextScope w)) (cancelled w)).

Definition cancelScope (s : Scope) (w : Scopes) : Scopes :=
  mkScopes (nextScope w) ({[s]} ∪ cancelled w).

Definition live (w : Scopes) (s : Scope) : Prop :=
  s < nextScope w /\ s ∉ cancelled w.

(** Modelled from the spec: [Trigger] calls every registered cancel
    function and clears the lists. It gives the handler afterwards, the
    scopes afterwards, and whether the process ends. *)
Definition Trigger (h : Handler) (w : Scopes) : Handler * Scopes * bool :=
  (mkHandler (HExit h) (IgnoreRunners h) [] 0,
   foldr cancelScope w (hfuncs h),
   HExit h).

End Signal.

(** ** The repl package: the interactive session *)

Module Repl.
Import GoStrings Types Signal.

Definition normalPrompt : string := "box> ".
Definition multilinePrompt : string := "box*> ".

(** An error of the evaluator, told apart the way [doLoop] does with
    [err.(type)]: a [*gm.ParserError] or anything else. *)
Inductive EvalError : Type :=
| ParserError (msg : string)
| OtherError (msg : string).

Definition errorText (e : EvalError) : string :=
  match e with ParserError m | OtherError m => m end.

Definition isParserError (err : option EvalError) : bool :=
  match err with Some (ParserError _) => true | _ => false end.

(** A call of [RunCode] returns the new stack depth and an error, or
    panics inside the interpreter. *)
Inductive RunCodeResult (E : Type) : Type :=
| Returned (e : E) (newKeep : Z) (err : option EvalError)
| Panicked (msg : string).

Arguments Returned {E} e newKeep err.
Arguments Panicked {E} msg.

(** builder/evaluator/evaluator.go: the [Evaluator] interface. The state
    of the evaluator is passed and returned explicitly. *)
Class Evaluator (E : Type) : Type := {
  Result : E -> BuildResult;
  RunCode : E -> string -> Z -> bool -> RunCodeResult E;
  RunScript : E -> string -> E * option string;
  Close : E -> E * option string
}.

(** [mruby.Config]. *)
Record Config (Exec Interp : Type) : Type := mkConfig {
  Filename : string;
  Globals : Global;
  Interp_ : Interp;
  Exec_ : Exec
}.

Arguments mkConfig {Exec Interp}.

(** The constructors of other packages that the session calls:
    [readline.New] (its error, if any), [term.IsTerminal(1)],
    [docker.NewDocker], [command.NewInterpreter] and [mruby.NewMRuby]. *)
Class Backend (E Exec Interp : Type) : Type := {
  readlineNew : option string;
  termIsTerminal : bool;
  NewDocker : Global -> Exec + string;
  NewInterpreter : Global -> Exec -> gmap string string -> Interp;
  NewMRuby : Config Exec Interp -> E + string
}.

(** What the reader goroutine or the signal channel hands to the
    [select] of [readChannels]. *)
Inductive ReadErr : Type :=
| EOF
| Interrupt
| ReadFailure (msg : string).

Inductive ChanInput : Type :=
| FromErrChan (err : ReadErr)
| FromSignals (pending : option ReadErr)
| FromLineChan (tmp : string).

Section Session.
Context {E Exec Interp : Type} `{Evaluator E} `{Backend E Exec Interp}.

(** [Repl]; of [readline] the prompt is kept. *)
Record Repl : Type := mkRepl {
  readline : string;
  evaluator : E;
  globals : Global;
  vars : gmap string string
}.

Definition setPrompt (r : Repl) (p : string) : Repl :=
  mkRepl p (evaluator r) (globals r) (vars r).
Definition setEvaluator (r : Repl) (e : E) : Repl :=
  mkRepl (readline r) e (globals r) (vars r).
Definition setGlobals (r : Repl) (g : Global) : Repl :=
  mkRepl (readline r) (evaluator r) g (vars r).

(** The state of the process that the session shares with the signal
    handler. *)
Record Process : Type := mkProcess {
  handler : Handler;
  scopes : Scopes
}.

Definition NewRepl (omit : list string) (log : Logger) (vs : gmap string string)
    (p : Process) : M (Process * (Repl + string)) :=
  match readlineNew with
  | Some err => mret (p, inr err)
  | None =>
      let h := setInteractive (handler p) in
      let '(ctx, w) := withCancel (scopes p) in
      emit (WithCancel ctx);;
      let g := mkGlobal omit termIsTerminal true false true log ctx in
      emit CallNewDocker;;
      match NewDocker g with
      | inr err =>
          emit (Cancel ctx);;
          mret (mkProcess h (cancelScope ctx w), inr err)
      | inl exec =>
          emit (CallNewInterpreter vs);;
          emit CallNewMRuby;;
          match NewMRuby (mkConfig "repl" g (NewInterpreter g exec vs) exec) with
          | inr err =>
              emit (Cancel ctx);;
              mret (mkProcess h (cancelScope ctx w), inr err)
          | inl e =>
              emit (AddFunc ctx);;
              mret (mkProcess (addFunc h ctx) w, inl (mkRepl normalPrompt e g vs))
          end
      end
  end.

Definition exitHint : string :=
  "You can press ^D or type " +:+ Quote "quit" +:+ " or " +:+ Quote "exit"
  +:+ " to exit the shell".

(** The reader only sends errors that are not [nil], so the last
    [return false] of the source is never reached from [readChannels]. *)
Definition handleError (r : Repl) (line : string) (err : ReadErr) : M (Repl * bool) :=
  match err with
  | EOF => osExit 0
  | Interrupt =>
      if negb (String.eqb line "") then
        emit (SetPrompt normalPrompt);; mret (setPrompt r normalPrompt, true)
      else
        emit (Printf "%s\n" [exitHint]);; mret (r, true)
  | ReadFailure msg =>
      emit (Printf "+++ Error %#v\n" [msg]);; osExit 1
  end.

Definition checkQuit (r : Repl) (line : string) : M (Repl * bool * option string) :=
  let t := TrimSpace line in
  if String.eqb t "quit" then osExit 0
  else if String.eqb t "exit" then osExit 0
  else if String.eqb t "help" then emit PrintHelp;; mret (r, true, None)
  else if String.eqb t "reset" then
    emit CallNewDocker;;
    match NewDocker (globals r) with
    | inr err => mret (r, false, Some err)
    | inl exec =>
        emit (CallNewInterpreter (vars r));;
        emit CallNewMRuby;;
        match NewMRuby (mkConfig "repl" (globals r)
                          (NewInterpreter (globals r) exec (vars r)) exec) with
        | inr err => mret (r, false, Some err)
        | inl e => mret (setEvaluator r e, true, None)
        end
    end
  else mret (r, false, None).

Definition readChannels (r : Repl) (line : string) (inp : ChanInput)
    : M (Repl * string * bool) :=
  match inp with
  | FromErrChan err =>
      '(r', handled) ← handleError r line err;
      if handled : bool then mret (r', "", true)
      else mret (r', line +:+ "" +:+ NL, false)
  | FromSignals pending =>
      emit (Printf "%s\n" ["Statement canceled."]);;
      r' ← match pending with
           | Some err => '(r', _) ← handleError r line err; mret r'
           | None => mret r
           end;
      mret (r', "", true)
  | FromLineChan tmp => mret (r, line +:+ tmp +:+ NL, false)
  end.

(** The variables of [doLoop] together with the receiver and the state
    of the process. *)
Record State : Type := mkState {
  repl : Repl;
  proc : Process;
  line : string;
  stackKeep : Z;
  cancel : option Scope
}.

(** The first part of the body of the [for] loop, up to the registration
    of the new cancel function. *)
Definition beginIteration (st : State) : M State :=
  w1 ← match cancel st with
       | Some c => emit (Cancel c);; mret (cancelScope c (scopes (proc st)))
       | None => mret (scopes (proc st))
       end;
  let '(ctx, w2) := withCancel w1 in
  emit (WithCancel ctx);;
  let r1 := setGlobals (repl st) (setContext (globals (repl st)) ctx) in
  emit (AddFunc ctx);;
  mret (mkState r1 (mkProcess (addFunc (handler (proc st)) ctx) w2)
          (line st) (stackKeep st) (Some ctx)).

(** The rest of the body, from [readChannels] on. *)
Definition evaluateInput (st : State) (inp : ChanInput) : M State :=
  '(r2, line1, cont) ← readChannels (repl st) (line st) inp;
  if cont : bool then
    emit Sync;; mret (mkState r2 (proc st) line1 (stackKeep st) (cancel st))
  else
    '(r3, skip, err) ← checkQuit r2 line1;
    match err with
    | Some e => emit (Printf "+++ Error: %v\n" [e]);; osExit 1
    | None =>
        if skip : bool then
          emit Sync;; mret (mkState r3 (proc st) "" (stackKeep st) (cancel st))
        else
          emit (CallRunCode line1 (stackKeep st) (Context (globals r3)));;
          match RunCode (evaluator r3) line1 (stackKeep st) false with
          | Panicked msg => panic msg
          | Returned e newKeep err =>
              let r4 := setEvaluator r3 e in
              if isParserError err && (newKeep =? stackKeep st)%Z then
                emit (SetPrompt multilinePrompt);;
                emit Sync;;
                mret (mkState (setPrompt r4 multilinePrompt) (proc st) line1
                        (stackKeep st) (cancel st))
              else
                emit (SetPrompt normalPrompt);;
                let st' := mkState (setPrompt r4 normalPrompt) (proc st) ""
                             newKeep (cancel st) in
                match err with
                | Some e =>
                    emit (Printf "+++ Error: %v\n" [errorText e]);;
                    emit Sync;; mret st'
                | None =>
                    (if negb (String.eqb (Value (Result e)) "") then
                       emit (LogEvalResponse (Value (Result e)))
                     else emit (LogEvalResponse "Executed!"));;
                    emit Sync;; mret st'
                end
          end
    end.

(** One turn of the [for] loop of [doLoop]. *)
Definition iteration (st : State) (inp : ChanInput) : M State :=
  st1 ← beginIteration st; evaluateInput st1 inp.

(** [doLoop] over the inputs that arrive. The loop has no exit of its
    own: it ends by [os.Exit] or by a panic, and [Return st] is the loop
    waiting in [readChannels] with state [st] once the inputs given are
    used up. *)
Fixpoint doLoopFrom (st : State) (inputs : list ChanInput) : M State :=
  match inputs with
  | [] => mret st
  | inp :: rest => st' ← iteration st inp; doLoopFrom st' rest
  end.

Definition initialState (r : Repl) (p : Process) : State :=
  mkState r p "" 0%Z None.

Definition doLoop (r : Repl) (p : Process) (inputs : list ChanInput) : M State :=
  doLoopFrom (initialState r p) inputs.

(** The deferred function of [Loop]: a panic is recovered, reported and
    turned into [os.Exit(2)]. *)
Definition recover {A} (m : M A) : M A :=
  match m with
  | (Panic msg, l) =>
      (Exit 2, l ++ [Printf "Aborting due to interpreter error: %v\n" [msg]])
  | other => other
  end.

Definition Loop (r : Repl) (p : Process) (inputs : list ChanInput) : M State :=
  recover (emit PrintHelp;; doLoop r p inputs).

(** An interrupt that reaches the signal handler while the session is in
    state [st]. *)
Definition interrupt (st : State) : State * bool :=
  let '(h, w, ends) := Trigger (handler (proc st)) (scopes (proc st)) in
  (mkState (repl st) (mkProcess h w) (line st) (stackKeep st) (cancel st), ends).

End Session.

Arguments Repl : clear implicits.
Arguments State : clear implicits.

End Repl.

(** ** main.go: the command-line driver *)

Module Main.
Import GoStrings Types Signal.

Definition defaultFile : string := "box.rb".

(** [*cli.Context]: the positional arguments and the flag accessors. *)
Record CliContext : Type := mkCliContext {
  Args : list string;
  Bool : string -> bool;
  GlobalBool : string -> bool;
  String_ : string -> string;
  StringSlice : string -> list string;
  GlobalStringSlice : string -> list string
}.

(** [os.Stat] as far as [os.IsNotExist] tells its results apart. *)
Inductive StatResult : Type :=
| StatOK
| StatNotExist
| StatOtherError.

(** The surroundings of the process: environment variables, the file
    system as [os.Stat] sees it, and whether standard output is a
    terminal. *)
Record Host : Type := mkHost {
  environ : gmap string string;
  Stat : string -> StatResult;
  IsTerminal : bool
}.

Definition Getenv (host : Host) (key : string) : string :=
  default "" (environ host !! key).

(** [builder.BuildConfig]. *)
Record BuildConfig : Type := mkBuildConfig {
  Globals : Global;
  FileName : string;
  Vars : gmap string string
}.

(** The [builder] and [multi] packages as the driver uses them:
    [builder.NewBuilder], the methods [Run] and [Tag] of a builder and, for
    [multi.NewBuilder(builders)], [Build] followed by [Wait]. They run
    the engine and the build plan, and with the plan the queries of
    [funcs.go], of which [getenv] calls [os.Exit] and [getuid] and
    [getgid] can panic: each operation returns, exits or panics. *)
Class BuilderAPI (B : Type) : Type := {
  NewBuilder : BuildConfig -> Outcome (B + string);
  Run : B -> Outcome (B * BuildResult);
  Tag : B -> string -> Outcome (option string);
  MultiWait : list B -> Outcome (option string)
}.

Definition getCache (host : Host) (ctx : CliContext) : bool :=
  let cache := String.eqb (Getenv host "NO_CACHE") "" in
  let cache := if GlobalBool ctx "no-cache" then false else cache in
  cache.

Definition detectFile (host : Host) (ctx : CliContext) : M string :=
  let a := Args ctx in
  if (length a <? 1)%nat then
    match Stat host "box.rb" with
    | StatNotExist => emit ShowAppHelp;; osExit 0
    | _ => mret defaultFile
    end
  else
    match a !! 0%nat with
    | Some a0 => mret a0
    | None => panic "index out of range"
    end.

(** The [for] loop of [parseVars]: [vars[parts[0]] = parts[1]] for each
    argument in turn. *)
Fixpoint parseVarsFrom (vs : list string) (vars : gmap string string)
    : M (gmap string string) :=
  match vs with
  | [] => mret vars
  | v :: rest =>
      let parts := SplitN v "=" 2 in
      match parts !! 0%nat, parts !! 1%nat with
      | Some key, Some value => parseVarsFrom rest (<[key := value]> vars)
      | _, _ => panic "index out of range"
      end
  end.

Definition parseVars (ctx : CliContext) : M (gmap string string) :=
  parseVarsFrom (StringSlice ctx "var") ∅.

Section Driver.
Context {B : Type} `{BuilderAPI B}.
Context {E Exec Interp : Type} `{Repl.Evaluator E} `{Repl.Backend E Exec Interp}.

Definition mkBuilder (cancel : Scope) (buildConfig : BuildConfig) : M (B + string) :=
  made ← call (NewBuilder buildConfig);
  match made with
  | inr err => mret (inr err)
  | inl b => emit (AddFunc cancel);; emit AddRunner;; mret (inl b)
  end.

(** [app.Action], the default command. [b.Close()] is deferred once the
    builder exists: it runs when the function returns and when a panic
    unwinds from [b.Run] or [b.Tag]; [os.Exit] skips it. *)
Definition Action (host : Host) (ctx : CliContext) : M unit :=
  let notrim := GlobalBool ctx "no-trim" in
  if Bool ctx "help" then emit ShowAppHelp;; osExit 0
  else
    filename ← detectFile host ctx;
    let tty := IsTerminal host in
    let tty := if Bool ctx "no-tty" then false else tty in
    let tty := if Bool ctx "force-tty" then true else tty in
    let color := tty in
    let color := if Bool ctx "no-color" then false else color in
    let color := if Bool ctx "force-color" then true else color in
    emit (WithCancel 0);;
    let cache := getCache host ctx in
    vars ← parseVars ctx;
    let buildConfig :=
      mkBuildConfig
        (mkGlobal (GlobalStringSlice ctx "omit") tty color cache true
                  (mkLogger filename notrim) 0)
        filename vars in
    mb ← mkBuilder 0 buildConfig;
    match mb with
    | inr err => emit (LogError err);; osExit 1
    | inl b =>
        defer CloseBuilder (
          '(b, result) ← call (Run b);
          match Err result with
          | Some err => emit (LogError err);; osExit 1
          | None =>
              (if negb (String.eqb (Value result) "") then
                 emit (LogEvalResponse (Value result))
               else mret tt);;
              let tag := String_ ctx "tag" in
              (if negb (String.eqb tag "") then
                 failed ← call (Tag b tag);
                 match failed with
                 | Some err =>
                     emit (LogError ("Can't tag with tag " +:+ Quote tag +:+ ": " +:+ err));;
                     osExit 1
                 | None => emit (LogTag tag)
                 end
               else mret tt);;
              id ← (if Contains (Value result) ":" then
                      match SplitN (Value result) ":" 2 !! 1%nat with
                      | Some rest => mret rest
                      | None => panic "index out of range"
                      end
                    else mret (Value result));
              emit (LogFinish id)
          end)
    end.

(** The [for] loop of [runMulti] over the file names; [n] numbers the
    cancellation scopes. *)
Fixpoint multiBuilders (host : Host) (ctx : CliContext) (args : list string)
    (n : Scope) (builders : list B) : M (list B) :=
  match args with
  | [] => mret builders
  | filename :: rest =>
      emit (WithCancel n);;
      let cache := getCache host ctx in
      vars ← parseVars ctx;
      let buildConfig :=
        mkBuildConfig
          (mkGlobal (StringSlice ctx "omit" ++ ["debug"]) true true cache false
                    (mkLogger filename (GlobalBool ctx "no-trim")) n)
          filename vars in
      emit (AddFunc n);;
      emit AddRunner;;
      made ← call (NewBuilder buildConfig);
      match made with
      | inr err => emit (LogError err);; osExit 1
      | inl b => multiBuilders host ctx rest (S n) (builders ++ [b])
      end
  end.

Definition runMulti (host : Host) (ctx : CliContext) : M unit :=
  builders ← multiBuilders host ctx (Args ctx) 0 [];
  failed ← call (MultiWait builders);
  match failed with
  | Some err => emit (LogError err);; osExit 2
  | None => mret tt
  end.

(** How a command is left when it neither exits nor panics: the
    function returns, or (for the session, whose loop has no exit of its
    own) it waits for the next input. *)
Inductive Ending : Type :=
| Returns
| Waits.

Definition runRepl (ctx : CliContext) (inputs : list Repl.ChanInput) : M Ending :=
  let log := mkLogger "repl" (GlobalBool ctx "no-trim") in
  vars ← parseVars ctx;
  '(p, made) ← Repl.NewRepl (GlobalStringSlice ctx "omit") log vars
                 (Repl.mkProcess Signal.initial (mkScopes 0 ∅));
  match made with
  | inr err => emit (LogError ("bootstrapping repl: " +:+ err +:+ NL));; osExit 1
  | inl r => Repl.Loop r p inputs;; mret Waits
  end.

(** What [app.Run(os.Args)] makes of the command line: one of the three
    commands with its context, or an error of its own. *)
Inductive Invocation : Type :=
| Default (ctx : CliContext)
| Multi (ctx : CliContext)
| ReplCmd (ctx : CliContext) (inputs : list Repl.ChanInput)
| UsageError (err : string).

Definition main (host : Host) (inv : Invocation) : M Ending :=
  match inv with
  | Default ctx => Action host ctx;; mret Returns
  | Multi ctx => runMulti host ctx;; mret Returns
  | ReplCmd ctx inputs => runRepl ctx inputs
  | UsageError err => emit (LogError err);; osExit 1
  end.

(** The status with which the process ends, if it does: [main] returning
    gives 0, and an unrecovered panic ends a Go process with status 2. *)
Definition processStatus (o : Outcome Ending) : option Z :=
  match o with
  | Return Returns => Some 0%Z
  | Return Waits => None
  | Exit c => Some c
  | Panic _ => Some 2%Z
  end.

Definition exitStatus (host : Host) (inv : Invocation) : option Z :=
  processStatus (outcome (main host inv)).

End Driver.

End Main.

(** ** Small instances on which the model can be run *)

Module Examples.
Import GoStrings Types Signal.

(** An evaluator in the manner of mruby. Its state counts the statements
    run. Code that opens a [begin] and does not close it is a parser
    error that leaves the stack depth as it was; a [raise] is a run-time
    error; any other code runs and deepens the stack by one. *)
Definition stackRunCode (e : nat) (code : string) (keep : Z) (_ : bool)
    : Repl.RunCodeResult nat :=
  if Contains code "panic!" then Repl.Panicked "interpreter fault"
  else if Contains code "begin" && negb (Contains code "end") then
    Repl.Returned e keep (Some (Repl.ParserError "unexpected end of file"))
  else if Contains code "raise" then
    Repl.Returned e (keep + 1)%Z (Some (Repl.OtherError "unhandled exception"))
  else Repl.Returned (S e) (keep + 1)%Z None.

Definition stackEvaluator : Repl.Evaluator nat := {|
  Repl.Result e := mkBuildResult (if (e =? 0)%nat then "" else "sha256:" +:+ Itoa e) None;
  Repl.RunCode := stackRunCode;
  Repl.RunScript e _ := (e, None);
  Repl.Close e := (e, None)
|}.

(** Modelled from the spec: the incremental mode described for the
    script evaluator, which is not among the sources. A complete
    statement gives the baseline continuation (zero) and no error, an
    incomplete one a continuation that is not the baseline together with
    the error kind for incompleteness, and any other error the baseline
    and a terminal error. *)
Definition specRunCode (e : nat) (code : string) (keep : Z) (_ : bool)
    : Repl.RunCodeResult nat :=
  if Contains code "begin" && negb (Contains code "end") then
    Repl.Returned e 1%Z (Some (Repl.ParserError "incomplete statement"))
  else if Contains code "raise" then
    Repl.Returned e 0%Z (Some (Repl.OtherError "unhandled exception"))
  else Repl.Returned (S e) 0%Z None.

Definition specEvaluator : Repl.Evaluator nat := {|
  Repl.Result e := mkBuildResult (if (e =? 0)%nat then "" else "sha256:" +:+ Itoa e) None;
  Repl.RunCode := specRunCode;
  Repl.RunScript e _ := (e, None);
  Repl.Close e := (e, None)
|}.

(** Constructors that always succeed; the interpreter is the variables
    it was given. *)
Definition localBackend : Repl.Backend nat unit (gmap string string) := {|
  Repl.readlineNew := None;
  Repl.termIsTerminal := true;
  Repl.NewDocker _ := inl tt;
  Repl.NewInterpreter _ _ vs := vs;
  Repl.NewMRuby _ := inl 0
|}.

(** Builders named after their plan file: [missing.rb] cannot be
    loaded, [bad.rb] fails to build, [exits.rb] calls [getenv] with two
    arguments, which ends the process with status 1, [panics.rb] looks
    up a name whose line is too short with [getuid], which panics, and
    the tag [bad/tag] is refused. Waiting for several builds gives the
    first of these that goes wrong. *)
Definition fileRun (b : string) : Outcome (string * BuildResult) :=
  if String.eqb b "exits.rb" then Exit 1
  else if String.eqb b "panics.rb" then Panic "index out of range"
  else Return (b, if String.eqb b "bad.rb" then mkBuildResult "" (Some "build failed")
                  else mkBuildResult "sha256:0a1b" None).

Fixpoint fileWait (bs : list string) : Outcome (option string) :=
  match bs with
  | [] => Return None
  | b :: rest =>
      match fileRun b with
      | Return (_, result) =>
          match Err result with
          | Some err => Return (Some err)
          | None => fileWait rest
          end
      | Exit c => Exit c
      | Panic p => Panic p
      end
  end.

Definition fileBuilders : Main.BuilderAPI string := {|
  Main.NewBuilder cfg :=
    if String.eqb (Main.FileName cfg) "missing.rb" then Return (inr "no such plan")
    else Return (inl (Main.FileName cfg));
  Main.Run := fileRun;
  Main.Tag _ t :=
    Return (if String.eqb t "bad/tag" then Some "invalid reference" else None);
  Main.MultiWait := fileWait
|}.

(** A command line: positional arguments, the boolean flags that are
    set, the tag and the [--var] arguments. *)
Definition commandLine (args flags : list string) (tag : string) (var : list string)
    : Main.CliContext :=
  let bools name := bool_decide (name ∈ flags) in
  let slices name := if String.eqb name "var" then var else [] in
  Main.mkCliContext args bools bools
    (fun name => if String.eqb name "tag" then tag else "") slices slices.

(** A host with the given environment where only the listed files
    exist. *)
Definition hostWith (env : gmap string string) (files : list string) : Main.Host :=
  Main.mkHost env
    (fun path => if bool_decide (path ∈ files) then Main.StatOK else Main.StatNotExist)
    false.

(** A session started with no variables on the mruby-like evaluator. *)
Definition freshRepl : Repl.Repl nat :=
  Repl.mkRepl Repl.normalPrompt 0
    (mkGlobal [] true true false true (mkLogger "repl" false) 0) ∅.

Definition freshProcess : Repl.Process :=
  Repl.mkProcess (addFunc (setInteractive Signal.initial) 0) (mkScopes 1 ∅).

(** The process before anything is registered, as [runRepl] starts the
    session in. *)
Definition processStart : Repl.Process :=
  Repl.mkProcess Signal.initial (mkScopes 0 ∅).

(** The session after its first statement. *)
Definition afterOneTurn : Repl.State nat :=
  Repl.mkState
    (Repl.mkRepl Repl.normalPrompt 1
       (mkGlobal [] true true false true (mkLogger "repl" false) 1) ∅)
    (Repl.mkProcess (mkHandler false true [0; 1] 0) (mkScopes 2 ∅))
    "" 1%Z (Some 1).

(** A session some statements in, started with one variable. *)
Definition busyState : Repl.State nat :=
  Repl.mkState
    (Repl.mkRepl Repl.normalPrompt 3
       (mkGlobal [] true true false true (mkLogger "repl" false) 4)
       {["version" := "1.2"]})
    (Repl.mkProcess (mkHandler false true [0; 1; 2; 3; 4] 0) (mkScopes 5 {[1; 2; 3]}))
    "" 3%Z (Some 4).

End Examples.

(** ** Vocabulary of the properties *)

Import GoStrings Types Signal.

(** Every way in which [m] can call [os.Exit] uses a status in [codes]. *)
Definition exitsWithin {A} (codes : list Z) (m : M A) : Prop :=
  forall c, outcome m = Exit c -> c ∈ codes.

(** [m] logs no event of the kind [P]. *)
Definition silentOn {A} (P : Event -> bool) (m : M A) : Prop :=
  Forall (fun e => P e = false) (events m).

Definition isRunCode (e : Event) : bool :=
  match e with CallRunCode _ _ _ => true | _ => false end.

(** The configuration that [Action] hands to [mkBuilder] for the plan
    [filename] and the variables [vars]. *)
Definition actionConfig (host : Main.Host) (ctx : Main.CliContext)
    (filename : string) (vars : gmap string string) : Main.BuildConfig :=
  let tty := Main.IsTerminal host in
  let tty := if Main.Bool ctx "no-tty" then false else tty in
  let tty := if Main.Bool ctx "force-tty" then true else tty in
  let color := tty in
  let color := if Main.Bool ctx "no-color" then false else color in
  let color := if Main.Bool ctx "force-color" then true else color in
  Main.mkBuildConfig
    (mkGlobal (Main.GlobalStringSlice ctx "omit") tty color (Main.getCache host ctx) true
              (mkLogger filename (Main.GlobalBool ctx "no-trim")) 0)
    filename vars.

(** An operation of the builder that exits or panics ends the command
    in the same way; when it returns, the command goes on with [k]. *)
Definition passOn {A B} (o : Outcome A) (k : A -> Outcome B) : Outcome B :=
  match o with
  | Return a => k a
  | Exit c => Exit c
  | Panic p => Panic p
  end.

(** How the default command ends once the configuration [cfg] is made:
    with status 1 when [NewBuilder] returns an error, when the result of
    [Run] holds an error and when [Tag], called for a tag that is not
    empty, returns an error; by returning otherwise. *)
Definition oneShot {B} `{Main.BuilderAPI B} (cfg : Main.BuildConfig) (tag : string)
    : Outcome unit :=
  passOn (Main.NewBuilder cfg) (fun made =>
    match made with
    | inr _ => Exit 1
    | inl b =>
        passOn (Main.Run b) (fun built =>
          match Err built.2 with
          | Some _ => Exit 1
          | None =>
              if String.eqb tag "" then Return tt
              else passOn (Main.Tag built.1 tag) (fun failed =>
                     match failed with
                     | Some _ => Exit 1
                     | None => Return tt
                     end)
          end)
    end).

(** How [multi] ends once every builder is made: with status 2 when
    the wait returns an error, by returning otherwise. *)
Definition awaited {B} `{Main.BuilderAPI B} (builders : list B) : Outcome unit :=
  passOn (Main.MultiWait builders) (fun failed =>
    match failed with
    | Some _ => Exit 2
    | None => Return tt
    end).

(** The status of the process when its command ends with [o]: [main]
    returns after a command that returns. *)
Definition statusOf (o : Outcome unit) : option Z :=
  Main.processStatus (passOn o (fun _ => Return Main.Returns)).

(** The events with which [runMulti] starts [k] plans, the first under
    the scope [n]. *)
Definition planEvents (n k : nat) : list Event :=
  flat_map (fun i => [WithCancel i; AddFunc i; AddRunner]) (seq n k).

(** The configuration that [runMulti] hands to [NewBuilder] for the plan
    [filename] under the scope [n]. *)
Definition multiConfig (host : Main.Host) (ctx : Main.CliContext)
    (filename : string) (vars : gmap string string) (n : Scope) : Main.BuildConfig :=
  Main.mkBuildConfig
    (mkGlobal (Main.StringSlice ctx "omit" ++ ["debug"]) true true
       (Main.getCache host ctx) false
       (mkLogger filename (Main.GlobalBool ctx "no-trim")) n)
    filename vars.

(** What [m] gives back when it returns satisfies [Q]. *)
Definition returning {A} (Q : A -> Prop) (m : M A) : Prop :=
  forall a, outcome m = Return a -> Q a.

(** Every event that [m] logs satisfies [P]. *)
Definition logging {A} (P : Event -> Prop) (m : M A) : Prop :=
  Forall P (events m).

(** The words that [checkQuit] acts on. *)
Definition specialWords : list string := ["quit"; "exit"; "help"; "reset"].

(** The text that [doLoop] hands to [checkQuit], and then to [RunCode],
    when the line [tmp] arrives: the lines kept so far, [tmp] and a
    newline. *)
Definition submitted {E} (st : Repl.State E) (tmp : string) : string :=
  Repl.line st +:+ tmp +:+ NL.

(** The state and the events with which [beginIteration] returns. *)
Definition begun {E} (st : Repl.State E) : Repl.State E :=
  let w1 := match Repl.cancel st with
            | Some c => cancelScope c (Repl.scopes (Repl.proc st))
            | None => Repl.scopes (Repl.proc st)
            end in
  let ctx := nextScope w1 in
  Repl.mkState
    (Repl.setGlobals (Repl.repl st) (setContext (Repl.globals (Repl.repl st)) ctx))
    (Repl.mkProcess (addFunc (Repl.handler (Repl.proc st)) ctx)
                    (mkScopes (S ctx) (cancelled w1)))
    (Repl.line st) (Repl.stackKeep st) (Some ctx).

Definition beginEvents {E} (st : Repl.State E) : list Event :=
  match Repl.cancel st with Some c => [Cancel c] | None => [] end
  ++ [WithCancel (nextScope (Repl.scopes (Repl.proc st)));
      AddFunc (nextScope (Repl.scopes (Repl.proc st)))].

(** The states a session can be in: it starts in [st0], and from there
    the loop begins a turn, the rest of a turn runs on some input, or an
    interrupt reaches the signal handler, in any order. *)
Inductive reachable {E Exec Interp : Type} `{Repl.Evaluator E} `{Repl.Backend E Exec Interp}
    (st0 : Repl.State E) : Repl.State E -> Prop :=
| reach_start : reachable st0 st0
| reach_begin st : reachable st0 st -> reachable st0 (begun st)
| reach_evaluate st inp st' :
    reachable st0 st ->
    outcome (Repl.evaluateInput st inp) = Return st' ->
    reachable st0 st'
| reach_interrupt st : reachable st0 st -> reachable st0 (fst (Repl.interrupt st)).

(** Only scopes that exist are cancelled or registered. *)
Definition wellFormed (p : Repl.Process) : Prop :=
  (forall s, s ∈ cancelled (Repl.scopes p) -> s < nextScope (Repl.scopes p))
  /\ (forall s, s ∈ hfuncs (Repl.handler p) -> s < nextScope (Repl.scopes p)).

(** What the session keeps true of the scopes made since it started
    with [n0] scopes in existence: the handler does not end the process,
    and a scope of the loop that is not cancelled is the one in
    [cancel]. *)
Definition scopesInOrder {E} (n0 : Scope) (st : Repl.State E) : Prop :=
  HExit (Repl.handler (Repl.proc st)) = false
  /\ n0 <= nextScope (Repl.scopes (Repl.proc st))
  /\ wellFormed (Repl.proc st)
  /\ (forall c, Repl.cancel st = Some c ->
        n0 <= c < nextScope (Repl.scopes (Repl.proc st)))
  /\ (forall s, n0 <= s -> live (Repl.scopes (Repl.proc st)) s ->
        Repl.cancel st = Some s).

(** During the evaluation of a statement under the scope [ctx], every
    call of the evaluator sees [ctx] and no scope is made, cancelled or
    registered. *)
Definition evaluatesUnder (ctx : Scope) (e : Event) : Prop :=
  match e with
  | CallRunCode _ _ s => s = ctx
  | Cancel _ | WithCancel _ | AddFunc _ => False
  | _ => True
  end.

(** A byte that [Quote] copies as it is, and a name made of such bytes. *)
Definition plainByte (c : ascii) : bool :=
  negb (Ascii.eqb c dquote) && negb (Ascii.eqb c backslash)
  && (32 <=? N_of_ascii c)%N && (N_of_ascii c <? 127)%N.

Fixpoint plainName (s : string) : bool :=
  match s with
  | EmptyString => true
  | String c s' => plainByte c && plainName s'
  end.

(** ** Further instances *)

(** A file in which [alice] occurs twice. *)
Definition twoAlices : string :=
  "root:x:0:0" +:+ NL +:+ "alice:x:1000:1000" +:+ NL +:+ "alice:x:2000:2000" +:+ NL.

Definition twoAlicesBuilder : Funcs.Builder :=
  Funcs.mkBuilder "sha256:0a1b" (fun _ => inl twoAlices).

(** A [--var] argument for the pair of a key and a value, and the map
    after assigning the pairs in turn. *)
Definition encodeVar (kv : string * string) : string :=
  kv.1 +:+ String "=" kv.2.

Definition assignAll (vars : gmap string string) (kvs : list (string * string))
    : gmap string string :=
  foldl (fun m kv => <[kv.1 := kv.2]> m) vars kvs.

(** How often [Sync] occurs among events. *)
Definition isSync (e : Event) : bool :=
  match e with Sync => true | _ => false end.

Definition countSync (evs : list Event) : nat :=
  length (List.filter isSync evs).

(** The session after the line [begin], which is not a finished
    statement. *)
Definition pendingState : Repl.State nat :=
  Repl.mkState
    (Repl.mkRepl Repl.multilinePrompt 0
       (mkGlobal [] true true false true (mkLogger "repl" false) 1) ∅)
    (Repl.mkProcess (mkHandler false true [0; 1] 0) (mkScopes 2 ∅))
    ("begin" +:+ NL) 0%Z (Some 1).

(** Constructors of which the engine adapter fails. *)
Definition brokenBackend : Repl.Backend nat unit (gmap string string) := {|
  Repl.readlineNew := None;
  Repl.termIsTerminal := true;
  Repl.NewDocker _ := inr "cannot connect to the engine";
  Repl.NewInterpreter _ _ vs := vs;
  Repl.NewMRuby _ := inl 0
|}.

(** * Properties *)

(** ** Queries *)

Lemma eqb_empty_false (s : string) : s <> "" -> String.eqb s "" = false.
Proof. intros Hs. by apply String.eqb_neq. Qed.

(** C1: on an image whose [/etc/passwd] is the line
    [alice:x:1000:1000::/home/alice:/bin/bash] followed by a newline,
    [getuid] of [alice] gives the string [1000], and [getuid] of [bob]
    ends in the exception [Could not find user] followed by the quoted
    name, a message that contains [bob]. *)
Theorem getuid_passwd_example (b : Funcs.Builder) :
  Funcs.ImageID b <> "" ->
  Funcs.containerContent b "/etc/passwd" = inl Funcs.passwdLine ->
  Funcs.getuid b (Funcs.mkMrb ["alice"])
    = (Return (Funcs.MrbString "1000"), [Funcs.ReadContainer "/etc/passwd"])
  /\ Funcs.getuid b (Funcs.mkMrb ["bob"])
     = (Return (Funcs.MrbException ("Could not find user " +:+ Quote "bob")),
        [Funcs.ReadContainer "/etc/passwd"])
  /\ Contains ("Could not find user " +:+ Quote "bob") "bob" = true.
Proof.
  intros Himg Hfile. unfold Funcs.getuid. cbn [Funcs.GetArgs length Nat.eqb negb].
  rewrite (eqb_empty_false _ Himg), Hfile. by vm_compute.
Qed.

Lemma getuid_passwd_example_witness :
  Funcs.getuid Funcs.exampleBuilder (Funcs.mkMrb ["alice"])
    = (Return (Funcs.MrbString "1000"), [Funcs.ReadContainer "/etc/passwd"])
  /\ Funcs.getuid Funcs.exampleBuilder (Funcs.mkMrb ["bob"])
     = (Return (Funcs.MrbException ("Could not find user " +:+ Quote "bob")),
        [Funcs.ReadContainer "/etc/passwd"])
  /\ Contains ("Could not find user " +:+ Quote "bob") "bob" = true.
Proof.
  apply (getuid_passwd_example Funcs.exampleBuilder).
  - vm_compute. discriminate.
  - reflexivity.
Defined.

(** More generally, a name that no line of the file starts with gives
    the exception that quotes it, and the quoted form of a name of plain
    printable characters contains the name itself. *)
Lemma getuid_absent_name (b : Funcs.Builder) (content name : string) :
  Funcs.ImageID b <> "" ->
  Funcs.containerContent b "/etc/passwd" = inl content ->
  Funcs.scanEntries (Split content newline) name = Funcs.NoMatch ->
  Funcs.getuid b (Funcs.mkMrb [name])
  = (Return (Funcs.MrbException ("Could not find user " +:+ Quote name)),
     [Funcs.ReadContainer "/etc/passwd"]).
Proof.
  intros Himg Hfile Hscan. unfold Funcs.getuid. cbn [Funcs.GetArgs length Nat.eqb negb].
  rewrite (eqb_empty_false _ Himg), Hfile. cbn [lookup list_lookup].
  by rewrite Hscan.
Qed.

Lemma quoteBody_plain (s : string) : plainName s = true -> quoteBody s = s.
Proof.
  induction s as [| c s IH]; [done |]. cbn [plainName quoteBody].
  intros [Hc Hs]%andb_true_iff. rewrite (IH Hs).
  unfold plainByte in Hc.
  apply andb_true_iff in Hc as [[[Hq Hb]%andb_true_iff Hlo]%andb_true_iff Hhi].
  unfold quoteByte. apply negb_true_iff in Hq, Hb. by rewrite Hq, Hb, Hlo, Hhi.
Qed.

Lemma HasPrefix_app (p t : string) : HasPrefix (p +:+ t) p = true.
Proof.
  induction p as [| c p IH]; [by destruct t |].
  change (String c p +:+ t) with (String c (p +:+ t)). cbn.
  by rewrite Ascii.eqb_refl, IH.
Qed.

Lemma Contains_of_prefix (u p : string) : HasPrefix u p = true -> Contains u p = true.
Proof. destruct u; cbn; by intros ->. Qed.

Lemma Contains_middle (s p t : string) : Contains (s +:+ p +:+ t) p = true.
Proof.
  induction s as [| c s IH].
  - change ("" +:+ p +:+ t) with (p +:+ t). apply Contains_of_prefix, HasPrefix_app.
  - change (String c s +:+ p +:+ t) with (String c (s +:+ p +:+ t)).
    cbn [Contains]. rewrite IH. apply orb_true_r.
Qed.

Lemma not_found_message_names_user (name : string) :
  plainName name = true ->
  Contains ("Could not find user " +:+ Quote name) name = true.
Proof.
  intros Hplain. unfold Quote. rewrite (quoteBody_plain _ Hplain).
  change ("Could not find user " +:+ String dquote (name +:+ String dquote ""))
    with (("Could not find user " +:+ String dquote "") +:+ name +:+ String dquote "").
  apply Contains_middle.
Qed.

(** [getgid] reads [/etc/group] in the same way. *)
Lemma getgid_group_example (b : Funcs.Builder) :
  Funcs.ImageID b <> "" ->
  Funcs.containerContent b "/etc/group" = inl ("wheel:x:10:alice" +:+ NL) ->
  Funcs.getgid b (Funcs.mkMrb ["wheel"])
    = (Return (Funcs.MrbString "10"), [Funcs.ReadContainer "/etc/group"])
  /\ exists msg,
       Funcs.getgid b (Funcs.mkMrb ["bob"])
         = (Return (Funcs.MrbException msg), [Funcs.ReadContainer "/etc/group"])
       /\ Contains msg "bob" = true.
Proof.
  intros Himg Hfile. unfold Funcs.getgid. cbn [Funcs.GetArgs length Nat.eqb negb].
  rewrite (eqb_empty_false _ Himg), Hfile. split.
  - reflexivity.
  - eexists. split; [reflexivity | vm_compute; reflexivity].
Qed.

(** A query called with a number of arguments other than one reports the
    count, whatever the image. *)
Lemma arity_guard (args : list string) :
  length args <> 1 -> negb (length args =? 1)%nat = true.
Proof. intros Hn. apply negb_true_iff. by apply Nat.eqb_neq. Qed.

Lemma guarded_query_one_argument (b : Funcs.Builder) (m : Funcs.Mrb) (f : Funcs.funcFunc) :
  Funcs.ImageID b = "" -> f ∈ Funcs.guardedQueries ->
  length (Funcs.GetArgs m) = 1 ->
  f b m = (Return (Funcs.MrbException Funcs.noImage), []).
Proof.
  intros Himg Hf Hlen. unfold Funcs.guardedQueries in Hf. rewrite !elem_of_cons in Hf.
  destruct Hf as [-> | [-> | [-> | Hf]]]; [| | | by apply elem_of_nil in Hf];
    unfold Funcs.read, Funcs.getuid, Funcs.getgid;
    rewrite Hlen, Himg; reflexivity.
Qed.

Lemma guarded_query_other_count (b : Funcs.Builder) (m : Funcs.Mrb) (f : Funcs.funcFunc) :
  f ∈ Funcs.guardedQueries ->
  length (Funcs.GetArgs m) <> 1 ->
  f b m = (Return (Funcs.MrbException
                     (Funcs.argCount (length (Funcs.GetArgs m)))), []).
Proof.
  intros Hf Hlen. unfold Funcs.guardedQueries in Hf. rewrite !elem_of_cons in Hf.
  destruct Hf as [-> | [-> | [-> | Hf]]]; [| | | by apply elem_of_nil in Hf];
    unfold Funcs.read, Funcs.getuid, Funcs.getgid;
    rewrite (arity_guard _ Hlen); reflexivity.
Qed.

(** C2, as the code has it: while [ImageID] is empty, [read], [getuid]
    and [getgid] called with exactly one argument end in the exception
    that names the missing [from]; called with any other number of
    arguments they end in the exception that reports the count. In both
    cases [containerContent] is not called. *)
Theorem queries_without_image (b : Funcs.Builder) (m : Funcs.Mrb) (f : Funcs.funcFunc) :
  Funcs.ImageID b = "" ->
  f ∈ [Funcs.read; Funcs.getuid; Funcs.getgid] ->
  (length (Funcs.GetArgs m) = 1 ->
     f b m = (Return (Funcs.MrbException Funcs.noImage), []))
  /\ (length (Funcs.GetArgs m) <> 1 ->
     f b m = (Return (Funcs.MrbException
                        (Funcs.argCount (length (Funcs.GetArgs m)))), []))
  /\ Funcs.engineCalls (snd (f b m)) = []
  /\ exists msg, fst (f b m) = Return (Funcs.MrbException msg).
Proof.
  intros Himg Hf.
  pose proof (guarded_query_one_argument b m f Himg Hf) as Hone.
  pose proof (guarded_query_other_count b m f Hf) as Hother.
  split; [exact Hone |]. split; [exact Hother |].
  destruct (decide (length (Funcs.GetArgs m) = 1)) as [Hlen | Hlen].
  - rewrite (Hone Hlen). split; [reflexivity | by eexists].
  - rewrite (Hother Hlen). split; [reflexivity | by eexists].
Qed.

Lemma queries_without_image_witness :
  Funcs.getuid Funcs.emptyBuilder (Funcs.mkMrb ["alice"])
    = (Return (Funcs.MrbException Funcs.noImage), [])
  /\ Funcs.engineCalls (snd (Funcs.getuid Funcs.emptyBuilder (Funcs.mkMrb ["alice"]))) = [].
Proof.
  destruct (queries_without_image Funcs.emptyBuilder (Funcs.mkMrb ["alice"])
              Funcs.getuid) as (Hone & _ & Hcalls & _).
  - reflexivity.
  - rewrite !elem_of_cons. right. left. reflexivity.
  - split; [apply Hone; reflexivity | exact Hcalls].
Defined.

(** C2, as stated, fails: with no image and no argument, [getuid] ends in
    the exception about the argument count, not the one about the missing
    image. *)
Lemma getuid_no_argument_reports_count :
  Funcs.ImageID Funcs.emptyBuilder = ""
  /\ Funcs.getuid Funcs.emptyBuilder (Funcs.mkMrb [])
       = (Return (Funcs.MrbException "Expected 1 arg, got 0"), [])
  /\ Funcs.getuid Funcs.emptyBuilder (Funcs.mkMrb [])
       <> (Return (Funcs.MrbException Funcs.noImage), []).
Proof. split; [reflexivity |]. split; [reflexivity | discriminate]. Qed.

Lemma getenv_needs_no_image (env : gmap string string) :
  ~ Funcs.requiresImage (Funcs.getenv env).
Proof.
  intros Hreq. destruct (Hreq Funcs.emptyBuilder "HOME" eq_refl) as [msg Hmsg].
  discriminate Hmsg.
Qed.

Lemma guarded_queries_need_image (f : Funcs.funcFunc) :
  f ∈ Funcs.guardedQueries -> Funcs.requiresImage f.
Proof.
  intros Hf b a Himg. exists Funcs.noImage.
  by rewrite (guarded_query_one_argument b (Funcs.mkMrb [a]) f Himg Hf).
Qed.

(** C9: [getenv] called with one argument returns the value of the
    variable it names, the empty string when the variable is not set,
    without an exception, an exit or a call of the container engine; and
    of the queries in [funcJumpTable] it is the only one that does not
    need an image. *)
Theorem getenv_one_argument (env : gmap string string) (b : Funcs.Builder) (a : string) :
  Funcs.getenv env b (Funcs.mkMrb [a])
    = (Return (Funcs.MrbString (default "" (env !! a))), [])
  /\ (env !! a = None ->
      Funcs.getenv env b (Funcs.mkMrb [a]) = (Return (Funcs.MrbString ""), []))
  /\ forall name fd, Funcs.funcJumpTable env !! name = Some fd ->
       (Funcs.requiresImage (Funcs.fun_ fd) <-> name <> "getenv").
Proof.
  split; [reflexivity |]. split.
  - intros Hunset. unfold Funcs.getenv, Funcs.Getenv. cbn. by rewrite Hunset.
  - intros name fd. unfold Funcs.funcJumpTable.
    rewrite !lookup_insert, lookup_empty.
    repeat case_decide; subst; intros Hfd; simplify_eq; cbn.
    + split; [intros Hreq; by apply getenv_needs_no_image in Hreq | done].
    + split; [done | intros _].
      apply guarded_queries_need_image. unfold Funcs.guardedQueries. rewrite !elem_of_cons. tauto.
    + split; [done | intros _].
      apply guarded_queries_need_image. unfold Funcs.guardedQueries. rewrite !elem_of_cons. tauto.
    + split; [done | intros _].
      apply guarded_queries_need_image. unfold Funcs.guardedQueries. rewrite !elem_of_cons. tauto.
Qed.

Lemma getenv_one_argument_witness :
  Funcs.getenv ∅ Funcs.emptyBuilder (Funcs.mkMrb ["HOME"])
    = (Return (Funcs.MrbString ""), [])
  /\ Funcs.requiresImage Funcs.read.
Proof.
  destruct (getenv_one_argument ∅ Funcs.emptyBuilder "HOME") as (_ & Hunset & Honly).
  split.
  - apply Hunset. reflexivity.
  - apply (Honly "read" (Funcs.mkFuncDefinition Funcs.read (Funcs.ArgsReq 1))).
    + reflexivity.
    + discriminate.
Defined.

(** ** The command-line driver *)

(** C7: the cache is on exactly when [NO_CACHE] is empty or unset and
    [--no-cache] is not given; given [--no-cache], the cache is off
    whatever the environment. *)
Theorem getCache_flag_and_environment (host : Main.Host) (ctx : Main.CliContext) :
  (Main.getCache host ctx = true <->
     Main.Getenv host "NO_CACHE" = "" /\ Main.GlobalBool ctx "no-cache" = false)
  /\ (Main.GlobalBool ctx "no-cache" = true -> Main.getCache host ctx = false).
Proof.
  unfold Main.getCache. destruct (Main.GlobalBool ctx "no-cache"); split.
  - split; [discriminate | intros [_ ?]; discriminate].
  - reflexivity.
  - rewrite String.eqb_eq. tauto.
  - discriminate.
Qed.

Lemma getCache_flag_and_environment_witness :
  Main.getCache (Examples.hostWith ∅ []) (Examples.commandLine [] ["no-cache"] "" []) = false
  /\ Main.getCache (Examples.hostWith ∅ []) (Examples.commandLine [] [] "" []) = true.
Proof.
  split.
  - apply getCache_flag_and_environment. reflexivity.
  - apply getCache_flag_and_environment. split; reflexivity.
Defined.

(** ** Sequencing *)

Section Sequencing.
Context {A B : Type}.
Implicit Types (m : M A) (f : A -> M B).

Lemma bind_return m f a l :
  m = (Return a, l) -> m ≫= f = (outcome (f a), l ++ events (f a)).
Proof. intros ->. unfold mbind, M_bind. by destruct (f a). Qed.

Lemma bind_exit m f c l : m = (Exit c, l) -> m ≫= f = (Exit c, l).
Proof. by intros ->. Qed.

Lemma bind_panic m f p l : m = (Panic p, l) -> m ≫= f = (Panic p, l).
Proof. by intros ->. Qed.

Lemma bind_exit_inv m f c :
  outcome (m ≫= f) = Exit c ->
  outcome m = Exit c \/ exists a, outcome m = Return a /\ outcome (f a) = Exit c.
Proof.
  destruct m as [[a | c' | p] l]; cbn.
  - destruct (f a) as [o l'] eqn:Hf. cbn. intros ->. right. exists a. by rewrite Hf.
  - intros [= ->]. by left.
  - discriminate.
Qed.

Lemma bind_panic_inv m f p :
  outcome (m ≫= f) = Panic p ->
  outcome m = Panic p \/ exists a, outcome m = Return a /\ outcome (f a) = Panic p.
Proof.
  destruct m as [[a | c' | p'] l]; cbn.
  - destruct (f a) as [o l'] eqn:Hf. cbn. intros ->. right. exists a. by rewrite Hf.
  - discriminate.
  - intros [= ->]. by left.
Qed.

Lemma bind_return_inv m f b :
  outcome (m ≫= f) = Return b ->
  exists a, outcome m = Return a /\ outcome (f a) = Return b
            /\ events (m ≫= f) = events m ++ events (f a).
Proof.
  destruct m as [[a | c' | p'] l]; cbn; try discriminate.
  destruct (f a) as [o l'] eqn:Hf. cbn. intros ->. exists a. by rewrite Hf.
Qed.

Lemma exitsWithin_bind codes m f :
  exitsWithin codes m -> (forall a, exitsWithin codes (f a)) ->
  exitsWithin codes (m ≫= f).
Proof.
  intros Hm Hf c Hc. apply bind_exit_inv in Hc as [Hc | (a & _ & Hc)].
  - by apply Hm.
  - by apply (Hf a).
Qed.

End Sequencing.

Lemma exitsWithin_ret {A} codes (a : A) : exitsWithin codes (mret a).
Proof. intros c Hc. discriminate Hc. Qed.

Lemma exitsWithin_emit codes e : exitsWithin codes (emit e).
Proof. intros c Hc. discriminate Hc. Qed.

Lemma exitsWithin_panic {A} codes msg : exitsWithin codes (@panic A msg).
Proof. intros c Hc. discriminate Hc. Qed.

Lemma exitsWithin_osExit {A} codes c : c ∈ codes -> exitsWithin codes (@osExit A c).
Proof. intros Hin c' [= <-]. exact Hin. Qed.

Lemma exitsWithin_weaken {A} codes codes' (m : M A) :
  codes ⊆ codes' -> exitsWithin codes m -> exitsWithin codes' m.
Proof. intros Hsub Hm c Hc. apply Hsub. by apply Hm. Qed.

(** Splits a goal about exits along the structure of the code. *)
Ltac exits_step :=
  first
    [ apply exitsWithin_bind; [| intros ?]
    | apply exitsWithin_ret
    | apply exitsWithin_emit
    | apply exitsWithin_panic
    | apply exitsWithin_osExit; rewrite !elem_of_cons; tauto
    | progress cbn beta iota
    | match goal with
      | |- exitsWithin _ (match ?x with _ => _ end) => destruct x
      | |- exitsWithin _ (if ?x then _ else _) => destruct x
      | |- exitsWithin _ (let '_ := ?x in _) => destruct x
      end ].

Ltac exits := repeat exits_step.

(** ** Variables given on the command line *)

Lemma contains_char_cons (c sep : ascii) (s : string) :
  Contains (String c s) (String sep "") = Ascii.eqb sep c || Contains s (String sep "").
Proof.
  assert (Hnil : forall t, HasPrefix t "" = true) by (by intros []).
  cbn. by rewrite Hnil, andb_true_r.
Qed.

Lemma splitUpTo_without_separator (s : string) (sep : ascii) :
  Contains s (String sep "") = false -> splitUpTo s sep 2 = [s].
Proof.
  induction s as [| c s IH]; [reflexivity |].
  rewrite contains_char_cons. intros [Hc Hs]%orb_false_elim.
  cbn. rewrite Ascii.eqb_sym, Hc. by rewrite (IH Hs).
Qed.

Lemma parseVarsFrom_cons (v : string) (vs : list string) (vars : gmap string string) :
  Main.parseVarsFrom (v :: vs) vars
  = match SplitN v "=" 2 !! 0%nat, SplitN v "=" 2 !! 1%nat with
    | Some key, Some value => Main.parseVarsFrom vs (<[key := value]> vars)
    | _, _ => panic "index out of range"
    end.
Proof. reflexivity. Qed.

Lemma parseVarsFrom_cases (vs : list string) (vars : gmap string string) :
  Main.parseVarsFrom vs vars = (Panic "index out of range", [])
  \/ exists vars', Main.parseVarsFrom vs vars = (Return vars', []).
Proof.
  revert vars. induction vs as [| v vs IH]; intros vars.
  - right. by eexists.
  - rewrite parseVarsFrom_cons.
    destruct (SplitN v "=" 2 !! 0%nat); [| by left].
    destruct (SplitN v "=" 2 !! 1%nat); [apply IH | by left].
Qed.

Lemma parseVarsFrom_panics (vs : list string) (vars : gmap string string) (v : string) :
  v ∈ vs -> Contains v "=" = false ->
  Main.parseVarsFrom vs vars = (Panic "index out of range", []).
Proof.
  intros Hin Hv. revert vars.
  induction Hin as [v vs | v w vs Hin IH]; intros vars; rewrite parseVarsFrom_cons.
  - change (SplitN v "=" 2) with (splitUpTo v "=" 2).
    rewrite (splitUpTo_without_separator v "=" Hv). reflexivity.
  - destruct (SplitN w "=" 2 !! 0%nat); [| reflexivity].
    destruct (SplitN w "=" 2 !! 1%nat); [by apply IH | reflexivity].
Qed.

(** C8, checked on the code: a [--var] argument without ['='] makes
    [parseVars] panic on [parts[1]]: the index is out of range. *)
Theorem parseVars_without_separator_panics (ctx : Main.CliContext) (v : string) :
  v ∈ Main.StringSlice ctx "var" -> Contains v "=" = false ->
  Main.parseVars ctx = (Panic "index out of range", []).
Proof. intros Hin Hv. by apply parseVarsFrom_panics with v. Qed.

Lemma parseVars_without_separator_panics_witness :
  Main.parseVars (Examples.commandLine ["box.rb"] [] "" ["foo"])
    = (Panic "index out of range", []).
Proof.
  apply (parseVars_without_separator_panics
           (Examples.commandLine ["box.rb"] [] "" ["foo"]) "foo").
  - cbn. rewrite elem_of_cons. by left.
  - reflexivity.
Defined.

(** The process then dies of the panic, with status 2 and before a
    builder is made. *)
Lemma var_without_separator_crashes :
  @Main.main _ Examples.fileBuilders _ _ _ Examples.stackEvaluator Examples.localBackend
    (Examples.hostWith ∅ ["box.rb"])
    (Main.Default (Examples.commandLine ["box.rb"] [] "" ["foo"]))
    = (Panic "index out of range", [WithCancel 0]).
Proof. reflexivity. Qed.

(** ** Exit statuses *)

Lemma detectFile_exits (host : Main.Host) (ctx : Main.CliContext) :
  exitsWithin [0%Z] (Main.detectFile host ctx).
Proof. unfold Main.detectFile. exits. Qed.

Lemma parseVars_exits (ctx : Main.CliContext) codes :
  exitsWithin codes (Main.parseVars ctx).
Proof.
  intros c Hc. unfold Main.parseVars in Hc.
  destruct (parseVarsFrom_cases (Main.StringSlice ctx "var") ∅) as [Hp | [vars Hp]];
    rewrite Hp in Hc; discriminate Hc.
Qed.

Lemma splitUpTo_one (s : string) (sep : ascii) : splitUpTo s sep 1 = [s].
Proof. by destruct s. Qed.

Lemma splitUpTo_with_separator (s : string) (sep : ascii) :
  Contains s (String sep "") = true -> is_Some (splitUpTo s sep 2 !! 1%nat).
Proof.
  induction s as [| c s IH]; [discriminate |].
  rewrite contains_char_cons. cbn. rewrite Ascii.eqb_sym.
  destruct (Ascii.eqb c sep); cbn.
  - intros _. rewrite splitUpTo_one. by eexists.
  - intros Hs. destruct (IH Hs) as [rest Hrest].
    destruct (splitUpTo s sep 2) as [| p [| q ps]]; try discriminate.
    by eexists.
Qed.

Lemma planEvents_snoc (n k : nat) :
  planEvents n (S k)
  = planEvents n k ++ [WithCancel (n + k); AddFunc (n + k); AddRunner].
Proof. unfold planEvents. by rewrite seq_S, flat_map_app. Qed.

Lemma finish_id_returns (value : string) :
  exists id,
    (if Contains value ":" then
       match SplitN value ":" 2 !! 1%nat with
       | Some rest => mret rest
       | None => panic "index out of range"
       end
     else mret value) = (Return id, []).
Proof.
  destruct (Contains value ":") eqn:Hc; [| by eexists].
  destruct (splitUpTo_with_separator value ":" Hc) as [rest Hrest].
  change (SplitN value ":" 2) with (splitUpTo value ":" 2). rewrite Hrest. by eexists.
Qed.

Section ExitStatus.
Context {B : Type} `{Main.BuilderAPI B}.
Context {E Exec Interp : Type} `{Repl.Evaluator E} `{Repl.Backend E Exec Interp}.

Lemma status_Default (host : Main.Host) (ctx : Main.CliContext) :
  Main.exitStatus host (Main.Default ctx) = statusOf (outcome (Main.Action host ctx)).
Proof.
  unfold Main.exitStatus, statusOf. cbn.
  by destruct (Main.Action host ctx) as [[[] | c | p] l].
Qed.

Lemma status_Multi (host : Main.Host) (ctx : Main.CliContext) :
  Main.exitStatus host (Main.Multi ctx) = statusOf (outcome (Main.runMulti host ctx)).
Proof.
  unfold Main.exitStatus, statusOf. cbn.
  by destruct (Main.runMulti host ctx) as [[[] | c | p] l].
Qed.

Lemma Action_help (host : Main.Host) (ctx : Main.CliContext) :
  Main.Bool ctx "help" = true -> Main.Action host ctx = (Exit 0, [ShowAppHelp]).
Proof. intros Hhelp. unfold Main.Action. by rewrite Hhelp. Qed.

Lemma Action_without_plan (host : Main.Host) (ctx : Main.CliContext) :
  Main.detectFile host ctx = (Exit 0, [ShowAppHelp]) ->
  Main.Action host ctx = (Exit 0, [ShowAppHelp]).
Proof.
  intros Hdetect. unfold Main.Action.
  destruct (Main.Bool ctx "help"); [done | by rewrite Hdetect].
Qed.

Section OneShot.
Variables (host : Main.Host) (ctx : Main.CliContext).
Variables (filename : string) (vars : gmap string string).
Hypothesis Hhelp : Main.Bool ctx "help" = false.
Hypothesis Hdetect : Main.detectFile host ctx = (Return filename, []).
Hypothesis Hparse : Main.parseVars ctx = (Return vars, []).

(** The default command ends as the operations of the builder decide,
    for the builder made from the configuration of [filename]. *)
Lemma Action_outcome :
  outcome (Main.Action host ctx)
  = oneShot (actionConfig host ctx filename vars) (Main.String_ ctx "tag").
Proof.
  unfold Main.Action. rewrite Hhelp, Hdetect. cbn. rewrite Hparse. cbn.
  unfold Main.mkBuilder, oneShot.
  change (Main.NewBuilder _) with (Main.NewBuilder (actionConfig host ctx filename vars)).
  destruct (Main.NewBuilder _) as [[b | err] | c | p]; cbn; try done.
  destruct (Main.Run b) as [[b' result] | c | p]; cbn; try done.
  destruct (Err result) as [err |]; cbn; [done |].
  destruct (finish_id_returns (Value result)) as [id Hid].
  change (splitUpTo (Value result) ":" (Z.to_nat 2)) with (SplitN (Value result) ":" 2).
  rewrite Hid.
  destruct (negb (String.eqb (Value result) ""));
    destruct (String.eqb (Main.String_ ctx "tag") ""); cbn; try done;
    by destruct (Main.Tag b' _) as [[err |] | c | p].
Qed.

End OneShot.

Lemma multiBuilders_cons (host : Main.Host) (ctx : Main.CliContext)
    (filename : string) (args : list string) (n : Scope) (builders : list B) :
  Main.multiBuilders host ctx (filename :: args) n builders
  = (emit (WithCancel n);;
     vars ← Main.parseVars ctx;
     emit (AddFunc n);;
     emit AddRunner;;
     made ← call (Main.NewBuilder (multiConfig host ctx filename vars n));
     match made with
     | inr err => emit (LogError err);; osExit 1
     | inl b => Main.multiBuilders host ctx args (S n) (builders ++ [b])
     end).
Proof. reflexivity. Qed.

(** One turn of the loop of [runMulti] when the variables parse. *)
Lemma multiBuilders_step (host : Main.Host) (ctx : Main.CliContext)
    (vars : gmap string string) (filename : string) (rest : list string)
    (n : Scope) (builders : list B) :
  Main.parseVars ctx = (Return vars, []) ->
  Main.multiBuilders host ctx (filename :: rest) n builders
  = match Main.NewBuilder (multiConfig host ctx filename vars n) with
    | Return (inr err) => (Exit 1, [WithCancel n; AddFunc n; AddRunner; LogError err])
    | Return (inl b) =>
        (outcome (Main.multiBuilders host ctx rest (S n) (builders ++ [b])),
         [WithCancel n; AddFunc n; AddRunner]
         ++ events (Main.multiBuilders host ctx rest (S n) (builders ++ [b])))
    | Exit c => (Exit c, [WithCancel n; AddFunc n; AddRunner])
    | Panic p => (Panic p, [WithCancel n; AddFunc n; AddRunner])
    end.
Proof.
  intros Hparse. rewrite multiBuilders_cons. cbn. rewrite Hparse. cbn.
  destruct (Main.NewBuilder _) as [[b | err] | c | p]; try done.
  by destruct (Main.multiBuilders host ctx rest (S n) (builders ++ [b])).
Qed.

(** The turns for file names whose builders can all be made. *)
Lemma multiBuilders_started (host : Main.Host) (ctx : Main.CliContext)
    (vars : gmap string string) (pre : list string) :
  Main.parseVars ctx = (Return vars, []) ->
  forall n,
  (forall i file, pre !! i = Some file ->
     exists b, Main.NewBuilder (multiConfig host ctx file vars (n + i)) = Return (inl b)) ->
  exists made,
    length made = length pre
    /\ (forall i file, pre !! i = Some file ->
          exists b, made !! i = Some b
                    /\ Main.NewBuilder (multiConfig host ctx file vars (n + i))
                       = Return (inl b))
    /\ forall rest builders,
         Main.multiBuilders host ctx (pre ++ rest) n builders
         = (outcome (Main.multiBuilders host ctx rest (n + length pre) (builders ++ made)),
            planEvents n (length pre)
            ++ events (Main.multiBuilders host ctx rest (n + length pre)
                         (builders ++ made))).
Proof.
  intros Hparse. induction pre as [| file pre IH]; intros n Hmade.
  - exists []. split; [done |]. split; [by intros i file [=] |].
    intros rest builders. cbn. rewrite Nat.add_0_r, app_nil_r.
    by destruct (Main.multiBuilders host ctx rest n builders).
  - destruct (Hmade 0 file eq_refl) as [b Hb]. rewrite Nat.add_0_r in Hb.
    destruct (IH (S n)) as (made & Hlen & Heach & Hrun).
    { intros i file' Hi. destruct (Hmade (S i) file' Hi) as [b' Hb'].
      exists b'. by rewrite Nat.add_succ_comm. }
    exists (b :: made). split; [cbn; by rewrite Hlen |]. split.
    + intros [| i] file' Hi.
      * injection Hi as <-. exists b. by rewrite Nat.add_0_r.
      * destruct (Heach i file' Hi) as (b' & Hi' & Hb').
        exists b'. split; [done |]. by rewrite <- Nat.add_succ_comm.
    + intros rest builders. cbn [app length].
      rewrite (multiBuilders_step _ _ _ _ _ _ _ Hparse), Hb, Hrun.
      cbn [outcome events fst snd].
      rewrite <- (assoc_L (++) builders [b] made), <- Nat.add_succ_comm.
      reflexivity.
Qed.

(** The builders made for the file names are the ones the operations
    of the builder give, in the order of the command line. *)
Lemma multiBuilders_unique (host : Main.Host) (ctx : Main.CliContext)
    (vars : gmap string string) (args : list string) (made builders : list B) :
  length made = length args -> length builders = length args ->
  (forall i file, args !! i = Some file ->
     exists b, made !! i = Some b
               /\ Main.NewBuilder (multiConfig host ctx file vars i) = Return (inl b)) ->
  (forall i file, args !! i = Some file ->
     exists b, builders !! i = Some b
               /\ Main.NewBuilder (multiConfig host ctx file vars i) = Return (inl b)) ->
  made = builders.
Proof.
  intros Hlen Hlen' Hmade Hbuilders. apply list_eq. intros i.
  destruct (args !! i) as [file |] eqn:Hi.
  - destruct (Hmade i file Hi) as (b & Hm & Hb).
    destruct (Hbuilders i file Hi) as (b' & Hm' & Hb').
    etrans; [exact Hm |]. symmetry. etrans; [exact Hm' |]. congruence.
  - apply lookup_ge_None in Hi.
    by rewrite !lookup_ge_None_2 by lia.
Qed.

Lemma runMulti_wait (host : Main.Host) (ctx : Main.CliContext)
    (builders : list B) (evs : list Event) :
  Main.multiBuilders host ctx (Main.Args ctx) 0 [] = (Return builders, evs) ->
  Main.runMulti host ctx
  = match Main.MultiWait builders with
    | Return (Some err) => (Exit 2, evs ++ [LogError err])
    | Return None => (Return tt, evs)
    | Exit c => (Exit c, evs)
    | Panic p => (Panic p, evs)
    end.
Proof.
  intros Hmade. unfold Main.runMulti. rewrite (bind_return _ _ _ _ Hmade).
  destruct (Main.MultiWait builders) as [[err |] | c | p]; cbn; by rewrite ?app_nil_r.
Qed.

(** [multi] when every builder is made. *)
Lemma runMulti_all_made (host : Main.Host) (ctx : Main.CliContext)
    (vars : gmap string string) :
  Main.parseVars ctx = (Return vars, []) ->
  (forall i file, Main.Args ctx !! i = Some file ->
     exists b, Main.NewBuilder (multiConfig host ctx file vars i) = Return (inl b)) ->
  exists builders,
    Main.multiBuilders host ctx (Main.Args ctx) 0 []
    = (Return builders, planEvents 0 (length (Main.Args ctx)))
    /\ length builders = length (Main.Args ctx)
    /\ (forall i file, Main.Args ctx !! i = Some file ->
          exists b, builders !! i = Some b
                    /\ Main.NewBuilder (multiConfig host ctx file vars i) = Return (inl b)).
Proof.
  intros Hparse Hmade.
  destruct (multiBuilders_started host ctx vars (Main.Args ctx) Hparse 0 Hmade)
    as (made & Hlen & Heach & Hrun).
  specialize (Hrun [] []). rewrite app_nil_r in Hrun. cbn in Hrun.
  rewrite app_nil_r in Hrun.
  exists made. by repeat split.
Qed.

(** [multi] at the first file name whose builder is not made. *)
Lemma runMulti_stops (host : Main.Host) (ctx : Main.CliContext)
    (vars : gmap string string) (pre post : list string) (file : string) :
  Main.parseVars ctx = (Return vars, []) ->
  Main.Args ctx = pre ++ file :: post ->
  (forall i f, pre !! i = Some f ->
     exists b, Main.NewBuilder (multiConfig host ctx f vars i) = Return (inl b)) ->
  (forall b, Main.NewBuilder (multiConfig host ctx file vars (length pre))
             <> Return (inl b)) ->
  Main.runMulti host ctx
  = (passOn (Main.NewBuilder (multiConfig host ctx file vars (length pre)))
       (fun _ => Exit 1),
     planEvents 0 (S (length pre))
     ++ match Main.NewBuilder (multiConfig host ctx file vars (length pre)) with
        | Return (inr err) => [LogError err]
        | _ => []
        end).
Proof.
  intros Hparse Hargs Hmade Hfail.
  destruct (multiBuilders_started host ctx vars pre Hparse 0 Hmade)
    as (made & _ & _ & Hrun).
  unfold Main.runMulti. rewrite Hargs, Hrun. cbn [Nat.add app].
  rewrite (multiBuilders_step _ _ _ _ _ _ _ Hparse).
  rewrite planEvents_snoc, <- (assoc_L (++)).
  destruct (Main.NewBuilder _) as [[b | err] | c | p]; cbn;
    [by destruct (Hfail b) | done | done | done].
Qed.

(** *** The session *)

Lemma handleError_exits (r : Repl.Repl E) (line : string) (err : Repl.ReadErr) :
  exitsWithin [0%Z; 1%Z] (Repl.handleError r line err).
Proof. unfold Repl.handleError. exits. Qed.

Lemma readChannels_exits (r : Repl.Repl E) (line : string) (inp : Repl.ChanInput) :
  exitsWithin [0%Z; 1%Z] (Repl.readChannels r line inp).
Proof.
  unfold Repl.readChannels. destruct inp as [err | [err |] | tmp].
  - apply exitsWithin_bind; [apply handleError_exits |]. intros [r' handled]. exits.
  - apply exitsWithin_bind; [exits |]. intros _.
    apply exitsWithin_bind; [| intros r'; exits].
    apply exitsWithin_bind; [apply handleError_exits |]. intros [r' handled]. exits.
  - exits.
  - exits.
Qed.

Lemma checkQuit_exits (r : Repl.Repl E) (line : string) :
  exitsWithin [0%Z; 1%Z] (Repl.checkQuit r line).
Proof. unfold Repl.checkQuit. exits. Qed.

Lemma beginIteration_exits (st : Repl.State E) codes :
  exitsWithin codes (Repl.beginIteration st).
Proof. unfold Repl.beginIteration. intros c Hc. by destruct (Repl.cancel st). Qed.

Lemma evaluateInput_exits (st : Repl.State E) (inp : Repl.ChanInput) :
  exitsWithin [0%Z; 1%Z] (Repl.evaluateInput st inp).
Proof.
  unfold Repl.evaluateInput.
  apply exitsWithin_bind; [apply readChannels_exits |]. intros [[r2 line1] cont].
  destruct cont; [exits |].
  apply exitsWithin_bind; [apply checkQuit_exits |]. intros [[r3 skip] err].
  exits.
Qed.

Lemma doLoopFrom_exits (inputs : list Repl.ChanInput) (st : Repl.State E) :
  exitsWithin [0%Z; 1%Z] (Repl.doLoopFrom st inputs).
Proof.
  revert st. induction inputs as [| inp inputs IH]; intros st; cbn.
  - exits.
  - apply exitsWithin_bind; [| intros st'; apply IH].
    unfold Repl.iteration.
    apply exitsWithin_bind; [apply beginIteration_exits |].
    intros st1. apply evaluateInput_exits.
Qed.

Lemma Loop_outcome (r : Repl.Repl E) (p : Repl.Process) (inputs : list Repl.ChanInput) :
  outcome (Repl.Loop r p inputs)
  = match outcome (Repl.doLoop r p inputs) with
    | Panic _ => Exit 2
    | other => other
    end.
Proof.
  unfold Repl.Loop. cbn.
  by destruct (Repl.doLoop r p inputs) as [[st | c | msg] l].
Qed.

Lemma Loop_exit_2 (r : Repl.Repl E) (p : Repl.Process) (inputs : list Repl.ChanInput) :
  outcome (Repl.Loop r p inputs) = Exit 2
  <-> exists msg, outcome (Repl.doLoop r p inputs) = Panic msg.
Proof.
  rewrite Loop_outcome. split.
  - destruct (outcome (Repl.doLoop r p inputs)) as [st | c | msg] eqn:Hout;
      [discriminate | | by eexists].
    intros [= ->]. apply doLoopFrom_exits in Hout.
    rewrite !elem_of_cons in Hout. destruct Hout as [? | [? | []%elem_of_nil]]; lia.
  - by intros [msg ->].
Qed.

Lemma runRepl_bootstrap_failure (ctx : Main.CliContext) (inputs : list Repl.ChanInput)
    (vars : gmap string string) (p : Repl.Process) (err : string) :
  Main.parseVars ctx = (Return vars, []) ->
  outcome (Repl.NewRepl (Main.GlobalStringSlice ctx "omit")
             (mkLogger "repl" (Main.GlobalBool ctx "no-trim")) vars
             (Repl.mkProcess Signal.initial (mkScopes 0 ∅)))
    = Return (p, inr err) ->
  outcome (Main.runRepl ctx inputs) = Exit 1.
Proof.
  intros Hparse Hnew. unfold Main.runRepl. rewrite (bind_return _ _ _ _ Hparse). cbn.
  destruct (Repl.NewRepl _ _ _ _) as [o l]. cbn in Hnew. subst o. reflexivity.
Qed.

Lemma runRepl_started (ctx : Main.CliContext) (inputs : list Repl.ChanInput)
    (vars : gmap string string) (p : Repl.Process) (r : Repl.Repl E) :
  Main.parseVars ctx = (Return vars, []) ->
  outcome (Repl.NewRepl (Main.GlobalStringSlice ctx "omit")
             (mkLogger "repl" (Main.GlobalBool ctx "no-trim")) vars
             (Repl.mkProcess Signal.initial (mkScopes 0 ∅)))
    = Return (p, inl r) ->
  outcome (Main.runRepl ctx inputs)
  = match outcome (Repl.Loop r p inputs) with
    | Return _ => Return Main.Waits
    | Exit c => Exit c
    | Panic msg => Panic msg
    end.
Proof.
  intros Hparse Hnew. unfold Main.runRepl. rewrite (bind_return _ _ _ _ Hparse). cbn.
  destruct (Repl.NewRepl _ _ _ _) as [o l]. cbn in Hnew. subst o. cbn.
  by destruct (Repl.Loop r p inputs) as [[st | c | msg] l'].
Qed.

End ExitStatus.

(** C4, as the code has it. Asked for the help, or given no plan when
    [box.rb] does not exist, the default command ends with status 0.
    Otherwise, when the variables parse, it ends as [oneShot] says for
    the configuration made from the file name: with status 1 when the
    builder cannot be made, when the build fails and when the tag fails,
    with status 0 (it returns) when all succeed, and as the operation of
    the builder ends it when that one exits or panics (a panic ends a Go
    process with status 2). Under [multi], the first file name whose
    builder cannot be made ends the process with status 1, or as
    [NewBuilder] ends it when that one exits or panics; when every
    builder is made, an error of the wait ends it with status 2, no
    error lets it return, and an exit or a panic of the wait ends it as
    such. The loop of the session exits with 0 or 1 only, and the session
    exits with 2 exactly when the loop panics; it exits with 1 when it
    cannot be started. An error of the command-line parser exits with
    1. *)
Theorem exit_statuses
    {B : Type} `{Main.BuilderAPI B}
    {E Exec Interp : Type} `{Repl.Evaluator E} `{Repl.Backend E Exec Interp}
    (host : Main.Host) :
  (forall ctx,
      Main.Bool ctx "help" = true
      \/ Main.detectFile host ctx = (Exit 0, [ShowAppHelp]) ->
      Main.exitStatus host (Main.Default ctx) = Some 0%Z)
  /\ (forall ctx filename vars,
        Main.Bool ctx "help" = false ->
        Main.detectFile host ctx = (Return filename, []) ->
        Main.parseVars ctx = (Return vars, []) ->
        Main.exitStatus host (Main.Default ctx)
        = statusOf (oneShot (actionConfig host ctx filename vars)
                      (Main.String_ ctx "tag")))
  /\ (forall ctx vars pre file post,
        Main.parseVars ctx = (Return vars, []) ->
        Main.Args ctx = pre ++ file :: post ->
        (forall i f, pre !! i = Some f ->
           exists b, Main.NewBuilder (multiConfig host ctx f vars i) = Return (inl b)) ->
        (forall b, Main.NewBuilder (multiConfig host ctx file vars (length pre))
                   <> Return (inl b)) ->
        Main.exitStatus host (Main.Multi ctx)
        = statusOf (passOn (Main.NewBuilder (multiConfig host ctx file vars (length pre)))
                      (fun _ => Exit 1)))
  /\ (forall ctx vars builders,
        Main.parseVars ctx = (Return vars, []) ->
        length builders = length (Main.Args ctx) ->
        (forall i file, Main.Args ctx !! i = Some file ->
           exists b, builders !! i = Some b
                     /\ Main.NewBuilder (multiConfig host ctx file vars i)
                        = Return (inl b)) ->
        Main.exitStatus host (Main.Multi ctx) = statusOf (awaited builders))
  /\ (forall (r : Repl.Repl E) p inputs,
        exitsWithin [0%Z; 1%Z] (Repl.doLoop r p inputs)
        /\ outcome (Repl.Loop r p inputs)
           = match outcome (Repl.doLoop r p inputs) with
             | Panic _ => Exit 2
             | other => other
             end
        /\ (outcome (Repl.Loop r p inputs) = Exit 2
            <-> exists msg, outcome (Repl.doLoop r p inputs) = Panic msg))
  /\ (forall ctx inputs vars p made,
        Main.parseVars ctx = (Return vars, []) ->
        outcome (Repl.NewRepl (Main.GlobalStringSlice ctx "omit")
                   (mkLogger "repl" (Main.GlobalBool ctx "no-trim")) vars
                   (Repl.mkProcess Signal.initial (mkScopes 0 ∅)))
          = Return (p, made) ->
        Main.exitStatus host (Main.ReplCmd ctx inputs)
        = match made with
          | inr _ => Some 1%Z
          | inl r =>
              match outcome (Repl.Loop r p inputs) with
              | Return _ => None
              | Exit c => Some c
              | Panic _ => Some 2%Z
              end
          end)
  /\ (forall err, Main.exitStatus host (Main.UsageError err) = Some 1%Z).
Proof.
  split.
  { intros ctx [Hhelp | Hdetect]; rewrite status_Default.
    - by rewrite (Action_help _ _ Hhelp).
    - by rewrite (Action_without_plan _ _ Hdetect). }
  split.
  { intros ctx filename vars Hhelp Hdetect Hparse.
    by rewrite status_Default, (Action_outcome _ _ _ _ Hhelp Hdetect Hparse). }
  split.
  { intros ctx vars pre file post Hparse Hargs Hmade Hfail.
    by rewrite status_Multi, (runMulti_stops _ _ _ _ _ _ Hparse Hargs Hmade Hfail). }
  split.
  { intros ctx vars builders Hparse Hlen Heach.
    destruct (runMulti_all_made host ctx vars Hparse) as (made & Hrun & Hlen' & Heach').
    { intros i file Hi. destruct (Heach i file Hi) as (b & _ & Hb). by exists b. }
    rewrite (multiBuilders_unique _ _ _ _ _ _ Hlen' Hlen Heach' Heach) in Hrun.
    rewrite status_Multi, (runMulti_wait _ _ _ _ Hrun). unfold awaited.
    by destruct (Main.MultiWait builders) as [[err |] | c | msg]. }
  split.
  { intros r p inputs.
    split; [apply doLoopFrom_exits | split; [apply Loop_outcome | apply Loop_exit_2]]. }
  split; [| reflexivity].
  intros ctx inputs vars p [r | err] Hparse Hnew; unfold Main.exitStatus; cbn [Main.main].
  - rewrite (runRepl_started _ _ _ _ _ Hparse Hnew).
    by destruct (outcome (Repl.Loop r p inputs)).
  - by rewrite (runRepl_bootstrap_failure _ _ _ _ _ Hparse Hnew).
Qed.

Lemma exit_statuses_witness :
  @Main.exitStatus _ Examples.fileBuilders _ _ _
    Examples.stackEvaluator Examples.localBackend
    (Examples.hostWith ∅ ["bad.rb"])
    (Main.Default (Examples.commandLine ["bad.rb"] [] "" [])) = Some 1%Z
  /\ @Main.exitStatus _ Examples.fileBuilders _ _ _
       Examples.stackEvaluator Examples.localBackend
       (Examples.hostWith ∅ ["bad.rb"])
       (Main.Multi (Examples.commandLine ["a.rb"; "missing.rb"; "b.rb"] [] "" []))
     = Some 1%Z
  /\ @Main.exitStatus _ Examples.fileBuilders _ _ _
       Examples.stackEvaluator Examples.localBackend
       (Examples.hostWith ∅ ["bad.rb"])
       (Main.Multi (Examples.commandLine ["a.rb"; "bad.rb"] [] "" [])) = Some 2%Z
  /\ @Main.exitStatus _ Examples.fileBuilders _ _ _
       Examples.stackEvaluator Examples.localBackend
       (Examples.hostWith ∅ ["bad.rb"])
       (Main.Default (Examples.commandLine ["exits.rb"] [] "" [])) = Some 1%Z
  /\ @Main.exitStatus _ Examples.fileBuilders _ _ _
       Examples.stackEvaluator Examples.localBackend
       (Examples.hostWith ∅ ["bad.rb"])
       (Main.Default (Examples.commandLine ["panics.rb"] [] "" [])) = Some 2%Z.
Proof.
  destruct (@exit_statuses _ Examples.fileBuilders _ _ _
              Examples.stackEvaluator Examples.localBackend
              (Examples.hostWith ∅ ["bad.rb"]))
    as (_ & Hone & Hstop & Hwait & _).
  split; [| split; [| split; [| split]]];
    [| | | exact (Hone (Examples.commandLine ["exits.rb"] [] "" []) "exits.rb" ∅
                    eq_refl eq_refl eq_refl)
         | exact (Hone (Examples.commandLine ["panics.rb"] [] "" []) "panics.rb" ∅
                    eq_refl eq_refl eq_refl) ].
  - exact (Hone (Examples.commandLine ["bad.rb"] [] "" []) "bad.rb" ∅
             eq_refl eq_refl eq_refl).
  - apply (Hstop (Examples.commandLine ["a.rb"; "missing.rb"; "b.rb"] [] "" [])
             ∅ ["a.rb"] "missing.rb" ["b.rb"]).
    + reflexivity.
    + reflexivity.
    + intros [| i] f [= <-]. by eexists.
    + intros b. discriminate.
  - apply (Hwait (Examples.commandLine ["a.rb"; "bad.rb"] [] "" []) ∅ ["a.rb"; "bad.rb"]).
    + reflexivity.
    + reflexivity.
    + intros [| [| i]] file [= <-]; by eexists.
Defined.

(** C4, as stated, fails: a build that fails under [multi] ends the
    process with status 2, not 1. *)
Lemma multi_build_failure_exits_with_2 :
  @Main.exitStatus _ Examples.fileBuilders _ _ _
    Examples.stackEvaluator Examples.localBackend
    (Examples.hostWith ∅ ["a.rb"; "bad.rb"])
    (Main.Multi (Examples.commandLine ["a.rb"; "bad.rb"] [] "" []))
  = Some 2%Z
  /\ @Main.exitStatus _ Examples.fileBuilders _ _ _
       Examples.stackEvaluator Examples.localBackend
       (Examples.hostWith ∅ ["a.rb"; "bad.rb"])
       (Main.Multi (Examples.commandLine ["a.rb"; "bad.rb"] [] "" []))
     <> Some 1%Z.
Proof. split; [reflexivity | discriminate]. Qed.

(** ** The plan file of the default command *)

(** C10: with no file name on the command line, [detectFile] shows the
    help and exits with status 0 when [box.rb] does not exist, and the
    default command then exits with status 0 after the help as its only
    output, without a report of an error. When [box.rb] exists,
    [detectFile] gives [box.rb], and the default command makes its
    builder from the configuration whose file name and logger are
    [box.rb], and ends as the operations of that builder decide. *)
Theorem detectFile_without_argument
    {B : Type} `{Main.BuilderAPI B} (host : Main.Host) (ctx : Main.CliContext) :
  Main.Args ctx = [] ->
  (Main.Stat host "box.rb" = Main.StatNotExist ->
     Main.detectFile host ctx = (Exit 0, [ShowAppHelp])
     /\ Main.Action host ctx = (Exit 0, [ShowAppHelp]))
  /\ (Main.Stat host "box.rb" = Main.StatOK ->
     Main.detectFile host ctx = (Return "box.rb", [])
     /\ forall vars,
          Main.Bool ctx "help" = false ->
          Main.parseVars ctx = (Return vars, []) ->
          Main.FileName (actionConfig host ctx "box.rb" vars) = "box.rb"
          /\ Log (Main.Globals (actionConfig host ctx "box.rb" vars))
             = mkLogger "box.rb" (Main.GlobalBool ctx "no-trim")
          /\ outcome (Main.Action host ctx)
             = oneShot (actionConfig host ctx "box.rb" vars) (Main.String_ ctx "tag")).
Proof.
  intros Hargs.
  assert (Hdetect : Main.Stat host "box.rb" = Main.StatNotExist ->
            Main.detectFile host ctx = (Exit 0, [ShowAppHelp])).
  { intros Hstat. unfold Main.detectFile. rewrite Hargs, Hstat. reflexivity. }
  assert (Hfound : Main.Stat host "box.rb" = Main.StatOK ->
            Main.detectFile host ctx = (Return "box.rb", [])).
  { intros Hstat. unfold Main.detectFile. rewrite Hargs, Hstat. reflexivity. }
  split.
  - intros Hstat. split; [by apply Hdetect |].
    unfold Main.Action. destruct (Main.Bool ctx "help"); [reflexivity |].
    rewrite (Hdetect Hstat). reflexivity.
  - intros Hstat. split; [by apply Hfound |].
    intros vars Hhelp Hparse. split; [reflexivity |]. split; [reflexivity |].
    exact (Action_outcome host ctx "box.rb" vars Hhelp (Hfound Hstat) Hparse).
Qed.

Lemma detectFile_without_argument_witness :
  @Main.Action _ Examples.fileBuilders
    (Examples.hostWith ∅ []) (Examples.commandLine [] [] "" [])
    = (Exit 0, [ShowAppHelp])
  /\ Main.detectFile (Examples.hostWith ∅ ["box.rb"]) (Examples.commandLine [] [] "" [])
     = (Return "box.rb", [])
  /\ outcome (@Main.Action _ Examples.fileBuilders
                (Examples.hostWith ∅ ["box.rb"]) (Examples.commandLine [] [] "" []))
     = @oneShot _ Examples.fileBuilders
         (actionConfig (Examples.hostWith ∅ ["box.rb"])
            (Examples.commandLine [] [] "" []) "box.rb" ∅) ""
  /\ @oneShot _ Examples.fileBuilders
       (actionConfig (Examples.hostWith ∅ ["box.rb"])
          (Examples.commandLine [] [] "" []) "box.rb" ∅) ""
     = Return tt.
Proof.
  split; [| split; [| split; [| reflexivity]]].
  - apply (@detectFile_without_argument _ Examples.fileBuilders
             (Examples.hostWith ∅ []) (Examples.commandLine [] [] "" []));
      reflexivity.
  - apply (@detectFile_without_argument _ Examples.fileBuilders
             (Examples.hostWith ∅ ["box.rb"]) (Examples.commandLine [] [] "" []));
      reflexivity.
  - apply (@detectFile_without_argument _ Examples.fileBuilders
             (Examples.hostWith ∅ ["box.rb"]) (Examples.commandLine [] [] "" []));
      reflexivity.
Defined.

(** ** Events and results of a sequence *)

Lemma logging_bind {A B} (P : Event -> Prop) (m : M A) (f : A -> M B) :
  logging P m -> (forall a, outcome m = Return a -> logging P (f a)) ->
  logging P (m ≫= f).
Proof.
  unfold logging. destruct m as [[a | c | p] l]; cbn; intros Hm Hf; try done.
  specialize (Hf a eq_refl). destruct (f a) as [o l']. cbn in *.
  by apply Forall_app.
Qed.

Lemma returning_bind {A B} (Q : B -> Prop) (m : M A) (f : A -> M B) :
  (forall a, outcome m = Return a -> returning Q (f a)) ->
  returning Q (m ≫= f).
Proof.
  intros Hf b Hb. apply bind_return_inv in Hb as (a & Ha & Hb & _).
  by apply (Hf a Ha).
Qed.

Lemma logging_impl {A} (P Q : Event -> Prop) (m : M A) :
  (forall e, P e -> Q e) -> logging P m -> logging Q m.
Proof. unfold logging. intros HPQ Hm. by eapply Forall_impl. Qed.

(** ** Trimming

    A newline after a line does not change what [TrimSpace] makes of it. *)

Lemma bytesOf_app (s t : string) : bytesOf (s +:+ t) = bytesOf s ++ bytesOf t.
Proof.
  unfold bytesOf. induction s as [| c s IH]; [done |].
  change (String c s +:+ t) with (String c (s +:+ t)). cbn. f_equal. exact IH.
Qed.

Lemma spaceWidth_newline_none (bs : list N) :
  bs <> [] -> spaceWidth bs = 0 -> spaceWidth (bs ++ [10%N]) = 0.
Proof.
  intros Hne. destruct bs as [| b1 [| b2 [| b3 t]]]; [done | | |]; cbn.
  - destruct (asciiSpace b1); [done |]. intros _.
    by rewrite andb_false_r.
  - destruct (asciiSpace b1); [done |].
    destruct ((b1 =? 194)%N && _); [done |]. intros _.
    by rewrite !andb_false_r.
  - done.
Qed.

Lemma spaceWidth_newline_some (bs : list N) (w : nat) :
  spaceWidth bs = S w ->
  spaceWidth (bs ++ [10%N]) = S w /\ S w <= length bs.
Proof.
  destruct bs as [| b1 [| b2 [| b3 t]]]; cbn.
  - done.
  - destruct (asciiSpace b1); [| done]. intros [= <-]. split; [done | lia].
  - destruct (asciiSpace b1); [intros [= <-]; split; [done | lia] |].
    destruct ((b1 =? 194)%N && _); [| done]. intros [= <-]. split; [done | lia].
  - intros Hw. split; [done |].
    destruct (asciiSpace b1); [injection Hw as <-; lia |].
    destruct ((b1 =? 194)%N && _); [injection Hw as <-; lia |].
    destruct (_ || _); [injection Hw as <-; lia | done].
Qed.

Lemma trimLeft_newline (fuel : nat) (bs : list N) :
  length bs <= fuel ->
  trimWith spaceWidth (S fuel) (bs ++ [10%N])
  = match trimWith spaceWidth fuel bs with
    | [] => []
    | l => l ++ [10%N]
    end.
Proof.
  revert bs. induction fuel as [| fuel IH]; intros bs Hlen.
  - destruct bs; [done | cbn in Hlen; lia].
  - change (trimWith spaceWidth (S fuel) bs)
      with (match spaceWidth bs with
            | 0 => bs
            | S _ as w => trimWith spaceWidth fuel (drop w bs)
            end).
    change (trimWith spaceWidth (S (S fuel)) (bs ++ [10%N]))
      with (match spaceWidth (bs ++ [10%N]) with
            | 0 => bs ++ [10%N]
            | S _ as w => trimWith spaceWidth (S fuel) (drop w (bs ++ [10%N]))
            end).
    destruct (spaceWidth bs) as [| w] eqn:Hw.
    + destruct bs as [| b bs]; [done |].
      rewrite spaceWidth_newline_none by done. done.
    + destruct (spaceWidth_newline_some bs w Hw) as [-> Hle].
      rewrite drop_app_le by done. apply IH.
      rewrite length_drop. lia.
Qed.

Lemma ofBytes_nil : ofBytes [] = "".
Proof. done. Qed.

Lemma TrimSpace_newline (s : string) : TrimSpace (s +:+ NL) = TrimSpace s.
Proof.
  unfold TrimSpace. rewrite bytesOf_app.
  change (bytesOf NL) with [10%N].
  rewrite length_app. cbn [length]. rewrite Nat.add_1_r.
  rewrite trimLeft_newline by done.
  destruct (trimWith spaceWidth (length (bytesOf s)) (bytesOf s)) as [| b l] eqn:Hl; [done |].
  rewrite length_app. cbn [length]. rewrite Nat.add_1_r.
  rewrite reverse_app. cbn [reverse rev_append app].
  reflexivity.
Qed.

(** ** The interactive session *)

Arguments TrimSpace : simpl never.
Arguments Quote : simpl never.

(** Takes the code of a turn apart, one branch at a time. *)
Ltac branches :=
  repeat (first [ case_match
                | progress simplify_eq
                | progress unfold mret, M_ret, emit, osExit, panic in * ];
          cbn in * ).

Section Session.
Context {E Exec Interp : Type} `{Repl.Evaluator E} `{Repl.Backend E Exec Interp}.
Implicit Types (st : Repl.State E) (r : Repl.Repl E) (inp : Repl.ChanInput).

Lemma beginIteration_eq st :
  Repl.beginIteration st = (Return (begun st), beginEvents st).
Proof.
  unfold Repl.beginIteration, begun, beginEvents.
  by destruct (Repl.cancel st).
Qed.

Lemma iteration_eq st inp :
  Repl.iteration st inp
  = (outcome (Repl.evaluateInput (begun st) inp),
     beginEvents st ++ events (Repl.evaluateInput (begun st) inp)).
Proof.
  unfold Repl.iteration. by rewrite (bind_return _ _ _ _ (beginIteration_eq st)).
Qed.

Lemma evaluateInput_keeps st inp :
  returning (fun st' =>
      Repl.proc st' = Repl.proc st /\ Repl.cancel st' = Repl.cancel st
      /\ Repl.vars (Repl.repl st') = Repl.vars (Repl.repl st)
      /\ Repl.globals (Repl.repl st') = Repl.globals (Repl.repl st))
    (Repl.evaluateInput st inp).
Proof.
  intros st' Hst'.
  unfold Repl.evaluateInput, Repl.readChannels, Repl.handleError, Repl.checkQuit in Hst'.
  destruct st as [[rl ev g vs] p ln keep c]. cbn in Hst'.
  branches; done.
Qed.

Lemma evaluateInput_logs st inp :
  logging (fun e =>
      evaluatesUnder (Context (Repl.globals (Repl.repl st))) e
      /\ forall vs, e = CallNewInterpreter vs -> vs = Repl.vars (Repl.repl st))
    (Repl.evaluateInput st inp).
Proof.
  unfold logging, Repl.evaluateInput, Repl.readChannels, Repl.handleError, Repl.checkQuit.
  destruct st as [[rl ev g vs] p ln keep c]. cbn.
  branches; repeat constructor; cbn; try done; by intros ? [= <-].
Qed.

Lemma begun_setup st :
  Repl.vars (Repl.repl (begun st)) = Repl.vars (Repl.repl st)
  /\ Repl.line (begun st) = Repl.line st
  /\ Repl.stackKeep (begun st) = Repl.stackKeep st
  /\ Repl.evaluator (Repl.repl (begun st)) = Repl.evaluator (Repl.repl st)
  /\ Repl.readline (Repl.repl (begun st)) = Repl.readline (Repl.repl st).
Proof. done. Qed.

Lemma session_variables (inputs : list Repl.ChanInput) st :
  logging (fun e => forall vs, e = CallNewInterpreter vs -> vs = Repl.vars (Repl.repl st))
    (Repl.doLoopFrom st inputs)
  /\ returning (fun st' => Repl.vars (Repl.repl st') = Repl.vars (Repl.repl st))
       (Repl.doLoopFrom st inputs).
Proof.
  revert st. induction inputs as [| inp inputs IH]; intros st.
  - split; [constructor | by intros st' [= <-]].
  - change (Repl.doLoopFrom st (inp :: inputs))
      with (Repl.iteration st inp ≫= fun st' => Repl.doLoopFrom st' inputs).
    assert (Hkeep : forall st', outcome (Repl.iteration st inp) = Return st' ->
              Repl.vars (Repl.repl st') = Repl.vars (Repl.repl st)).
    { intros st'. rewrite iteration_eq. cbn. intros Hst'.
      by apply evaluateInput_keeps in Hst' as (_ & _ & -> & _). }
    split.
    + apply logging_bind.
      * rewrite iteration_eq. unfold logging. cbn. apply Forall_app. split.
        -- unfold beginEvents. destruct (Repl.cancel st); repeat constructor; done.
        -- eapply Forall_impl; [apply (evaluateInput_logs (begun st) inp) |].
           cbn. intros e [_ He]. exact He.
      * intros st' Hst'. rewrite <- (Hkeep st' Hst'). apply IH.
    + apply returning_bind. intros st' Hst' st'' Hst''.
      rewrite <- (Hkeep st' Hst'). by apply IH.
Qed.

(** C5, as the code has it: when the text handed to [checkQuit], the
    lines kept so far followed by the new line, is after trimming one of
    [quit], [exit], [help] and [reset] (with no lines kept, when the new
    line alone is after trimming one of them), the evaluator is not
    called:
    [quit] and [exit] end the process with status 0, [help] prints the
    help, and [reset] makes a new engine adapter and a new evaluator whose
    interpreter gets the variables of the session, puts the evaluator in
    place of the old one, or ends the process with status 1 when one of
    the two cannot be made. In all of a session the variables stay those
    it started with, and every interpreter is made with them. *)
Theorem special_inputs_intercepted st (tmp : string) :
  let r := Repl.repl st in
  let word := TrimSpace (submitted st tmp) in
  let turn := Repl.evaluateInput st (Repl.FromLineChan tmp) in
  (word = "quit" \/ word = "exit" -> turn = (Exit 0, []))
  /\ (word = "help" ->
      turn = (Return (Repl.mkState r (Repl.proc st) "" (Repl.stackKeep st) (Repl.cancel st)),
              [PrintHelp; Sync]))
  /\ (word = "reset" ->
      match Repl.NewDocker (Repl.globals r) with
      | inr err => turn = (Exit 1, [CallNewDocker; Printf "+++ Error: %v\n" [err]])
      | inl exec =>
          match Repl.NewMRuby
                  (Repl.mkConfig "repl" (Repl.globals r)
                     (Repl.NewInterpreter (Repl.globals r) exec (Repl.vars r)) exec) with
          | inr err =>
              turn = (Exit 1, [CallNewDocker; CallNewInterpreter (Repl.vars r);
                               CallNewMRuby; Printf "+++ Error: %v\n" [err]])
          | inl e =>
              turn = (Return (Repl.mkState (Repl.setEvaluator r e) (Repl.proc st) ""
                                (Repl.stackKeep st) (Repl.cancel st)),
                      [CallNewDocker; CallNewInterpreter (Repl.vars r);
                       CallNewMRuby; Sync])
          end
      end)
  /\ (word ∈ specialWords -> silentOn isRunCode turn)
  /\ (Repl.line st = "" -> word = TrimSpace tmp)
  /\ (forall inputs,
        logging (fun e => forall vs, e = CallNewInterpreter vs -> vs = Repl.vars r)
          (Repl.doLoopFrom st inputs)
        /\ returning (fun st' => Repl.vars (Repl.repl st') = Repl.vars r)
             (Repl.doLoopFrom st inputs)).
Proof.
  intros r word turn.
  assert (Hquit : word = "quit" \/ word = "exit" -> turn = (Exit 0, [])).
  { subst turn word. unfold Repl.evaluateInput, Repl.readChannels, Repl.checkQuit, submitted.
    cbn. by intros [-> | ->]. }
  assert (Hhelp : word = "help" -> turn
            = (Return (Repl.mkState r (Repl.proc st) "" (Repl.stackKeep st) (Repl.cancel st)),
               [PrintHelp; Sync])).
  { subst turn word. unfold Repl.evaluateInput, Repl.readChannels, Repl.checkQuit, submitted.
    cbn. by intros ->. }
  assert (Hreset : word = "reset" ->
      match Repl.NewDocker (Repl.globals r) with
      | inr err => turn = (Exit 1, [CallNewDocker; Printf "+++ Error: %v\n" [err]])
      | inl exec =>
          match Repl.NewMRuby
                  (Repl.mkConfig "repl" (Repl.globals r)
                     (Repl.NewInterpreter (Repl.globals r) exec (Repl.vars r)) exec) with
          | inr err =>
              turn = (Exit 1, [CallNewDocker; CallNewInterpreter (Repl.vars r);
                               CallNewMRuby; Printf "+++ Error: %v\n" [err]])
          | inl e =>
              turn = (Return (Repl.mkState (Repl.setEvaluator r e) (Repl.proc st) ""
                                (Repl.stackKeep st) (Repl.cancel st)),
                      [CallNewDocker; CallNewInterpreter (Repl.vars r);
                       CallNewMRuby; Sync])
          end
      end).
  { subst turn word r.
    unfold Repl.evaluateInput, Repl.readChannels, Repl.checkQuit, submitted.
    cbn. intros ->. cbn.
    destruct (Repl.NewDocker _) as [exec | err]; cbn; [| done].
    by destruct (Repl.NewMRuby _) as [e | err]. }
  split; [exact Hquit |]. split; [exact Hhelp |]. split; [exact Hreset |].
  split; [| split; [| intros inputs; apply session_variables]].
  2: { intros Hline. subst word. unfold submitted. rewrite Hline.
       apply TrimSpace_newline. }
  unfold specialWords. rewrite !elem_of_cons.
  intros [Hw | [Hw | [Hw | [Hw | []%elem_of_nil]]]]; unfold silentOn.
  - rewrite Hquit by tauto. constructor.
  - rewrite Hquit by tauto. constructor.
  - rewrite (Hhelp Hw). by repeat constructor.
  - specialize (Hreset Hw).
    destruct (Repl.NewDocker _) as [exec | err];
      [destruct (Repl.NewMRuby _) as [e | err] |];
      rewrite Hreset; by repeat constructor.
Qed.

End Session.

Lemma special_inputs_intercepted_witness :
  @Repl.evaluateInput _ _ _ Examples.stackEvaluator Examples.localBackend
    Examples.busyState (Repl.FromLineChan "  reset ")
  = (Return (Repl.mkState
               (Repl.mkRepl Repl.normalPrompt 0
                  (mkGlobal [] true true false true (mkLogger "repl" false) 4)
                  {["version" := "1.2"]})
               (Repl.proc Examples.busyState) "" 3%Z (Some 4)),
     [CallNewDocker; CallNewInterpreter {["version" := "1.2"]}; CallNewMRuby; Sync])
  /\ silentOn isRunCode
       (@Repl.evaluateInput _ _ _ Examples.stackEvaluator Examples.localBackend
          Examples.busyState (Repl.FromLineChan "quit")).
Proof.
  split.
  - destruct (@special_inputs_intercepted _ _ _ Examples.stackEvaluator
                Examples.localBackend Examples.busyState "  reset ")
      as (_ & _ & Hreset & _).
    exact (Hreset eq_refl).
  - destruct (@special_inputs_intercepted _ _ _ Examples.stackEvaluator
                Examples.localBackend Examples.busyState "quit")
      as (_ & _ & _ & Hsilent & _).
    apply Hsilent. unfold specialWords. rewrite elem_of_cons. left. reflexivity.
Defined.

(** C5, as stated, fails: [quit] typed while an unfinished statement is
    kept is not intercepted; it goes to the evaluator together with the
    lines before it, and the session goes on. *)
Lemma quit_after_unfinished_statement_is_evaluated :
  exists st evs,
    @Repl.doLoop _ _ _ Examples.stackEvaluator Examples.localBackend
      Examples.freshRepl Examples.freshProcess
      [Repl.FromLineChan "begin"; Repl.FromLineChan "quit"]
    = (Return st, evs)
    /\ CallRunCode ("begin" +:+ NL +:+ "quit" +:+ NL) 0 2 ∈ evs.
Proof.
  eexists _, _. split; [vm_compute; reflexivity |].
  rewrite !elem_of_cons. do 8 right. left. reflexivity.
Qed.

Section Continuation.
Context {E Exec Interp : Type} `{Repl.Evaluator E} `{Repl.Backend E Exec Interp}.
Implicit Types (st : Repl.State E).

Lemma checkQuit_ordinary (r : Repl.Repl E) (line : string) :
  TrimSpace line ∉ specialWords ->
  Repl.checkQuit r line = (Return (r, false, None), []).
Proof.
  unfold specialWords. rewrite !not_elem_of_cons.
  intros (Hquit & Hexit & Hhelp & Hreset & _). unfold Repl.checkQuit.
  apply String.eqb_neq in Hquit, Hexit, Hhelp, Hreset.
  by rewrite Hquit, Hexit, Hhelp, Hreset.
Qed.

(** C3, as the code has it: a line that is not a special word goes to
    [RunCode] after the lines kept so far. A parser error that leaves
    the stack depth as it was is taken for an unfinished statement: the
    text is kept, the prompt becomes the continuation prompt and no error
    is printed, so that the next line is submitted after it. Any other
    answer ends the statement: the text is dropped, the new stack depth
    is kept and the prompt is the normal one, with the error printed if
    there is one and the result otherwise. *)
Theorem continuation_protocol st (tmp : string) :
  let r := Repl.repl st in
  let code := submitted st tmp in
  let call := CallRunCode code (Repl.stackKeep st) (Context (Repl.globals r)) in
  TrimSpace code ∉ specialWords ->
  match Repl.RunCode (Repl.evaluator r) code (Repl.stackKeep st) false with
  | Repl.Panicked msg =>
      Repl.evaluateInput st (Repl.FromLineChan tmp) = (Panic msg, [call])
  | Repl.Returned e newKeep err =>
      Repl.evaluateInput st (Repl.FromLineChan tmp)
      = if Repl.isParserError err && (newKeep =? Repl.stackKeep st)%Z then
          (Return (Repl.mkState
                     (Repl.setPrompt (Repl.setEvaluator r e) Repl.multilinePrompt)
                     (Repl.proc st) code (Repl.stackKeep st) (Repl.cancel st)),
           [call; SetPrompt Repl.multilinePrompt; Sync])
        else
          (Return (Repl.mkState
                     (Repl.setPrompt (Repl.setEvaluator r e) Repl.normalPrompt)
                     (Repl.proc st) "" newKeep (Repl.cancel st)),
           [call; SetPrompt Repl.normalPrompt;
            match err with
            | Some e' => Printf "+++ Error: %v\n" [Repl.errorText e']
            | None =>
                LogEvalResponse
                  (if negb (String.eqb (Value (Repl.Result e)) "")
                   then Value (Repl.Result e) else "Executed!")
            end;
            Sync])
  end.
Proof.
  intros r code call Hword.
  unfold Repl.evaluateInput, Repl.readChannels. cbn.
  fold (submitted st tmp). fold code.
  rewrite (checkQuit_ordinary _ _ Hword). cbn.
  destruct (Repl.RunCode _ _ _ _) as [e newKeep err | msg]; [| done].
  destruct (Repl.isParserError err && (newKeep =? Repl.stackKeep st)%Z); [done |].
  destruct err as [e' |]; cbn; [done |].
  by destruct (negb _).
Qed.

(** The text kept after an unfinished line is what the next line is
    appended to, whatever the next turn does before it reads. *)
Lemma kept_text_is_resubmitted st (r' : Repl.Repl E) (tmp tmp2 : string) :
  submitted (begun (Repl.mkState r' (Repl.proc st) (submitted st tmp)
                      (Repl.stackKeep st) (Repl.cancel st))) tmp2
  = submitted st tmp +:+ tmp2 +:+ NL.
Proof. reflexivity. Qed.

End Continuation.

Lemma continuation_protocol_witness :
  @Repl.evaluateInput _ _ _ Examples.stackEvaluator Examples.localBackend
    Examples.busyState (Repl.FromLineChan "begin")
  = (Return (Repl.mkState
               (Repl.mkRepl Repl.multilinePrompt 3
                  (mkGlobal [] true true false true (mkLogger "repl" false) 4)
                  {["version" := "1.2"]})
               (Repl.proc Examples.busyState) ("begin" +:+ NL) 3%Z (Some 4)),
     [CallRunCode ("begin" +:+ NL) 3 4; SetPrompt Repl.multilinePrompt; Sync]).
Proof.
  apply (@continuation_protocol _ _ _ Examples.stackEvaluator Examples.localBackend
           Examples.busyState "begin").
  apply (bool_decide_unpack _). vm_compute. reflexivity.
Defined.

(** A statement spread over two lines: the first line is kept, the
    second is submitted after it, and the statement then runs. *)
Lemma statement_over_two_lines :
  exists st,
    @Repl.doLoop _ _ _ Examples.stackEvaluator Examples.localBackend
      Examples.freshRepl Examples.freshProcess
      [Repl.FromLineChan "begin"; Repl.FromLineChan "end"]
    = (Return st,
       [WithCancel 1; AddFunc 1;
        CallRunCode ("begin" +:+ NL) 0 1; SetPrompt Repl.multilinePrompt; Sync;
        Cancel 1; WithCancel 2; AddFunc 2;
        CallRunCode ("begin" +:+ NL +:+ "end" +:+ NL) 0 2; SetPrompt Repl.normalPrompt;
        LogEvalResponse "sha256:1"; Sync])
    /\ Repl.line st = "" /\ Repl.stackKeep st = 1%Z
    /\ Repl.readline (Repl.repl st) = Repl.normalPrompt.
Proof. eexists. split; [vm_compute; reflexivity | done]. Qed.

(** C3, as stated, fails: when the evaluator answers an unfinished
    statement with a continuation other than the one it was given (here
    1 after the baseline 0), [doLoop] takes the answer for an error of
    the statement: it prints the error, drops the text and keeps the
    normal prompt. *)
Lemma new_continuation_is_reported_as_error :
  @Repl.RunCode _ Examples.specEvaluator 0 ("begin" +:+ NL) 0%Z false
  = Repl.Returned 0 1%Z (Some (Repl.ParserError "incomplete statement"))
  /\ exists st evs,
       @Repl.doLoop _ _ _ Examples.specEvaluator Examples.localBackend
         Examples.freshRepl Examples.freshProcess [Repl.FromLineChan "begin"]
       = (Return st, evs)
       /\ Repl.line st = ""
       /\ Repl.readline (Repl.repl st) = Repl.normalPrompt
       /\ Printf "+++ Error: %v\n" ["incomplete statement"] ∈ evs.
Proof.
  split; [reflexivity |]. eexists _, _. split; [vm_compute; reflexivity |].
  split; [reflexivity |]. split; [reflexivity |].
  rewrite !elem_of_cons. do 4 right. left. reflexivity.
Qed.

(** ** Cancellation scopes of the session *)

Lemma trigger_nextScope (l : list Scope) (w : Scopes) :
  nextScope (foldr cancelScope w l) = nextScope w.
Proof. induction l as [| s l IH]; [done | exact IH]. Qed.

Lemma trigger_cancelled (l : list Scope) (w : Scopes) (s : Scope) :
  s ∈ cancelled (foldr cancelScope w l) <-> s ∈ l \/ s ∈ cancelled w.
Proof.
  induction l as [| s' l IH]; cbn.
  - rewrite elem_of_nil. tauto.
  - rewrite elem_of_union, elem_of_singleton, elem_of_cons, IH. tauto.
Qed.

Section Scopes.
Context {E Exec Interp : Type} `{Repl.Evaluator E} `{Repl.Backend E Exec Interp}.
Implicit Types (st : Repl.State E).

Lemma NewRepl_made omit log vs (p0 p : Repl.Process) (r : Repl.Repl E) :
  outcome (Repl.NewRepl omit log vs p0) = Return (p, inl r) ->
  p = Repl.mkProcess
        (addFunc (setInteractive (Repl.handler p0)) (nextScope (Repl.scopes p0)))
        (mkScopes (S (nextScope (Repl.scopes p0))) (cancelled (Repl.scopes p0)))
  /\ Repl.vars r = vs
  /\ Context (Repl.globals r) = nextScope (Repl.scopes p0).
Proof.
  unfold Repl.NewRepl. intros Hmade. branches. done.
Qed.

Lemma started_in_order omit log vs (p0 p : Repl.Process) (r : Repl.Repl E) :
  wellFormed p0 ->
  outcome (Repl.NewRepl omit log vs p0) = Return (p, inl r) ->
  scopesInOrder (nextScope (Repl.scopes p)) (Repl.initialState r p).
Proof.
  intros [Hcancelled Hfuncs] Hmade.
  apply NewRepl_made in Hmade as (-> & _ & _). unfold scopesInOrder, wellFormed, live. cbn.
  split; [done |]. split; [lia |]. split; [| split; [done |]].
  - split.
    + intros s Hs. apply Hcancelled in Hs. lia.
    + intros s [Hs | ->%list_elem_of_singleton]%elem_of_app; [apply Hfuncs in Hs |]; lia.
  - intros s Hle [Hlt _]. lia.
Qed.

Lemma begun_in_order n0 st : scopesInOrder n0 st -> scopesInOrder n0 (begun st).
Proof.
  intros (Hexit & Hn0 & [Hcancelled Hfuncs] & Hcancel & Hlive).
  unfold scopesInOrder, wellFormed, live, begun in *.
  destruct st as [r [h w] ln keep c]. cbn in *.
  assert (Hnext : nextScope (match c with Some c0 => cancelScope c0 w | None => w end)
                  = nextScope w) by (by destruct c).
  rewrite Hnext.
  split; [done |]. split; [lia |]. split; [split |]; [| | split].
  - intros s Hs. destruct c as [c |]; cbn in Hs.
    + apply elem_of_union in Hs as [->%elem_of_singleton | Hs].
      * specialize (Hcancel c eq_refl). lia.
      * apply Hcancelled in Hs. lia.
    + apply Hcancelled in Hs. lia.
  - intros s [Hs | ->%list_elem_of_singleton]%elem_of_app; [apply Hfuncs in Hs |]; lia.
  - intros c' [= <-]. lia.
  - intros s Hle [Hlt Hs].
    destruct (decide (s = nextScope w)) as [-> | Hne]; [done |].
    exfalso. assert (Hold : s < nextScope w /\ s ∉ cancelled w).
    { split; [lia |]. intros Hin. apply Hs.
      destruct c; cbn; [apply elem_of_union; by right | done]. }
    specialize (Hlive s Hle Hold). subst c. apply Hs. cbn.
    apply elem_of_union. left. by apply elem_of_singleton.
Qed.

Lemma interrupt_in_order n0 st :
  scopesInOrder n0 st -> scopesInOrder n0 (fst (Repl.interrupt st)).
Proof.
  intros (Hexit & Hn0 & [Hcancelled Hfuncs] & Hcancel & Hlive).
  unfold scopesInOrder, wellFormed, live, Repl.interrupt, Trigger in *.
  destruct st as [r [h w] ln keep c]. cbn in *.
  rewrite trigger_nextScope.
  split; [done |]. split; [done |]. split; [split |]; [| | split; [done |]].
  - intros s [Hs | Hs]%trigger_cancelled; auto.
  - intros s []%elem_of_nil.
  - intros s Hle [Hlt Hs]. apply Hlive; [done |]. split; [done |].
    intros Hin. apply Hs. apply trigger_cancelled. by right.
Qed.

Lemma reachable_in_order n0 (st0 st : Repl.State E) :
  scopesInOrder n0 st0 -> reachable st0 st -> scopesInOrder n0 st.
Proof.
  intros Hstart Hreach. induction Hreach as [| st _ IH | st inp st' _ IH Hturn | st _ IH].
  - exact Hstart.
  - by apply begun_in_order.
  - apply evaluateInput_keeps in Hturn as (Hproc & Hcancel & _).
    unfold scopesInOrder in *. by rewrite Hproc, Hcancel.
  - by apply interrupt_in_order.
Qed.

(** The states in which [doLoop] waits for its next input are among
    those reached by turns. *)
Lemma doLoopFrom_reachable (inputs : list Repl.ChanInput) (st0 st st' : Repl.State E) :
  reachable st0 st ->
  outcome (Repl.doLoopFrom st inputs) = Return st' ->
  reachable st0 st'.
Proof.
  revert st. induction inputs as [| inp inputs IH]; intros st Hst Hrun.
  - injection Hrun as <-. exact Hst.
  - change (Repl.doLoopFrom st (inp :: inputs))
      with (Repl.iteration st inp ≫= fun st1 => Repl.doLoopFrom st1 inputs) in Hrun.
    apply bind_return_inv in Hrun as (st1 & Hturn & Hrest & _).
    rewrite iteration_eq in Hturn. cbn in Hturn.
    apply (IH st1); [| exact Hrest].
    by apply (reach_evaluate _ (begun st) inp); [apply reach_begin |].
Qed.

(** C6: in a session started by [NewRepl], every turn of the loop
    first cancels the scope of the turn before, then makes a scope that
    did not exist and registers it with the signal handler, and only
    then reads and evaluates: the evaluator is called under the new
    scope, and the turn leaves that scope in [cancel] for the next turn
    to cancel. An interrupt during the turn does not end the process,
    and of the scopes made by the loop the only one it can still cancel
    is that of the current statement. *)
Theorem fresh_scope_per_statement omit log vs (p0 p : Repl.Process) (r : Repl.Repl E) st :
  wellFormed p0 ->
  outcome (Repl.NewRepl omit log vs p0) = Return (p, inl r) ->
  reachable (Repl.initialState r p) st ->
  let ctx := nextScope (Repl.scopes (Repl.proc st)) in
  Repl.beginIteration st
  = (Return (begun st),
     match Repl.cancel st with Some c => [Cancel c] | None => [] end
     ++ [WithCancel ctx; AddFunc ctx])
  /\ (forall c, Repl.cancel st = Some c ->
        c <> ctx /\ c ∈ cancelled (Repl.scopes (Repl.proc (begun st))))
  /\ ~ live (Repl.scopes (Repl.proc st)) ctx
  /\ live (Repl.scopes (Repl.proc (begun st))) ctx
  /\ ctx ∈ hfuncs (Repl.handler (Repl.proc (begun st)))
  /\ (forall inp,
        Repl.iteration st inp
        = (outcome (Repl.evaluateInput (begun st) inp),
           beginEvents st ++ events (Repl.evaluateInput (begun st) inp))
        /\ logging (evaluatesUnder ctx) (Repl.evaluateInput (begun st) inp)
        /\ returning (fun st' => Repl.cancel st' = Some ctx)
             (Repl.evaluateInput (begun st) inp))
  /\ snd (Repl.interrupt (begun st)) = false
  /\ ctx ∈ cancelled (Repl.scopes (Repl.proc (fst (Repl.interrupt (begun st)))))
  /\ (forall s, nextScope (Repl.scopes p) <= s ->
        live (Repl.scopes (Repl.proc (begun st))) s -> s = ctx).
Proof.
  intros Hwf Hmade Hreach ctx.
  pose proof (reachable_in_order _ _ _ (started_in_order _ _ _ _ _ _ Hwf Hmade) Hreach)
    as Hst.
  pose proof (begun_in_order _ _ Hst) as Hbegun.
  destruct Hst as (Hexit & Hn0 & [Hcancelled Hfuncs] & Hcancel & Hlive).
  destruct Hbegun as (Hexit' & _ & _ & _ & Hlive').
  assert (Hnext : nextScope
                    (match Repl.cancel st with
                     | Some c => cancelScope c (Repl.scopes (Repl.proc st))
                     | None => Repl.scopes (Repl.proc st)
                     end) = ctx) by (by destruct (Repl.cancel st)).
  split; [apply beginIteration_eq |].
  split.
  { intros c Hc. specialize (Hcancel c Hc). split; [unfold ctx in *; lia |].
    unfold begun. rewrite Hc. cbn. apply elem_of_union. left. by apply elem_of_singleton. }
  split; [intros [Hlt _]; unfold ctx in *; lia |].
  split.
  { unfold live, begun. cbn. rewrite Hnext. split; [lia |].
    intros Hin. destruct (Repl.cancel st) as [c |] eqn:Hc; cbn in Hin.
    - apply elem_of_union in Hin as [Heq%elem_of_singleton | Hin].
      + specialize (Hcancel c eq_refl). unfold ctx in *. lia.
      + apply Hcancelled in Hin. unfold ctx in *. lia.
    - apply Hcancelled in Hin. unfold ctx in *. lia. }
  split.
  { unfold begun. cbn. rewrite Hnext. apply elem_of_app. right.
    by apply list_elem_of_singleton. }
  split.
  { intros inp. split; [apply iteration_eq |]. split.
    - eapply logging_impl; [| apply (evaluateInput_logs (begun st) inp)].
      intros e [He _]. unfold begun in He. cbn in He. by rewrite Hnext in He.
    - intros st' Hst'. apply evaluateInput_keeps in Hst' as (_ & -> & _).
      unfold begun. cbn. by rewrite Hnext. }
  split; [exact Hexit' |].
  split.
  { unfold Repl.interrupt, Trigger, begun. cbn. rewrite Hnext.
    apply trigger_cancelled. left. apply elem_of_app. right.
    by apply list_elem_of_singleton. }
  intros s Hle Hs. specialize (Hlive' s Hle Hs).
  unfold begun in Hlive'. cbn in Hlive'. rewrite Hnext in Hlive'. by injection Hlive'.
Qed.

End Scopes.

Lemma fresh_scope_per_statement_witness :
  @Repl.beginIteration nat Examples.afterOneTurn
  = (Return (begun Examples.afterOneTurn), [Cancel 1; WithCancel 2; AddFunc 2])
  /\ snd (Repl.interrupt (begun Examples.afterOneTurn)) = false
  /\ (forall s, 1 <= s ->
        live (Repl.scopes (Repl.proc (begun Examples.afterOneTurn))) s -> s = 2).
Proof.
  destruct (@fresh_scope_per_statement _ _ _ Examples.stackEvaluator Examples.localBackend
              [] (mkLogger "repl" false) ∅ Examples.processStart
              Examples.freshProcess Examples.freshRepl Examples.afterOneTurn)
    as (Hbegin & _ & _ & _ & _ & _ & Hgoes_on & _ & Honly).
  - split; cbn; intros s Hs.
    + by apply not_elem_of_empty in Hs.
    + by apply elem_of_nil in Hs.
  - reflexivity.
  - apply (reach_evaluate _ (begun (Repl.initialState Examples.freshRepl Examples.freshProcess))
             (Repl.FromLineChan "from :debian")).
    + apply reach_begin, reach_start.
    + vm_compute. reflexivity.
  - split; [exact Hbegin |]. split; [exact Hgoes_on | exact Honly].
Defined.

(** * Further properties of the code *)

(** ** Lookups in [/etc/passwd] and [/etc/group] *)

Lemma Split_head (s : string) (sep : ascii) : is_Some (Split s sep !! 0%nat).
Proof.
  induction s as [| c s IH]; cbn; [by eexists |].
  destruct (Ascii.eqb c sep); [by eexists |].
  destruct (Split s sep); by eexists.
Qed.

Lemma scanEntries_first_match (pre post : list string) (ent name : string) :
  (forall e, e ∈ pre -> Split e ":" !! 0%nat <> Some name) ->
  Split ent ":" !! 0%nat = Some name ->
  Funcs.scanEntries (pre ++ ent :: post) name
  = match Split ent ":" !! 2%nat with
    | Some id => Funcs.Found id
    | None => Funcs.OutOfRange
    end.
Proof.
  intros Hpre Hent. induction pre as [| e pre IH]; cbn [app Funcs.scanEntries].
  - rewrite Hent, String.eqb_refl. reflexivity.
  - assert (He : Split e ":" !! 0%nat <> Some name).
    { apply Hpre. rewrite elem_of_cons. by left. }
    destruct (Split e ":" !! 0%nat) as [p0 |] eqn:Hp0.
    + destruct (String.eqb p0 name) eqn:Heq.
      * apply String.eqb_eq in Heq. congruence.
      * apply IH. intros e' He'. apply Hpre. rewrite elem_of_cons. by right.
    + destruct (Split_head e ":") as [p0 Hp0']. congruence.
Qed.

Lemma getuid_with_image (b : Funcs.Builder) (name : string) :
  Funcs.ImageID b <> "" ->
  Funcs.getuid b (Funcs.mkMrb [name])
  = match Funcs.containerContent b "/etc/passwd" with
    | inr err => (Return (Funcs.MrbException err), [Funcs.ReadContainer "/etc/passwd"])
    | inl content =>
        match Funcs.scanEntries (Split content newline) name with
        | Funcs.Found id =>
            (Return (Funcs.MrbString id), [Funcs.ReadContainer "/etc/passwd"])
        | Funcs.OutOfRange =>
            (Panic "index out of range", [Funcs.ReadContainer "/etc/passwd"])
        | Funcs.NoMatch =>
            (Return (Funcs.MrbException ("Could not find user " +:+ Quote name)),
             [Funcs.ReadContainer "/etc/passwd"])
        end
    end.
Proof.
  intros Himg. unfold Funcs.getuid. cbn [Funcs.GetArgs length Nat.eqb negb].
  by rewrite (eqb_empty_false _ Himg).
Qed.

Lemma getgid_with_image (b : Funcs.Builder) (name : string) :
  Funcs.ImageID b <> "" ->
  Funcs.getgid b (Funcs.mkMrb [name])
  = match Funcs.containerContent b "/etc/group" with
    | inr err => (Return (Funcs.MrbException err), [Funcs.ReadContainer "/etc/group"])
    | inl content =>
        match Funcs.scanEntries (Split content newline) name with
        | Funcs.Found id =>
            (Return (Funcs.MrbString id), [Funcs.ReadContainer "/etc/group"])
        | Funcs.OutOfRange =>
            (Panic "index out of range", [Funcs.ReadContainer "/etc/group"])
        | Funcs.NoMatch =>
            (Return (Funcs.MrbException ("Could not find group " +:+ Quote name)),
             [Funcs.ReadContainer "/etc/group"])
        end
    end.
Proof.
  intros Himg. unfold Funcs.getgid. cbn [Funcs.GetArgs length Nat.eqb negb].
  by rewrite (eqb_empty_false _ Himg).
Qed.

(** X1: the first line whose first field is the name decides the
    lookup. When that line has a third field, [getuid] and [getgid]
    return it, whatever the lines after it are, also when a later line
    has the same first field. *)
Theorem first_matching_line_wins
    (b : Funcs.Builder) (content name ent id : string) (pre post : list string) :
  Funcs.ImageID b <> "" ->
  Split content newline = pre ++ ent :: post ->
  (forall e, e ∈ pre -> Split e ":" !! 0%nat <> Some name) ->
  Split ent ":" !! 0%nat = Some name ->
  Split ent ":" !! 2%nat = Some id ->
  (Funcs.containerContent b "/etc/passwd" = inl content ->
   Funcs.getuid b (Funcs.mkMrb [name])
   = (Return (Funcs.MrbString id), [Funcs.ReadContainer "/etc/passwd"]))
  /\ (Funcs.containerContent b "/etc/group" = inl content ->
      Funcs.getgid b (Funcs.mkMrb [name])
      = (Return (Funcs.MrbString id), [Funcs.ReadContainer "/etc/group"])).
Proof.
  intros Himg Hlines Hpre Hent Hid.
  pose proof (scanEntries_first_match pre post ent name Hpre Hent) as Hscan.
  rewrite Hid in Hscan.
  split; intros Hfile.
  - by rewrite (getuid_with_image _ _ Himg), Hfile, Hlines, Hscan.
  - by rewrite (getgid_with_image _ _ Himg), Hfile, Hlines, Hscan.
Qed.

Lemma first_matching_line_wins_witness :
  Funcs.getuid twoAlicesBuilder (Funcs.mkMrb ["alice"])
  = (Return (Funcs.MrbString "1000"), [Funcs.ReadContainer "/etc/passwd"]).
Proof.
  refine (proj1 (first_matching_line_wins twoAlicesBuilder twoAlices
                   "alice" "alice:x:1000:1000" "1000"
                   ["root:x:0:0"] ["alice:x:2000:2000"; ""] _ _ _ _ _) _).
  - discriminate.
  - vm_compute. reflexivity.
  - intros e ->%list_elem_of_singleton. vm_compute. discriminate.
  - reflexivity.
  - reflexivity.
  - reflexivity.
Defined.

(** X2: when the first line whose first field is the name has fewer
    than three fields, [getuid] and [getgid] panic on [parts[2]] after
    reading the file: no exception is handed to the build plan. *)
Theorem short_matching_line_panics
    (b : Funcs.Builder) (content name ent : string) (pre post : list string) :
  Funcs.ImageID b <> "" ->
  Split content newline = pre ++ ent :: post ->
  (forall e, e ∈ pre -> Split e ":" !! 0%nat <> Some name) ->
  Split ent ":" !! 0%nat = Some name ->
  Split ent ":" !! 2%nat = None ->
  (Funcs.containerContent b "/etc/passwd" = inl content ->
   Funcs.getuid b (Funcs.mkMrb [name])
   = (Panic "index out of range", [Funcs.ReadContainer "/etc/passwd"]))
  /\ (Funcs.containerContent b "/etc/group" = inl content ->
      Funcs.getgid b (Funcs.mkMrb [name])
      = (Panic "index out of range", [Funcs.ReadContainer "/etc/group"])).
Proof.
  intros Himg Hlines Hpre Hent Hid.
  pose proof (scanEntries_first_match pre post ent name Hpre Hent) as Hscan.
  rewrite Hid in Hscan.
  split; intros Hfile.
  - by rewrite (getuid_with_image _ _ Himg), Hfile, Hlines, Hscan.
  - by rewrite (getgid_with_image _ _ Himg), Hfile, Hlines, Hscan.
Qed.

(** The empty name on the file of the example: the text after the last
    newline is an empty line, whose only field is the empty name. *)
Lemma short_matching_line_panics_witness :
  Funcs.getuid Funcs.exampleBuilder (Funcs.mkMrb [""])
  = (Panic "index out of range", [Funcs.ReadContainer "/etc/passwd"]).
Proof.
  refine (proj1 (short_matching_line_panics Funcs.exampleBuilder Funcs.passwdLine
                   "" "" ["alice:x:1000:1000::/home/alice:/bin/bash"] [] _ _ _ _ _) _).
  - discriminate.
  - vm_compute. reflexivity.
  - intros e ->%list_elem_of_singleton. vm_compute. discriminate.
  - reflexivity.
  - reflexivity.
  - reflexivity.
Defined.

Lemma Contains_empty (d : ascii) : Contains "" (String d "") = false.
Proof. reflexivity. Qed.

Lemma Split_cons (c : ascii) (s : string) (sep : ascii) :
  Split (String c s) sep
  = if Ascii.eqb c sep then "" :: Split s sep
    else match Split s sep with
         | p :: ps => String c p :: ps
         | [] => [String c ""]
         end.
Proof. reflexivity. Qed.

(** A byte that does not occur in a string occurs in none of its
    pieces, and the separator occurs in none of them either. *)
Lemma Split_piece_absent (d : ascii) (s : string) (sep : ascii) (p : string) :
  Contains s (String d "") = false -> p ∈ Split s sep ->
  Contains p (String d "") = false.
Proof.
  revert p. induction s as [| c s IH]; intros p Hs Hp.
  - apply list_elem_of_singleton in Hp as ->. reflexivity.
  - rewrite contains_char_cons in Hs. apply orb_false_elim in Hs as [Hc Hs].
    rewrite Split_cons in Hp. destruct (Ascii.eqb c sep).
    + apply elem_of_cons in Hp as [-> | Hp]; [reflexivity | by apply IH].
    + destruct (Split s sep) as [| p0 ps] eqn:Hsplit.
      * apply list_elem_of_singleton in Hp as ->.
        by rewrite contains_char_cons, Hc.
      * apply elem_of_cons in Hp as [-> | Hp].
        -- rewrite contains_char_cons, Hc. apply IH; [done |].
           rewrite elem_of_cons. by left.
        -- apply IH; [done |]. rewrite elem_of_cons. by right.
Qed.

Lemma Split_piece_no_separator (s : string) (sep : ascii) (p : string) :
  p ∈ Split s sep -> Contains p (String sep "") = false.
Proof.
  revert p. induction s as [| c s IH]; intros p Hp.
  - apply list_elem_of_singleton in Hp as ->. reflexivity.
  - rewrite Split_cons in Hp. destruct (Ascii.eqb c sep) eqn:Hc.
    + apply elem_of_cons in Hp as [-> | Hp]; [reflexivity | by apply IH].
    + rewrite Ascii.eqb_sym in Hc.
      destruct (Split s sep) as [| p0 ps] eqn:Hsplit.
      * apply list_elem_of_singleton in Hp as ->.
        by rewrite contains_char_cons, Hc.
      * apply elem_of_cons in Hp as [-> | Hp].
        -- rewrite contains_char_cons, Hc. apply IH. rewrite elem_of_cons. by left.
        -- apply IH. rewrite elem_of_cons. by right.
Qed.

Lemma scanEntries_found (entries : list string) (name id : string) :
  Funcs.scanEntries entries name = Funcs.Found id ->
  exists ent, ent ∈ entries /\ id ∈ Split ent ":".
Proof.
  induction entries as [| e entries IH]; cbn [Funcs.scanEntries]; [discriminate |].
  destruct (Split e ":" !! 0%nat) as [p0 |]; [| discriminate].
  destruct (String.eqb p0 name).
  - destruct (Split e ":" !! 2%nat) as [p2 |] eqn:Hp2; [| discriminate].
    intros [= <-]. exists e. split; [rewrite elem_of_cons; by left |].
    by apply list_elem_of_lookup_2 in Hp2.
  - intros Hfound. destruct (IH Hfound) as (ent & Hent & Hid).
    exists ent. split; [rewrite elem_of_cons; by right | done].
Qed.

Lemma found_id_is_one_field (content name id : string) :
  Funcs.scanEntries (Split content newline) name = Funcs.Found id ->
  Contains id ":" = false /\ Contains id NL = false.
Proof.
  intros (ent & Hent & Hid)%scanEntries_found. split.
  - by apply (Split_piece_no_separator ent ":").
  - apply (Split_piece_absent newline ent ":"); [| done].
    by apply (Split_piece_no_separator content newline).
Qed.

(** X3: an id that [getuid] or [getgid] returns is one field of one
    line: it contains neither a colon nor a newline, whatever the file
    holds and whatever name is looked up. *)
Theorem returned_id_is_one_field (b : Funcs.Builder) (m : Funcs.Mrb) (id : string) :
  fst (Funcs.getuid b m) = Return (Funcs.MrbString id)
  \/ fst (Funcs.getgid b m) = Return (Funcs.MrbString id) ->
  Contains id ":" = false /\ Contains id NL = false.
Proof.
  unfold Funcs.getuid, Funcs.getgid.
  destruct (negb (length (Funcs.GetArgs m) =? 1)%nat); [by intros [|] |].
  destruct (String.eqb (Funcs.ImageID b) ""); [by intros [|] |].
  intros [Hid | Hid].
  - destruct (Funcs.containerContent b "/etc/passwd") as [content | err]; [| done].
    destruct (Funcs.GetArgs m !! 0%nat) as [name |]; [| done].
    destruct (Funcs.scanEntries _ name) as [id' | |] eqn:Hscan; try done.
    injection Hid as ->. by apply (found_id_is_one_field content name).
  - destruct (Funcs.containerContent b "/etc/group") as [content | err]; [| done].
    destruct (Funcs.GetArgs m !! 0%nat) as [name |]; [| done].
    destruct (Funcs.scanEntries _ name) as [id' | |] eqn:Hscan; try done.
    injection Hid as ->. by apply (found_id_is_one_field content name).
Qed.

Lemma returned_id_is_one_field_witness :
  Contains "1000" ":" = false /\ Contains "1000" NL = false.
Proof.
  apply (returned_id_is_one_field Funcs.exampleBuilder (Funcs.mkMrb ["alice"]) "1000").
  left. reflexivity.
Defined.

(** ** What the queries do to the process and to the engine *)

(** X4: [read], [getuid] and [getgid] never end the process, and they
    call the container engine exactly when they are given one argument
    and an image exists: once, [getuid] for [/etc/passwd], [getgid] for
    [/etc/group] and [read] for the path it is given; [read] never
    panics. *)
Theorem queries_read_one_file (b : Funcs.Builder) (m : Funcs.Mrb) :
  let ready := (length (Funcs.GetArgs m) =? 1)%nat
               && negb (String.eqb (Funcs.ImageID b) "") in
  (forall f c, f ∈ Funcs.guardedQueries -> fst (f b m) <> Exit c)
  /\ (forall p, fst (Funcs.read b m) <> Panic p)
  /\ Funcs.engineCalls (snd (Funcs.getuid b m))
     = (if ready then ["/etc/passwd"] else [])
  /\ Funcs.engineCalls (snd (Funcs.getgid b m))
     = (if ready then ["/etc/group"] else [])
  /\ Funcs.engineCalls (snd (Funcs.read b m))
     = (if ready then Funcs.GetArgs m else []).
Proof.
  intros ready. subst ready. split.
  { intros f c. unfold Funcs.guardedQueries. rewrite !elem_of_cons.
    intros [-> | [-> | [-> | []%elem_of_nil]]];
      unfold Funcs.read, Funcs.getuid, Funcs.getgid; repeat case_match; done. }
  unfold Funcs.read, Funcs.getuid, Funcs.getgid.
  destruct m as [[| a0 [| a1 args]]]; cbn [Funcs.GetArgs length Nat.eqb negb andb];
    [done | | done].
  destruct (String.eqb (Funcs.ImageID b) ""); cbn [negb andb]; [done |].
  cbn [lookup list_lookup].
  destruct (Funcs.containerContent b a0) as [c0 | e0];
    destruct (Funcs.containerContent b "/etc/passwd") as [c1 | e1];
    destruct (Funcs.containerContent b "/etc/group") as [c2 | e2];
    try destruct (Funcs.scanEntries (Split c1 newline) a0);
    try destruct (Funcs.scanEntries (Split c2 newline) a0); done.
Qed.

(** X5: called with a number of arguments other than one, [getenv]
    prints the count and ends the process with status 1; unlike the
    other queries it hands no exception to the build plan. With one
    argument or not, it never calls the container engine. *)
Theorem getenv_wrong_count_exits
    (env : gmap string string) (b : Funcs.Builder) (m : Funcs.Mrb) :
  Funcs.engineCalls (snd (Funcs.getenv env b m)) = []
  /\ (length (Funcs.GetArgs m) <> 1 ->
      Funcs.getenv env b m
      = (Exit 1, [Funcs.Stdout ("Invalid arg count in getenv: "
                                +:+ Itoa (length (Funcs.GetArgs m)) +:+ ", must be 1")])).
Proof.
  unfold Funcs.getenv. split.
  - destruct (negb _); [done |]. by destruct (Funcs.GetArgs m !! 0%nat).
  - intros Hlen. by rewrite (arity_guard _ Hlen).
Qed.

Lemma getenv_wrong_count_exits_witness :
  Funcs.getenv ∅ Funcs.emptyBuilder (Funcs.mkMrb ["HOME"; "PATH"])
  = (Exit 1, [Funcs.Stdout "Invalid arg count in getenv: 2, must be 1"]).
Proof.
  apply (getenv_wrong_count_exits ∅ Funcs.emptyBuilder (Funcs.mkMrb ["HOME"; "PATH"])).
  discriminate.
Defined.

(** X6: with an image, [read] hands the content of the file it is
    asked for to the build plan unchanged, and an error of the container
    engine reaches the plan as an exception with the engine's own text,
    from [read], [getuid] and [getgid] alike. *)
Theorem engine_answer_is_passed_on (b : Funcs.Builder) (a : string) :
  Funcs.ImageID b <> "" ->
  Funcs.read b (Funcs.mkMrb [a])
  = (Return match Funcs.containerContent b a with
            | inl content => Funcs.MrbString content
            | inr err => Funcs.MrbException err
            end, [Funcs.ReadContainer a])
  /\ (forall err, Funcs.containerContent b "/etc/passwd" = inr err ->
        Funcs.getuid b (Funcs.mkMrb [a])
        = (Return (Funcs.MrbException err), [Funcs.ReadContainer "/etc/passwd"]))
  /\ (forall err, Funcs.containerContent b "/etc/group" = inr err ->
        Funcs.getgid b (Funcs.mkMrb [a])
        = (Return (Funcs.MrbException err), [Funcs.ReadContainer "/etc/group"])).
Proof.
  intros Himg. split; [| split].
  - unfold Funcs.read. cbn [Funcs.GetArgs length Nat.eqb negb].
    rewrite (eqb_empty_false _ Himg). cbn [lookup list_lookup].
    by destruct (Funcs.containerContent b a).
  - intros err Herr. by rewrite (getuid_with_image _ _ Himg), Herr.
  - intros err Herr. by rewrite (getgid_with_image _ _ Himg), Herr.
Qed.

Lemma engine_answer_is_passed_on_witness :
  Funcs.read Funcs.exampleBuilder (Funcs.mkMrb ["/etc/passwd"])
  = (Return (Funcs.MrbString Funcs.passwdLine), [Funcs.ReadContainer "/etc/passwd"])
  /\ Funcs.getgid Funcs.exampleBuilder (Funcs.mkMrb ["wheel"])
     = (Return (Funcs.MrbException "no such file: /etc/group"),
        [Funcs.ReadContainer "/etc/group"]).
Proof.
  destruct (engine_answer_is_passed_on Funcs.exampleBuilder "/etc/passwd")
    as (Hread & _ & _); [discriminate |].
  destruct (engine_answer_is_passed_on Funcs.exampleBuilder "wheel")
    as (_ & _ & Hgid); [discriminate |].
  split; [exact Hread | by apply Hgid].
Defined.

(** ** Variables on the command line *)

Lemma splitUpTo_cut (k val : string) (sep : ascii) :
  Contains k (String sep "") = false ->
  splitUpTo (k +:+ String sep val) sep 2 = [k; val].
Proof.
  induction k as [| c k IH]; intros Hk.
  - change ("" +:+ String sep val) with (String sep val). cbn.
    by rewrite Ascii.eqb_refl, splitUpTo_one.
  - rewrite contains_char_cons in Hk. apply orb_false_elim in Hk as [Hc Hk].
    change (String c k +:+ String sep val) with (String c (k +:+ String sep val)).
    cbn. rewrite Ascii.eqb_sym, Hc. by rewrite (IH Hk).
Qed.

Lemma cut_at_separator (v : string) (sep : ascii) :
  Contains v (String sep "") = true ->
  exists k val, v = k +:+ String sep val /\ Contains k (String sep "") = false.
Proof.
  induction v as [| c v IH]; [discriminate |].
  rewrite contains_char_cons. destruct (Ascii.eqb sep c) eqn:Hc.
  - apply Ascii.eqb_eq in Hc as <-. intros _. by exists "", v.
  - cbn [orb]. intros (k & val & -> & Hk)%IH.
    exists (String c k), val. split; [done |]. by rewrite contains_char_cons, Hc.
Qed.

Lemma parseVarsFrom_encoded (kvs : list (string * string)) (vars : gmap string string) :
  (forall kv, kv ∈ kvs -> Contains kv.1 "=" = false) ->
  Main.parseVarsFrom (encodeVar <$> kvs) vars = (Return (assignAll vars kvs), []).
Proof.
  revert vars. induction kvs as [| [k v] kvs IH]; intros vars Hkeys; [done |].
  rewrite fmap_cons, parseVarsFrom_cons.
  change (SplitN (encodeVar (k, v)) "=" 2) with (splitUpTo (k +:+ String "=" v) "=" 2).
  rewrite splitUpTo_cut by (apply (Hkeys (k, v)); rewrite elem_of_cons; by left).
  cbn [lookup list_lookup]. apply IH.
  intros kv Hkv. apply Hkeys. rewrite elem_of_cons. by right.
Qed.

Lemma parseVarsFrom_returns (vs : list string) :
  (forall v, v ∈ vs -> Contains v "=" = true) ->
  exists kvs, vs = encodeVar <$> kvs
              /\ (forall kv, kv ∈ kvs -> Contains kv.1 "=" = false).
Proof.
  induction vs as [| v vs IH]; intros Hvs.
  - exists []. split; [done | by intros kv ?%elem_of_nil].
  - destruct (cut_at_separator v "=") as (k & val & -> & Hk).
    { apply Hvs. rewrite elem_of_cons. by left. }
    destruct IH as (kvs & -> & Hkvs).
    { intros v' Hv'. apply Hvs. rewrite elem_of_cons. by right. }
    exists ((k, val) :: kvs). split; [done |].
    intros kv [-> | Hkv]%elem_of_cons; [done | by apply Hkvs].
Qed.

(** X7: [parseVars] returns a map exactly when every [--var] argument
    contains ['=']; otherwise it panics. It logs nothing and never ends
    the process by [os.Exit]. *)
Theorem parseVars_returns_iff (ctx : Main.CliContext) :
  ((exists vars, Main.parseVars ctx = (Return vars, []))
   <-> forall v, v ∈ Main.StringSlice ctx "var" -> Contains v "=" = true)
  /\ ((exists vars, Main.parseVars ctx = (Return vars, []))
      \/ Main.parseVars ctx = (Panic "index out of range", [])).
Proof.
  split; [split |].
  - intros [vars Hvars] v Hv. destruct (Contains v "=") eqn:Hc; [done |].
    unfold Main.parseVars in Hvars.
    by rewrite (parseVarsFrom_panics _ _ v Hv Hc) in Hvars.
  - intros Hall. destruct (parseVarsFrom_returns _ Hall) as (kvs & Hkvs & Hkeys).
    exists (assignAll ∅ kvs). unfold Main.parseVars. rewrite Hkvs.
    by apply parseVarsFrom_encoded.
  - unfold Main.parseVars.
    destruct (parseVarsFrom_cases (Main.StringSlice ctx "var") ∅) as [Hp | Hr];
      [by right | by left].
Qed.

Lemma parseVars_returns_iff_witness :
  exists vars,
    Main.parseVars (Examples.commandLine [] [] "" ["a=1"; "b=x=y"]) = (Return vars, []).
Proof.
  apply (proj1 (parseVars_returns_iff (Examples.commandLine [] [] "" ["a=1"; "b=x=y"]))).
  intros v. cbn. rewrite !elem_of_cons.
  intros [-> | [-> | []%elem_of_nil]]; reflexivity.
Defined.

Lemma assignAll_snoc (vars : gmap string string) (kvs : list (string * string))
    (k v : string) :
  assignAll vars (kvs ++ [(k, v)]) !! k = Some v.
Proof. unfold assignAll. rewrite foldl_app. cbn. apply lookup_insert_eq. Qed.

Lemma assignAll_other (kvs : list (string * string)) (vars : gmap string string)
    (k : string) :
  (forall kv, kv ∈ kvs -> kv.1 <> k) -> assignAll vars kvs !! k = vars !! k.
Proof.
  revert vars. induction kvs as [| [k' v'] kvs IH]; intros vars Hk; [done |].
  cbn. rewrite IH.
  - apply lookup_insert_ne. apply (Hk (k', v')). rewrite elem_of_cons. by left.
  - intros kv Hkv. apply Hk. rewrite elem_of_cons. by right.
Qed.

(** X8: the key of a variable is the text before the first ['='] and
    its value all the text after it, which may itself contain ['='].
    The arguments are assigned in turn: parsing the arguments written
    for a list of pairs gives the map with the pairs assigned in order,
    so that of two arguments with the same key the later one counts, and
    a key that no argument has is not in the map. *)
Theorem parseVars_assigns_in_order (ctx : Main.CliContext) (kvs : list (string * string)) :
  Main.StringSlice ctx "var" = encodeVar <$> kvs ->
  (forall kv, kv ∈ kvs -> Contains kv.1 "=" = false) ->
  Main.parseVars ctx = (Return (assignAll ∅ kvs), [])
  /\ (forall kvs' k v, kvs = kvs' ++ [(k, v)] -> assignAll ∅ kvs !! k = Some v)
  /\ (forall kvs1 kvs2 k v,
        kvs = kvs1 ++ (k, v) :: kvs2 -> (forall kv, kv ∈ kvs2 -> kv.1 <> k) ->
        assignAll ∅ kvs !! k = Some v)
  /\ (forall k, (forall kv, kv ∈ kvs -> kv.1 <> k) -> assignAll ∅ kvs !! k = None).
Proof.
  intros Hvar Hkeys. split; [| split; [| split]].
  - unfold Main.parseVars. rewrite Hvar. by apply parseVarsFrom_encoded.
  - intros kvs' k v ->. apply assignAll_snoc.
  - intros kvs1 kvs2 k v -> Hlater. unfold assignAll. rewrite foldl_app. cbn.
    fold (assignAll (<[k:=v]> (foldl (fun m kv => <[kv.1:=kv.2]> m) ∅ kvs1)) kvs2).
    rewrite (assignAll_other _ _ _ Hlater). apply lookup_insert_eq.
  - intros k Hk. by rewrite (assignAll_other _ _ _ Hk).
Qed.

Lemma parseVars_assigns_in_order_witness :
  Main.parseVars (Examples.commandLine [] [] "" ["a=1"; "b=x=y"; "a=2"])
  = (Return (assignAll ∅ [("a", "1"); ("b", "x=y"); ("a", "2")]), [])
  /\ assignAll ∅ [("a", "1"); ("b", "x=y"); ("a", "2")] !! "a" = Some "2".
Proof.
  destruct (parseVars_assigns_in_order
              (Examples.commandLine [] [] "" ["a=1"; "b=x=y"; "a=2"])
              [("a", "1"); ("b", "x=y"); ("a", "2")]) as (Hparse & Hlast & _).
  - reflexivity.
  - intros kv. rewrite !elem_of_cons.
    intros [-> | [-> | [-> | []%elem_of_nil]]]; reflexivity.
  - split; [exact Hparse |]. by apply (Hlast [("a", "1"); ("b", "x=y")]).
Defined.

(** ** The default command *)

(** Takes [Action] apart along every branch it has. *)
Ltac action_cases host ctx :=
  unfold Main.Action, Main.detectFile, Main.mkBuilder, Main.parseVars;
  destruct (Main.Bool ctx "help");
  [| destruct (Main.Args ctx) as [| a0 rest]; [destruct (Main.Stat host "box.rb") |]];
  try (destruct (parseVarsFrom_cases (Main.StringSlice ctx "var") ∅)
         as [Hp | [vars Hp]]; rewrite Hp);
  cbn;
  try match goal with
      | |- context [Main.NewBuilder ?c] =>
          destruct (Main.NewBuilder c) as [[b | err] | c0 | p0]; cbn
      end;
  try match goal with
      | |- context [Main.Run ?b] =>
          destruct (Main.Run b) as [[b' result] | c1 | p1];
          [destruct (Err result) as [err |] | |]; cbn
      end;
  try match goal with
      | |- context [splitUpTo (Value ?r) ?c ?n] =>
          let id := fresh "id" in
          let Hid := fresh "Hid" in
          destruct (finish_id_returns (Value r)) as [id Hid];
          change (splitUpTo (Value r) c n) with (SplitN (Value r) c 2);
          rewrite Hid;
          destruct (negb (String.eqb (Value r) ""));
          destruct (negb (String.eqb (Main.String_ ctx "tag") ""));
          try match goal with
              | |- context [Main.Tag ?b ?t] =>
                  destruct (Main.Tag b t) as [[failed |] | c2 | p2]
              end;
          cbn
      end.

Lemma Contains_middle_char (k val : string) (sep : ascii) :
  Contains (k +:+ String sep val) (String sep "") = true.
Proof.
  change (k +:+ String sep val) with (k +:+ String sep "" +:+ val).
  apply Contains_middle.
Qed.

Lemma detectFile_cases (host : Main.Host) (ctx : Main.CliContext) :
  Main.detectFile host ctx = (Exit 0, [ShowAppHelp])
  \/ exists filename, Main.detectFile host ctx = (Return filename, []).
Proof.
  unfold Main.detectFile. destruct (Main.Args ctx) as [| a0 rest]; cbn.
  - destruct (Main.Stat host "box.rb"); [right | left | right]; by eexists.
  - right. by eexists.
Qed.

Section DefaultCommand.
Context {B : Type} `{Main.BuilderAPI B}.

Lemma Action_panics (host : Main.Host) (ctx : Main.CliContext) (p : string) :
  outcome (Main.Action host ctx) = Panic p ->
  Main.parseVars ctx = (Panic p, [])
  \/ (exists cfg, Main.NewBuilder cfg = Panic p)
  \/ (exists b, Main.Run b = Panic p)
  \/ (exists b tag, Main.Tag b tag = Panic p).
Proof.
  destruct (Main.Bool ctx "help") eqn:Hhelp.
  { by rewrite (Action_help _ _ Hhelp). }
  destruct (detectFile_cases host ctx) as [Hdetect | [filename Hdetect]].
  { unfold Main.Action. by rewrite Hhelp, Hdetect. }
  destruct (parseVarsFrom_cases (Main.StringSlice ctx "var") ∅) as [Hp | [vars Hp]].
  { unfold Main.Action, Main.parseVars. rewrite Hhelp, Hdetect, Hp. cbn.
    intros [= <-]. by left. }
  rewrite (Action_outcome host ctx filename vars Hhelp Hdetect Hp).
  unfold oneShot, passOn.
  destruct (Main.NewBuilder _) as [[b | err] | c | p0] eqn:Hnew; try done.
  - destruct (Main.Run b) as [[b' result] | c | p0] eqn:Hrun; try done.
    + cbn. destruct (Err result); [done |].
      destruct (String.eqb _ ""); [done |].
      destruct (Main.Tag b' _) as [[failed |] | c | p0] eqn:Htag; try done.
      intros [= <-]. right. right. right. by eexists _, _.
    + intros [= <-]. right. right. left. by eexists.
  - intros [= <-]. right. left. by eexists.
Qed.

(** X10: the default command closes its builder when it returns and
    when a panic unwinds after the builder was made (its runner is
    registered by then), as a panic inside [b.Run] or [b.Tag] does: the
    deferred [b.Close()] runs. On every way out through [os.Exit], also
    after a failed build or a failed tag, when a builder exists, the
    builder is not closed; nor is it on a panic before the builder
    exists. *)
Theorem builder_closed_unless_exit (host : Main.Host) (ctx : Main.CliContext) :
  CloseBuilder ∈ events (Main.Action host ctx)
  <-> outcome (Main.Action host ctx) = Return tt
      \/ exists p, outcome (Main.Action host ctx) = Panic p
                   /\ AddRunner ∈ events (Main.Action host ctx).
Proof.
  action_cases host ctx; cbn; rewrite ?elem_of_cons, ?elem_of_nil;
    (split;
     [ intros Hin;
       first [ left; reflexivity
             | right; eexists; split; [reflexivity |];
               rewrite ?elem_of_cons; tauto
             | exfalso; intuition discriminate ]
     | intros [Hret | (p & Hpanic & Hin)];
       first [ discriminate
             | tauto
             | rewrite ?elem_of_cons, ?elem_of_nil in Hin; intuition discriminate ] ]).
Qed.

(** X11: the whole course of a default command that succeeds without
    a tag, for an image reference with a colon in it: the scope is made,
    the cancel function and the runner are registered once the builder
    exists, the reference is shown, the text after its first colon is
    reported as the finished id, and the builder is closed last. *)
Theorem successful_build_trace (host : Main.Host) (ctx : Main.CliContext)
    (filename : string) (vars : gmap string string) (b b' : B)
    (result : BuildResult) (algorithm id : string) :
  Main.Bool ctx "help" = false ->
  Main.detectFile host ctx = (Return filename, []) ->
  Main.parseVars ctx = (Return vars, []) ->
  Main.NewBuilder (actionConfig host ctx filename vars) = Return (inl b) ->
  Main.Run b = Return (b', result) ->
  Err result = None ->
  Value result = algorithm +:+ String ":" id ->
  Contains algorithm ":" = false ->
  Main.String_ ctx "tag" = "" ->
  Main.Action host ctx
  = (Return tt, [WithCancel 0; AddFunc 0; AddRunner;
                 LogEvalResponse (Value result); LogFinish id; CloseBuilder]).
Proof.
  intros Hhelp Hdetect Hparse Hnew Hrun Herr Hvalue Halg Htag.
  unfold Main.Action. rewrite Hhelp, Hdetect. cbn. rewrite Hparse. cbn.
  unfold Main.mkBuilder.
  change (Main.NewBuilder _) with (Main.NewBuilder (actionConfig host ctx filename vars)).
  rewrite Hnew. cbn. rewrite Hrun. cbn. rewrite Herr, Htag. cbn.
  change (splitUpTo (Value result) ":" (Z.to_nat 2))
    with (splitUpTo (Value result) ":" 2).
  rewrite Hvalue, (splitUpTo_cut _ _ _ Halg), Contains_middle_char.
  assert (Hne : String.eqb (algorithm +:+ String ":" id) "" = false)
    by (by destruct algorithm).
  by rewrite Hne.
Qed.

End DefaultCommand.

Lemma builder_closed_unless_exit_witness :
  CloseBuilder
  ∈ events (@Main.Action _ Examples.fileBuilders (Examples.hostWith ∅ [])
              (Examples.commandLine ["panics.rb"] [] "" []))
  /\ CloseBuilder
     ∉ events (@Main.Action _ Examples.fileBuilders (Examples.hostWith ∅ [])
                 (Examples.commandLine ["bad.rb"] [] "" [])).
Proof.
  split.
  - apply (@builder_closed_unless_exit _ Examples.fileBuilders (Examples.hostWith ∅ [])
             (Examples.commandLine ["panics.rb"] [] "" [])).
    right. exists "index out of range". split; [reflexivity |].
    by apply (list_elem_of_lookup_2 _ 2).
  - intros Hin.
    apply (@builder_closed_unless_exit _ Examples.fileBuilders (Examples.hostWith ∅ [])
             (Examples.commandLine ["bad.rb"] [] "" [])) in Hin.
    destruct Hin as [Hret | (p & Hpanic & _)]; discriminate.
Defined.

Lemma successful_build_trace_witness :
  @Main.Action _ Examples.fileBuilders
    (Examples.hostWith ∅ ["box.rb"]) (Examples.commandLine [] [] "" ["a=1"])
  = (Return tt, [WithCancel 0; AddFunc 0; AddRunner;
                 LogEvalResponse "sha256:0a1b"; LogFinish "0a1b"; CloseBuilder]).
Proof.
  apply (@successful_build_trace _ Examples.fileBuilders
           (Examples.hostWith ∅ ["box.rb"]) (Examples.commandLine [] [] "" ["a=1"])
           "box.rb" {["a" := "1"]} "box.rb" "box.rb"
           (mkBuildResult "sha256:0a1b" None) "sha256" "0a1b");
    reflexivity.
Defined.

(** ** The multi command *)

Section MultiCommand.
Context {B : Type} `{Main.BuilderAPI B}.

(** X12: [runMulti] makes the scope of a plan and registers its cancel
    function and its runner before it makes the builder of the plan.
    When the variables parse and every builder is made, it makes one
    builder per file name, in the order of the command line, each from
    its own file name, the variables of the command line and a scope of
    its own, nothing else is logged before the builds are awaited, and
    the command ends as the wait does: with status 2 after logging the
    error that the wait returns, by returning when it returns none, and
    with the exit or the panic of the wait itself. When making the
    builder of a plan ends the process, by [os.Exit] or by a panic, the
    registration of that plan is logged already. *)
Theorem multi_starts_every_plan (host : Main.Host) (ctx : Main.CliContext)
    (vars : gmap string string) :
  Main.parseVars ctx = (Return vars, []) ->
  ((forall (i : nat) file, Main.Args ctx !! i = Some file ->
      exists b, Main.NewBuilder (multiConfig host ctx file vars i) = Return (inl b)) ->
   exists builders,
     Main.multiBuilders host ctx (Main.Args ctx) 0 []
     = (Return builders, planEvents 0 (length (Main.Args ctx)))
     /\ length builders = length (Main.Args ctx)
     /\ (forall (i : nat) file, Main.Args ctx !! i = Some file ->
           exists b, builders !! i = Some b
                     /\ Main.NewBuilder (multiConfig host ctx file vars i)
                        = Return (inl b))
     /\ Main.runMulti host ctx
        = match Main.MultiWait builders with
          | Return (Some err) =>
              (Exit 2, planEvents 0 (length (Main.Args ctx)) ++ [LogError err])
          | Return None => (Return tt, planEvents 0 (length (Main.Args ctx)))
          | Exit c => (Exit c, planEvents 0 (length (Main.Args ctx)))
          | Panic p => (Panic p, planEvents 0 (length (Main.Args ctx)))
          end)
  /\ (forall pre file post,
        Main.Args ctx = pre ++ file :: post ->
        (forall (i : nat) f, pre !! i = Some f ->
           exists b, Main.NewBuilder (multiConfig host ctx f vars i) = Return (inl b)) ->
        (forall c, Main.NewBuilder (multiConfig host ctx file vars (length pre)) = Exit c ->
           Main.runMulti host ctx
           = (Exit c, planEvents 0 (length pre)
                      ++ [WithCancel (length pre); AddFunc (length pre); AddRunner]))
        /\ (forall p, Main.NewBuilder (multiConfig host ctx file vars (length pre))
                      = Panic p ->
              Main.runMulti host ctx
              = (Panic p, planEvents 0 (length pre)
                          ++ [WithCancel (length pre); AddFunc (length pre); AddRunner]))).
Proof.
  intros Hparse. split.
  - intros Hmade.
    destruct (runMulti_all_made host ctx vars Hparse Hmade)
      as (made & Hrun & Hlen & Heach).
    exists made. split; [exact Hrun |]. split; [exact Hlen |]. split; [exact Heach |].
    exact (runMulti_wait _ _ _ _ Hrun).
  - intros pre file post Hargs Hmade.
    split; intros e He;
      rewrite (runMulti_stops _ _ _ _ _ _ Hparse Hargs Hmade) by (by rewrite He);
      by rewrite He, planEvents_snoc, app_nil_r.
Qed.

(** X13: [runMulti] stops at the first file whose builder cannot be
    made: it has registered the cancel function and the runner of that
    plan already, logs the error and ends the process with status 1; the
    files after it get no scope and no builder, and the builders made
    before it are never run. *)
Theorem multi_stops_at_first_failure (host : Main.Host) (ctx : Main.CliContext)
    (vars : gmap string string) (pre post : list string) (file err : string) :
  Main.parseVars ctx = (Return vars, []) ->
  Main.Args ctx = pre ++ file :: post ->
  (forall (i : nat) f, pre !! i = Some f ->
     exists b, Main.NewBuilder (multiConfig host ctx f vars i) = Return (inl b)) ->
  Main.NewBuilder (multiConfig host ctx file vars (length pre)) = Return (inr err) ->
  Main.runMulti host ctx
  = (Exit 1, planEvents 0 (S (length pre)) ++ [LogError err]).
Proof.
  intros Hparse Hargs Hmade Hfail.
  rewrite (runMulti_stops _ _ _ _ _ _ Hparse Hargs Hmade) by (by rewrite Hfail).
  by rewrite Hfail.
Qed.

End MultiCommand.

Lemma multi_starts_every_plan_witness :
  @Main.runMulti _ Examples.fileBuilders (Examples.hostWith ∅ [])
    (Examples.commandLine ["a.rb"; "b.rb"] [] "" ["k=v"])
  = (Return tt, [WithCancel 0; AddFunc 0; AddRunner; WithCancel 1; AddFunc 1; AddRunner]).
Proof.
  destruct (@multi_starts_every_plan _ Examples.fileBuilders (Examples.hostWith ∅ [])
              (Examples.commandLine ["a.rb"; "b.rb"] [] "" ["k=v"]) {["k" := "v"]}
              eq_refl) as [Hall _].
  destruct Hall as (builders & Hmade & _ & _ & Hrun).
  - intros [| [| i]] file [= <-]; by eexists.
  - rewrite Hrun. injection Hmade as <-. reflexivity.
Defined.

Lemma multi_stops_at_first_failure_witness :
  @Main.runMulti _ Examples.fileBuilders (Examples.hostWith ∅ [])
    (Examples.commandLine ["a.rb"; "missing.rb"; "b.rb"] [] "" [])
  = (Exit 1, [WithCancel 0; AddFunc 0; AddRunner; WithCancel 1; AddFunc 1; AddRunner;
              LogError "no such plan"]).
Proof.
  apply (@multi_stops_at_first_failure _ Examples.fileBuilders (Examples.hostWith ∅ [])
           (Examples.commandLine ["a.rb"; "missing.rb"; "b.rb"] [] "" [])
           ∅ ["a.rb"] ["b.rb"] "missing.rb" "no such plan").
  - reflexivity.
  - reflexivity.
  - intros [| i] f [= <-]. by eexists.
  - reflexivity.
Defined.

(** ** Panics of the commands *)

Lemma parseVars_panic_cause (ctx : Main.CliContext) (p : string) :
  Main.parseVars ctx = (Panic p, []) ->
  exists v, v ∈ Main.StringSlice ctx "var" /\ Contains v "=" = false.
Proof.
  intros Hpanic.
  destruct (decide (Forall (fun v => Contains v "=" = true) (Main.StringSlice ctx "var")))
    as [Hall | Hnot].
  - rewrite Forall_forall in Hall.
    destruct (parseVarsFrom_returns _ Hall) as (kvs & Hkvs & Hkeys).
    unfold Main.parseVars in Hpanic.
    by rewrite Hkvs, (parseVarsFrom_encoded _ _ Hkeys) in Hpanic.
  - apply not_Forall_Exists in Hnot; [| apply _].
    apply Exists_exists in Hnot as (v & Hv & Hc).
    exists v. split; [done |]. by apply not_true_is_false.
Qed.

Section Panics.
Context {B : Type} `{Main.BuilderAPI B}.
Context {E Exec Interp : Type} `{Repl.Evaluator E} `{Repl.Backend E Exec Interp}.

Lemma multiBuilders_panics (host : Main.Host) (ctx : Main.CliContext)
    (args : list string) (n : Scope) (builders : list B) (p : string) :
  outcome (Main.multiBuilders host ctx args n builders) = Panic p ->
  Main.parseVars ctx = (Panic p, []) \/ exists cfg, Main.NewBuilder cfg = Panic p.
Proof.
  revert n builders. induction args as [| file args IH]; intros n builders; [done |].
  destruct (parseVarsFrom_cases (Main.StringSlice ctx "var") ∅) as [Hp | [vars Hp]].
  - rewrite multiBuilders_cons. unfold Main.parseVars. rewrite Hp. cbn.
    intros [= <-]. by left.
  - rewrite (multiBuilders_step _ _ vars _ _ _ _ Hp).
    destruct (Main.NewBuilder _) as [[b | err] | c | p0] eqn:Hnew; [apply IH | done | done |].
    intros [= <-]. right. by eexists.
Qed.

Lemma NewRepl_returns omit log vs (p0 : Repl.Process) :
  exists p made, outcome (Repl.NewRepl omit log vs p0) = Return (p, made).
Proof.
  unfold Repl.NewRepl. destruct Repl.readlineNew; [by eexists _, _ |]. cbn.
  destruct (Repl.NewDocker _); cbn; [| by eexists _, _].
  destruct (Repl.NewMRuby _); by eexists _, _.
Qed.

Lemma runRepl_panics (ctx : Main.CliContext) (inputs : list Repl.ChanInput) (p : string) :
  outcome (Main.runRepl ctx inputs) = Panic p ->
  Main.parseVars ctx = (Panic p, []).
Proof.
  unfold Main.runRepl.
  destruct (parseVarsFrom_cases (Main.StringSlice ctx "var") ∅) as [Hp | [vars Hp]];
    unfold Main.parseVars; rewrite Hp; [by intros [= <-] |].
  rewrite (bind_return _ _ _ _ eq_refl). cbn [outcome fst].
  intros [Hnew | ([p1 [r | err]] & _ & Hrest)]%bind_panic_inv; exfalso.
  - destruct (NewRepl_returns (Main.GlobalStringSlice ctx "omit")
                (mkLogger "repl" (Main.GlobalBool ctx "no-trim")) vars
                (Repl.mkProcess Signal.initial (mkScopes 0 ∅))) as (p1 & made & Hmade).
    congruence.
  - apply bind_panic_inv in Hrest as [Hloop | (st & _ & Hret)]; [| done].
    rewrite Loop_outcome in Hloop.
    by destruct (outcome (Repl.doLoop r p1 inputs)).
  - done.
Qed.

(** X9: apart from panics raised inside the packages it calls, the
    code of [main.go] panics only in [parseVars]. When the default
    command or [multi] ends in a panic, either it is the panic of
    [parseVars], and then some [--var] argument has no ['='], or it is a
    panic raised inside an operation of the builder ([NewBuilder],
    [Run], [Tag], or the wait of [multi]), which [main.go] does not
    recover. When the session command ends in a panic, it is the panic
    of [parseVars]: a panic of the evaluator is caught by [Loop]. The
    other indexed accesses, the first argument in [detectFile] and the
    text after the colon in [Action], are always in range. *)
Theorem panics_of_the_commands
    (host : Main.Host) (ctx : Main.CliContext) (p : string) :
  (outcome (Main.Action host ctx) = Panic p ->
     (Main.parseVars ctx = (Panic p, [])
      /\ exists v, v ∈ Main.StringSlice ctx "var" /\ Contains v "=" = false)
     \/ (exists cfg, Main.NewBuilder cfg = Panic p)
     \/ (exists b, Main.Run b = Panic p)
     \/ (exists b tag, Main.Tag b tag = Panic p))
  /\ (outcome (Main.runMulti host ctx) = Panic p ->
        (Main.parseVars ctx = (Panic p, [])
         /\ exists v, v ∈ Main.StringSlice ctx "var" /\ Contains v "=" = false)
        \/ (exists cfg, Main.NewBuilder cfg = Panic p)
        \/ (exists builders, Main.MultiWait builders = Panic p))
  /\ (forall inputs,
        outcome (Main.runRepl ctx inputs) = Panic p ->
        Main.parseVars ctx = (Panic p, [])
        /\ exists v, v ∈ Main.StringSlice ctx "var" /\ Contains v "=" = false).
Proof.
  split; [| split].
  - intros [Hp | Hb]%Action_panics; [left | by right].
    split; [exact Hp | by apply (parseVars_panic_cause ctx p)].
  - unfold Main.runMulti.
    intros [Hp | (bs & _ & Hp)]%bind_panic_inv.
    + apply multiBuilders_panics in Hp as [Hp | Hb]; [left | right; by left].
      split; [exact Hp | by apply (parseVars_panic_cause ctx p)].
    + right. right. exists bs.
      destruct (Main.MultiWait bs) as [[err |] | c | p0]; try done.
      by injection Hp as <-.
  - intros inputs Hp%runRepl_panics.
    split; [exact Hp | by apply (parseVars_panic_cause ctx p)].
Qed.

End Panics.

Lemma panics_of_the_commands_witness :
  (exists v, v ∈ ["a=1"; "foo"] /\ Contains v "=" = false)
  /\ exists b, Examples.fileRun b = Panic "index out of range".
Proof.
  split.
  - destruct (@panics_of_the_commands _ Examples.fileBuilders _ _ _
                Examples.stackEvaluator Examples.localBackend
                (Examples.hostWith ∅ ["box.rb"])
                (Examples.commandLine [] [] "" ["a=1"; "foo"]) "index out of range")
      as (_ & _ & Hrepl).
    exact (proj2 (Hrepl [] eq_refl)).
  - destruct (@panics_of_the_commands _ Examples.fileBuilders _ _ _
                Examples.stackEvaluator Examples.localBackend
                (Examples.hostWith ∅ [])
                (Examples.commandLine ["panics.rb"] [] "" []) "index out of range")
      as (Haction & _).
    destruct (Haction eq_refl) as [[Hp _] | [[cfg Hc] | [Hrun | (b & t & Ht)]]].
    + discriminate Hp.
    + exfalso. cbn in Hc. by destruct (String.eqb _ _).
    + exact Hrun.
    + discriminate Ht.
Defined.

(** ** Starting the session *)

Section Starting.
Context {E Exec Interp : Type} `{Repl.Evaluator E} `{Repl.Backend E Exec Interp}.
Implicit Types (st : Repl.State E) (r : Repl.Repl E).

(** X14: [NewRepl] always returns. When it returns a session, the
    handler is in interactive mode, the scope it made is the last one
    registered and (in a well-formed process) live, and the session has
    the normal prompt, the variables it was given, colour forced on and
    the cache off. When it returns an error, no cancel function has
    been registered and no scope of its own is left live: the scope made
    before a constructor failed is cancelled, and a failure of
    [readline.New] leaves the process as it was. *)
Theorem NewRepl_outcomes omit log vs (p0 : Repl.Process) :
  let ctx := nextScope (Repl.scopes p0) in
  exists p made,
    outcome (Repl.NewRepl omit log vs p0) = Return (p, made)
    /\ match made with
       | inl r =>
           p = Repl.mkProcess (addFunc (setInteractive (Repl.handler p0)) ctx)
                 (mkScopes (S ctx) (cancelled (Repl.scopes p0)))
           /\ r = Repl.mkRepl Repl.normalPrompt (Repl.evaluator r)
                    (mkGlobal omit Repl.termIsTerminal true false true log ctx) vs
           /\ (wellFormed p0 -> live (Repl.scopes p) ctx)
       | inr err =>
           hfuncs (Repl.handler p) = hfuncs (Repl.handler p0)
           /\ (forall s, live (Repl.scopes p) s -> live (Repl.scopes p0) s)
           /\ (Repl.readlineNew = Some err -> p = p0)
       end.
Proof.
  intros ctx. unfold Repl.NewRepl.
  destruct Repl.readlineNew as [err |] eqn:Hrl.
  { eexists _, _. split; [reflexivity |]. done. }
  assert (Hfail : forall s,
            live (cancelScope ctx (mkScopes (S ctx) (cancelled (Repl.scopes p0)))) s ->
            live (Repl.scopes p0) s).
  { unfold live. cbn. intros s [Hlt Hs]. rewrite elem_of_union, elem_of_singleton in Hs.
    split; [| tauto]. destruct (decide (s = ctx)); [tauto | unfold ctx in *; lia]. }
  cbn. destruct (Repl.NewDocker _) as [exec | err]; cbn.
  - destruct (Repl.NewMRuby _) as [e | err]; cbn.
    + eexists _, _. split; [reflexivity |]. split; [done |]. split; [done |].
      intros [Hcancelled _]. unfold live. cbn. split; [lia |].
      intros Hin. apply Hcancelled in Hin. unfold ctx in *. lia.
    + eexists _, _. split; [reflexivity |]. done.
  - eexists _, _. split; [reflexivity |]. done.
Qed.

Lemma NewRepl_session omit log vs (p0 p : Repl.Process) r :
  outcome (Repl.NewRepl omit log vs p0) = Return (p, inl r) ->
  Repl.globals r
  = mkGlobal omit Repl.termIsTerminal true false true log (nextScope (Repl.scopes p0))
  /\ Repl.vars r = vs.
Proof. unfold Repl.NewRepl. intros Hmade. branches. done. Qed.

(** X15: all through a session the settings are those [NewRepl] chose:
    the functions to omit and the logger it was given, colour on, the
    cache off, run output shown; only the cancellation context changes
    from turn to turn, and the variables stay those it was given. *)
Theorem session_settings_are_fixed omit log vs (p0 p : Repl.Process) r st :
  outcome (Repl.NewRepl omit log vs p0) = Return (p, inl r) ->
  reachable (Repl.initialState r p) st ->
  Repl.globals (Repl.repl st)
  = mkGlobal omit Repl.termIsTerminal true false true log
      (Context (Repl.globals (Repl.repl st)))
  /\ Repl.vars (Repl.repl st) = vs.
Proof.
  intros Hmade Hreach. apply NewRepl_session in Hmade as [Hglobals Hvars].
  induction Hreach as [| st _ IH | st inp st' _ IH Hturn | st _ IH].
  - cbn. by rewrite Hglobals.
  - destruct IH as [IHg IHv]. split; [| exact IHv].
    unfold begun. cbn. by rewrite IHg.
  - apply evaluateInput_keeps in Hturn as (_ & _ & -> & ->). exact IH.
  - exact IH.
Qed.

Lemma evaluateInput_prompt st inp :
  returning (fun st' => Repl.line st' <> "" ->
                        Repl.readline (Repl.repl st') = Repl.multilinePrompt)
    (Repl.evaluateInput st inp).
Proof.
  intros st' Hst'.
  unfold Repl.evaluateInput, Repl.readChannels, Repl.handleError, Repl.checkQuit in Hst'.
  destruct st as [[rl ev g vs] p ln keep c]. cbn in Hst'.
  branches; done.
Qed.

(** X16: whenever the session keeps text for a statement that is not
    finished, its prompt is the continuation prompt. *)
Theorem kept_text_shows_continuation_prompt r (p : Repl.Process) st :
  reachable (Repl.initialState r p) st ->
  Repl.line st <> "" ->
  Repl.readline (Repl.repl st) = Repl.multilinePrompt.
Proof.
  intros Hreach. induction Hreach as [| st _ IH | st inp st' _ IH Hturn | st _ IH].
  - done.
  - exact IH.
  - by apply (evaluateInput_prompt st inp).
  - exact IH.
Qed.

End Starting.

Lemma NewRepl_outcomes_witness :
  live (Repl.scopes Examples.freshProcess) 0.
Proof.
  destruct (@NewRepl_outcomes _ _ _ Examples.localBackend [] (mkLogger "repl" false) ∅
              Examples.processStart) as (p & made & Hmade & Hrest).
  injection Hmade as <- <-. destruct Hrest as (_ & _ & Hlive).
  apply Hlive. split; cbn; intros s Hs.
  - by apply not_elem_of_empty in Hs.
  - by apply elem_of_nil in Hs.
Defined.

Lemma session_settings_are_fixed_witness :
  Cache (Repl.globals (Repl.repl Examples.afterOneTurn)) = false.
Proof.
  destruct (@session_settings_are_fixed _ _ _ Examples.stackEvaluator Examples.localBackend
              [] (mkLogger "repl" false) ∅ Examples.processStart
              Examples.freshProcess Examples.freshRepl Examples.afterOneTurn)
    as [Hglobals _].
  - reflexivity.
  - apply (reach_evaluate _ (begun (Repl.initialState Examples.freshRepl Examples.freshProcess))
             (Repl.FromLineChan "from :debian")).
    + apply reach_begin, reach_start.
    + vm_compute. reflexivity.
  - by rewrite Hglobals.
Defined.

Lemma pendingState_reachable :
  @reachable _ _ _ Examples.stackEvaluator Examples.localBackend
    (Repl.initialState Examples.freshRepl Examples.freshProcess) pendingState.
Proof.
  apply (reach_evaluate _ (begun (Repl.initialState Examples.freshRepl Examples.freshProcess))
           (Repl.FromLineChan "begin")).
  - apply reach_begin, reach_start.
  - vm_compute. reflexivity.
Defined.

Lemma kept_text_shows_continuation_prompt_witness :
  Repl.readline (Repl.repl pendingState) = Repl.multilinePrompt.
Proof.
  apply (@kept_text_shows_continuation_prompt _ _ _ Examples.stackEvaluator
           Examples.localBackend Examples.freshRepl Examples.freshProcess pendingState).
  - exact pendingState_reachable.
  - discriminate.
Defined.

(** ** Turns of the loop *)

Lemma countSync_app (l1 l2 : list Event) :
  countSync (l1 ++ l2) = countSync l1 + countSync l2.
Proof. unfold countSync. by rewrite List.filter_app, length_app. Qed.

Section Turns.
Context {E Exec Interp : Type} `{Repl.Evaluator E} `{Repl.Backend E Exec Interp}.
Implicit Types (st : Repl.State E) (r : Repl.Repl E) (inp : Repl.ChanInput).

Lemma beginEvents_no_sync st : countSync (beginEvents st) = 0.
Proof. unfold beginEvents. by destruct (Repl.cancel st). Qed.

Lemma evaluateInput_sync st inp :
  match outcome (Repl.evaluateInput st inp) with
  | Return _ =>
      last (events (Repl.evaluateInput st inp)) = Some Sync
      /\ countSync (events (Repl.evaluateInput st inp)) = 1
  | _ => countSync (events (Repl.evaluateInput st inp)) = 0
  end.
Proof.
  unfold Repl.evaluateInput, Repl.readChannels, Repl.handleError, Repl.checkQuit.
  destruct st as [[rl ev g vs] p ln keep c]. cbn.
  branches; done.
Qed.

(** X17: a turn of the loop that goes on to the next turn releases the
    reader exactly once, as the last thing it does; a turn that ends the
    process or panics does not release it. *)
Theorem reader_released_once_per_turn st inp :
  match outcome (Repl.iteration st inp) with
  | Return _ =>
      last (events (Repl.iteration st inp)) = Some Sync
      /\ countSync (events (Repl.iteration st inp)) = 1
  | _ => countSync (events (Repl.iteration st inp)) = 0
  end.
Proof.
  rewrite iteration_eq. cbn [outcome events fst snd].
  pose proof (evaluateInput_sync (begun st) inp) as Hturn.
  rewrite countSync_app, beginEvents_no_sync.
  destruct (outcome (Repl.evaluateInput (begun st) inp)); [| done | done].
  destruct Hturn as [Hlast Hcount]. split; [| done].
  by rewrite last_app, Hlast.
Qed.


(** X19: an interrupt never reaches the evaluator and never ends the
    process: the turn drops the text kept so far and leaves the
    evaluator and the stack depth as they were. An interrupt reported by
    the reader puts the normal prompt back when text was kept and
    prints a hint otherwise; a signal with no error pending says that
    the statement is cancelled and leaves the prompt as it is, also when
    it is the continuation prompt. *)
Theorem interrupt_drops_text st :
  let r := Repl.repl st in
  let dropped r' := Repl.mkState r' (Repl.proc st) "" (Repl.stackKeep st) (Repl.cancel st) in
  Repl.evaluateInput st (Repl.FromSignals None)
  = (Return (dropped r), [Printf "%s\n" ["Statement canceled."]; Sync])
  /\ Repl.evaluateInput st (Repl.FromErrChan Repl.Interrupt)
     = (if negb (String.eqb (Repl.line st) "") then
          (Return (dropped (Repl.setPrompt r Repl.normalPrompt)),
           [SetPrompt Repl.normalPrompt; Sync])
        else (Return (dropped r), [Printf "%s\n" [Repl.exitHint]; Sync]))
  /\ Repl.evaluateInput st (Repl.FromSignals (Some Repl.Interrupt))
     = (if negb (String.eqb (Repl.line st) "") then
          (Return (dropped (Repl.setPrompt r Repl.normalPrompt)),
           [Printf "%s\n" ["Statement canceled."]; SetPrompt Repl.normalPrompt; Sync])
        else (Return (dropped r),
              [Printf "%s\n" ["Statement canceled."]; Printf "%s\n" [Repl.exitHint];
               Sync])).
Proof.
  intros r dropped. subst r dropped.
  unfold Repl.evaluateInput, Repl.readChannels, Repl.handleError.
  split; [done |]. split; by destruct (negb (String.eqb (Repl.line st) "")).
Qed.

End Turns.

(** ** Starting the session from the command line *)

Section RunRepl.
Context {E Exec Interp : Type} `{Repl.Evaluator E} `{Repl.Backend E Exec Interp}.

(** X20: when [NewRepl] returns an error, [runRepl] logs it as an error
    of bootstrapping and ends the process with status 1; the loop is not
    entered, so the help is not printed and no input is read, whatever
    input is waiting. *)
Theorem session_not_started_on_error (ctx : Main.CliContext)
    (inputs : list Repl.ChanInput) (vars : gmap string string)
    (p : Repl.Process) (err : string) (evs : list Event) :
  Main.parseVars ctx = (Return vars, []) ->
  Repl.NewRepl (Main.GlobalStringSlice ctx "omit")
    (mkLogger "repl" (Main.GlobalBool ctx "no-trim")) vars
    (Repl.mkProcess Signal.initial (mkScopes 0 ∅))
  = (Return (p, inr err), evs) ->
  Main.runRepl ctx inputs
  = (Exit 1, evs ++ [LogError ("bootstrapping repl: " +:+ err +:+ NL)]).
Proof.
  intros Hparse Hnew. unfold Main.runRepl.
  rewrite (bind_return _ _ _ _ Hparse). cbn [app].
  by rewrite (bind_return _ _ _ _ Hnew).
Qed.

End RunRepl.

Lemma session_not_started_on_error_witness :
  @Main.runRepl _ _ _ Examples.stackEvaluator brokenBackend
    (Examples.commandLine [] [] "" ["k=v"]) [Repl.FromLineChan "from :debian"]
  = (Exit 1, [WithCancel 0; CallNewDocker; Cancel 0;
              LogError ("bootstrapping repl: cannot connect to the engine" +:+ NL)]).
Proof.
  apply (@session_not_started_on_error _ _ _ Examples.stackEvaluator brokenBackend
           (Examples.commandLine [] [] "" ["k=v"]) [Repl.FromLineChan "from :debian"]
           {["k" := "v"]}
           (Repl.mkProcess (setInteractive Signal.initial) (mkScopes 1 {[0]}))
           "cannot connect to the engine" [WithCancel 0; CallNewDocker; Cancel 0]).
  - reflexivity.
  - vm_compute. reflexivity.
Defined.
